(** * muod: the ICMP transports, the resolver and the round loop

    A shallow embedding of

      - [pkg/ping/ping.go]          ([HostInfo], [Pinger], [ResolveHosts], [New]),
      - [pkg/ping/ping_unix.go]     ([unixPinger]: [newPinger], [Close],
                                     [createICMPMessage], [Ping]),
      - [pkg/ping/ping_windows.go]  ([windowsPinger]: [newPinger], [Close], [Ping]),
      - [cmd/muod/main.go]          ([monitorHosts] and the tail of [main]),

    together with a model of the operating system the program talks to.
    Go's [int], [int64] and [time.Duration] are [Z] with the 64-bit
    wrap-around written out, [uint32] is [Z] reduced modulo 2^32, bytes are
    [Z] in 0..255, and a Go result pair [(v, err)] is a Rocq pair whose second
    component is an [option error] ([None] is Go's [nil]). *)

From Stdlib Require Import ZArith List Bool String Ascii Lia.
Import ListNotations.
Local Open Scope Z_scope.

Set Implicit Arguments.

(* ------------------------------------------------------------------ *)
(** ** Machine integers and durations *)

Definition max_int64 : Z := 9223372036854775807.
Definition min_int64 : Z := -9223372036854775808.

(** Two's-complement reduction to a signed 64-bit integer. *)
Definition wrap64 (z : Z) : Z := (z + 2 ^ 63) mod 2 ^ 64 - 2 ^ 63.

(** Go's conversions [uint32(x)] and [uint16(x)]. *)
Definition uint32 (z : Z) : Z := z mod 2 ^ 32.
Definition uint16 (z : Z) : Z := z mod 2 ^ 16.

(** [time.Duration] is an [int64] count of nanoseconds; [time.Time] is an
    instant, in nanoseconds on the monotonic clock. *)
Definition Duration := Z.
Definition Time := Z.

Definition Millisecond : Duration := 1000000.
Definition Second : Duration := 1000000000.

(** [Duration.Milliseconds]: integer division, truncated toward zero. *)
Definition Milliseconds (d : Duration) : Z := Z.quot d 1000000.

(** Product of two [time.Duration] values, as [int64] multiplication. *)
Definition Duration_mul (a b : Duration) : Duration := wrap64 (a * b).

(** [Time.Add]. *)
Definition Time_Add (t : Time) (d : Duration) : Time := t + d.

(** [Time.Sub]: the difference, saturated to the range of a [Duration]. *)
Definition Time_Sub (t u : Time) : Duration :=
  Z.max min_int64 (Z.min max_int64 (t - u)).

(* ------------------------------------------------------------------ *)
(** ** Bytes, addresses and errors *)

Definition byte := Z.

(** The bytes of a string literal, as [[]byte("...")] yields them. *)
Fixpoint bytes_of_string (s : string) : list byte :=
  match s with
  | EmptyString => []
  | String c s' => Z.of_nat (nat_of_ascii c) :: bytes_of_string s'
  end.

(** [net.IP] is a byte slice: 4 bytes for IPv4, 16 for IPv6. *)
Definition IP := list byte.

Definition isZeros (p : list byte) : bool := forallb (Z.eqb 0) p.

(** [net.IP.To4]: the 4-byte form of an IPv4 address (also when it is held
    in the 16-byte IPv4-in-IPv6 form), [None] (Go's [nil]) otherwise. *)
Definition To4 (ip : IP) : option IP :=
  if (List.length ip =? 4)%nat then Some ip
  else if (List.length ip =? 16)%nat
          && isZeros (firstn 10 ip)
          && (nth 10 ip 0 =? 255) && (nth 11 ip 0 =? 255)
       then Some (skipn 12 ip)
       else None.

(** [binary.LittleEndian.Uint32]: it indexes [b[3]] first, so it panics
    ([None]) on a slice of fewer than four bytes. *)
Definition LittleEndian_Uint32 (b : list byte) : option Z :=
  match b with
  | b0 :: b1 :: b2 :: b3 :: _ =>
      Some (Z.lor b0 (Z.lor (Z.shiftl b1 8)
                     (Z.lor (Z.shiftl b2 16) (Z.shiftl b3 24))))
  | _ => None
  end.

(** The errors the program can see.  Library errors keep the constructor of
    the call that produced them; the two errors the program builds itself
    with [fmt.Errorf] in [ResolveHosts] and the ones of the two [Ping]
    bodies carry their arguments. *)
Inductive error : Type :=
| ErrClosed                      (* net: use of closed network connection *)
| ErrInvalidConn                 (* icmp: invalid connection *)
| ErrDeadline                    (* os: i/o timeout *)
| ErrSys (errno : Z)             (* any other error of a system call *)
| ErrParse (code : Z)            (* an error of icmp.ParseMessage *)
| ErrLookup (code : Z)           (* an error of net.LookupIP *)
| ErrResolve (host : string) (cause : error)   (* "failed to resolve %s: %v" *)
| ErrNoIPv4 (host : string)                    (* "no IPv4 address found for %s" *)
| ErrUnexpectedType (ty : Z)     (* "unexpected ICMP message type: %v" *)
| ErrLoadDLL (cause : error)     (* "failed to load iphlpapi.dll: %v" *)
| ErrFindProc (name : string) (cause : error)  (* "failed to find ...: %v" *)
| ErrCreateFile (cause : error)  (* "IcmpCreateFile failed: %v" *)
| ErrSendEcho (cause : error).   (* "IcmpSendEcho failed: %v" *)

(* ------------------------------------------------------------------ *)
(** ** How a computation can end *)

Inductive Outcome (A : Type) : Type :=
| Ret (a : A)          (* the call returned *)
| Exit (code : Z)      (* os.Exit: the process ends, deferred calls do not run *)
| Killed               (* ended by a signal: deferred calls do not run *)
| Panicked             (* a run-time panic unwinds the stack *)
| Diverge.             (* the call has not returned (still running, or blocked) *)

Arguments Exit {A} code.
Arguments Killed {A}.
Arguments Panicked {A}.
Arguments Diverge {A}.

(** A computation over a state [S]. *)
Definition M (S A : Type) : Type := S -> Outcome A * S.

Definition ret {S A} (a : A) : M S A := fun s => (Ret a, s).

Definition bind {S A B} (m : M S A) (k : A -> M S B) : M S B :=
  fun s =>
    match m s with
    | (Ret a, s') => k a s'
    | (Exit c, s') => (Exit c, s')
    | (Killed, s') => (Killed, s')
    | (Panicked, s') => (Panicked, s')
    | (Diverge, s') => (Diverge, s')
    end.

Definition panic {S A} : M S A := fun s => (Panicked, s).
Definition os_Exit {S A} (code : Z) : M S A := fun s => (Exit code, s).
Definition gets {S A} (f : S -> A) : M S A := fun s => (Ret (f s), s).
Definition modify {S} (f : S -> S) : M S unit := fun s => (Ret tt, f s).

(** Go's [defer d] in front of [body]: [d] runs when [body] returns and when
    it panics; it does not run when the process ends inside [body]. *)
Definition with_defer {S A B} (d : M S B) (body : M S A) : M S A :=
  fun s =>
    match body s with
    | (Ret a, s') =>
        match d s' with
        | (Ret _, s'') => (Ret a, s'')
        | (Exit c, s'') => (Exit c, s'')
        | (Killed, s'') => (Killed, s'')
        | (Panicked, s'') => (Panicked, s'')
        | (Diverge, s'') => (Diverge, s'')
        end
    | (Panicked, s') =>
        match d s' with
        | (Ret _, s'') => (Panicked, s'')
        | (Exit c, s'') => (Exit c, s'')
        | (Killed, s'') => (Killed, s'')
        | (Panicked, s'') => (Panicked, s'')
        | (Diverge, s'') => (Diverge, s'')
        end
    | (Exit c, s') => (Exit c, s')
    | (Killed, s') => (Killed, s')
    | (Diverge, s') => (Diverge, s')
    end.

Declare Scope go_scope.
Delimit Scope go_scope with go.
Notation "x <- m ;; k" := (bind m (fun x => k))
  (at level 61, m at next level, right associativity) : go_scope.
Notation "' pat <- m ;; k" := (bind m (fun x => match x with pat => k end))
  (at level 61, pat pattern, m at next level, right associativity) : go_scope.
Notation "m ;;; k" := (bind m (fun _ => k))
  (at level 61, right associativity) : go_scope.
Local Open Scope go_scope.

(* ------------------------------------------------------------------ *)
(** ** The operating system, as the program sees it

    The state below is what the calls of the two transports and of the round
    loop read and change.  What the outside world will answer (datagrams that
    arrive, results of the helper's echo call, how long a sleep overshoots,
    when an interrupt is delivered) is data of the state, so that every run
    is a function of its initial state and theorems quantify over all of
    them. *)

(** An ICMP datagram socket ([icmp.PacketConn] over a [net.PacketConn]). *)
Record Socket : Type := mkSocket {
  sk_closed : bool;
  sk_deadline : option Time
}.

(** A datagram the network delivers to the socket at [dg_arrival]. *)
Record Datagram : Type := mkDatagram {
  dg_arrival : Time;
  dg_bytes : list byte;
  dg_peer : IP
}.

(** What one [IcmpSendEcho] call of the helper facility does: its return
    value, the bytes it leaves in the reply buffer, the thread's last error
    and the time the call takes. *)
Record EchoAnswer : Type := mkEchoAnswer {
  ea_ret : Z;
  ea_reply : list byte;
  ea_lasterr : Z;
  ea_elapsed : N
}.

(** Calls made to the system, logged oldest first. *)
Inductive Call : Type :=
| CSleep (d : Duration)
| CListenPacket (sock : nat)
| CSetDeadline (sock : nat) (t : Time)
| CWriteTo (sock : nat) (msg : list byte) (dst : IP)
| CReadFrom (sock : nat)
| CConnClose (sock : nat)
| CLoadDLL
| CFreeLibrary
| CIcmpCreateFile
| CIcmpSendEcho (h ipAddr : Z) (data : list byte) (replySize timeoutMs : Z)
| CIcmpCloseHandle (h : Z).

Record Net : Type := mkNet {
  listen_err : option error;        (* whether icmp.ListenPacket will fail *)
  socks : list Socket;              (* sockets created so far, by number *)
  send_errs : list (option error);  (* results of the coming WriteTo calls *)
  inbox : list Datagram             (* datagrams queued for the socket *)
}.

Record Helper : Type := mkHelper {
  dll_load_err : option error;      (* whether LoadDLL will fail *)
  dll_refs : nat;                   (* load count of iphlpapi.dll *)
  dll_exports : list string;        (* procedures the DLL exports *)
  create_ret : Z;                   (* what IcmpCreateFile will return *)
  handles : list Z;                 (* open ICMP handles *)
  echoes : list EchoAnswer          (* answers of the coming echo calls *)
}.

Record OS : Type := mkOS {
  clock : Time;                     (* the monotonic clock *)
  sigint : option nat;              (* an interrupt arrives during the n-th
                                       blocking call from now, if any *)
  lags : list N;                    (* overshoot of the coming sleeps *)
  pid : Z;                          (* os.Getpid *)
  calls : list Call;
  net : Net;
  helper : Helper
}.

Definition set_clock (t : Time) (os : OS) : OS :=
  mkOS t (sigint os) (lags os) (pid os) (calls os) (net os) (helper os).
Definition set_sigint (s : option nat) (os : OS) : OS :=
  mkOS (clock os) s (lags os) (pid os) (calls os) (net os) (helper os).
Definition set_lags (l : list N) (os : OS) : OS :=
  mkOS (clock os) (sigint os) l (pid os) (calls os) (net os) (helper os).
Definition log_call (c : Call) (os : OS) : OS :=
  mkOS (clock os) (sigint os) (lags os) (pid os) (calls os ++ [c]) (net os)
       (helper os).
Definition set_net (n : Net) (os : OS) : OS :=
  mkOS (clock os) (sigint os) (lags os) (pid os) (calls os) n (helper os).
Definition set_helper (h : Helper) (os : OS) : OS :=
  mkOS (clock os) (sigint os) (lags os) (pid os) (calls os) (net os) h.

Definition set_socks (l : list Socket) (n : Net) : Net :=
  mkNet (listen_err n) l (send_errs n) (inbox n).
Definition set_send_errs (l : list (option error)) (n : Net) : Net :=
  mkNet (listen_err n) (socks n) l (inbox n).
Definition set_inbox (l : list Datagram) (n : Net) : Net :=
  mkNet (listen_err n) (socks n) (send_errs n) l.

Definition set_dll_refs (r : nat) (h : Helper) : Helper :=
  mkHelper (dll_load_err h) r (dll_exports h) (create_ret h) (handles h)
           (echoes h).
Definition set_handles (l : list Z) (h : Helper) : Helper :=
  mkHelper (dll_load_err h) (dll_refs h) (dll_exports h) (create_ret h) l
           (echoes h).
Definition set_echoes (l : list EchoAnswer) (h : Helper) : Helper :=
  mkHelper (dll_load_err h) (dll_refs h) (dll_exports h) (create_ret h)
           (handles h) l.

(** Replace the [i]-th element of a list (nothing happens out of range). *)
Fixpoint list_set {A} (i : nat) (x : A) (l : list A) : list A :=
  match l, i with
  | [], _ => []
  | _ :: t, O => x :: t
  | h :: t, S j => h :: list_set j x t
  end.

(** A blocking call is where an interrupt is delivered.  The program
    installs no signal handler, so the run time's default applies: the
    process ends at once. *)
Definition blocking {A} (m : M OS A) : M OS A :=
  fun os =>
    match sigint os with
    | Some O => (Killed, os)
    | Some (S n) => m (set_sigint (Some n) os)
    | None => m os
    end.

(** *** The clock *)

Definition time_Now : M OS Time := gets clock.

(** [time.Until t] is [t.Sub(time.Now())]; [time.Since t] is
    [time.Now().Sub(t)]. *)
Definition time_Until (t : Time) : M OS Duration :=
  now <- time_Now ;; ret (Time_Sub t now).
Definition time_Since (t : Time) : M OS Duration :=
  now <- time_Now ;; ret (Time_Sub now t).

(** [time.Sleep d] pauses for at least [d]; a non-positive [d] returns at
    once. *)
Definition time_Sleep (d : Duration) : M OS unit :=
  if d <=? 0 then ret tt
  else blocking (fun os =>
         (Ret tt,
          log_call (CSleep d)
            (set_lags (tl (lags os))
               (set_clock (clock os + d + Z.of_N (hd 0%N (lags os))) os)))).

Definition os_Getpid : M OS Z := gets pid.

(** *** Datagram sockets ([net] and [golang.org/x/net/icmp])

    A connection is a possibly-nil pointer: [None] is [nil]. *)

Definition icmp_ListenPacket : M OS (option nat * option error) :=
  fun os =>
    match listen_err (net os) with
    | Some e => (Ret (None, Some e), os)
    | None =>
        let id := List.length (socks (net os)) in
        (Ret (Some id, None),
         log_call (CListenPacket id)
           (set_net (set_socks (socks (net os) ++ [mkSocket false None])
                               (net os)) os))
    end.

(** The socket behind a connection, when the connection is usable. *)
Definition live_socket (c : option nat) (os : OS) : Socket + error :=
  match c with
  | None => inr ErrInvalidConn
  | Some id =>
      match nth_error (socks (net os)) id with
      | None => inr ErrInvalidConn
      | Some sk => if sk_closed sk then inr ErrClosed else inl sk
      end
  end.

Definition conn_id (c : option nat) : nat :=
  match c with Some id => id | None => O end.

Definition put_socket (c : option nat) (sk : Socket) (os : OS) : OS :=
  set_net (set_socks (list_set (conn_id c) sk (socks (net os))) (net os)) os.

Definition conn_SetDeadline (c : option nat) (t : Time) : M OS (option error) :=
  fun os =>
    match live_socket c os with
    | inr e => (Ret (Some e), os)
    | inl sk =>
        (Ret None,
         log_call (CSetDeadline (conn_id c) t)
           (put_socket c (mkSocket (sk_closed sk) (Some t)) os))
    end.

Definition conn_WriteTo (c : option nat) (msg : list byte) (dst : IP)
  : M OS (option error) :=
  fun os =>
    match live_socket c os with
    | inr e => (Ret (Some e), os)
    | inl _ =>
        let os' := set_net (set_send_errs (tl (send_errs (net os))) (net os)) os in
        match hd None (send_errs (net os)) with
        | Some e => (Ret (Some e), os')
        | None => (Ret None, log_call (CWriteTo (conn_id c) msg dst) os')
        end
    end.

(** [ReadFrom] into a buffer of [cap] bytes: the first queued datagram, cut
    to the buffer, when it arrives before the read deadline; the deadline
    error at the deadline otherwise.  Without a deadline and without a
    datagram the call blocks for good. *)
Definition conn_ReadFrom (c : option nat) (cap : nat)
  : M OS (list byte * option IP * option error) :=
  blocking (fun os =>
    match live_socket c os with
    | inr e => (Ret ([], None, Some e), os)
    | inl sk =>
        let os1 := log_call (CReadFrom (conn_id c)) os in
        let timed_out :=
          match sk_deadline sk with
          | Some dl =>
              (Ret ([], None, Some ErrDeadline),
               set_clock (Z.max (clock os) dl) os1)
          | None => (Diverge, os1)
          end in
        match inbox (net os) with
        | [] => timed_out
        | dg :: rest =>
            if match sk_deadline sk with
               | Some dl => dg_arrival dg <? dl
               | None => true
               end
            then (Ret (firstn cap (dg_bytes dg), Some (dg_peer dg), None),
                  set_clock (Z.max (clock os) (dg_arrival dg))
                    (set_net (set_inbox rest (net os)) os1))
            else timed_out
        end
    end).

(** Closing a connection that is already closed is an error of the [net]
    package ("use of closed network connection"). *)
Definition conn_Close (c : option nat) : M OS (option error) :=
  fun os =>
    match live_socket c os with
    | inr e => (Ret (Some e), os)
    | inl sk =>
        (Ret None,
         log_call (CConnClose (conn_id c))
           (put_socket c (mkSocket true (sk_deadline sk)) os))
    end.

(** *** The ICMP helper facility ([iphlpapi.dll] through [x/sys/windows]) *)

Definition INVALID_HANDLE_VALUE : Z := 2 ^ 64 - 1.
Definition ERROR_MOD_NOT_FOUND : Z := 126.
Definition ERROR_PROC_NOT_FOUND : Z := 127.

Definition string_mem (s : string) (l : list string) : bool :=
  existsb (String.eqb s) l.

Definition windows_LoadDLL : M OS (option error) :=
  fun os =>
    match dll_load_err (helper os) with
    | Some e => (Ret (Some e), os)
    | None =>
        (Ret None,
         log_call CLoadDLL
           (set_helper (set_dll_refs (S (dll_refs (helper os))) (helper os)) os))
    end.

(** [DLL.FindProc]: the procedure's name when the module is loaded and
    exports it. *)
Definition dll_FindProc (name : string) : M OS (string + error) :=
  fun os =>
    match dll_refs (helper os) with
    | O => (Ret (inr (ErrSys ERROR_MOD_NOT_FOUND)), os)
    | S _ =>
        if string_mem name (dll_exports (helper os))
        then (Ret (inl name), os)
        else (Ret (inr (ErrSys ERROR_PROC_NOT_FOUND)), os)
    end.

(** [DLL.Release] is [FreeLibrary]: it drops one load of the module and
    fails when there is none left. *)
Definition dll_Release : M OS (option error) :=
  fun os =>
    match dll_refs (helper os) with
    | O => (Ret (Some (ErrSys ERROR_MOD_NOT_FOUND)), log_call CFreeLibrary os)
    | S r =>
        (Ret None,
         log_call CFreeLibrary (set_helper (set_dll_refs r (helper os)) os))
    end.

(** [IcmpCreateFile]: a fresh handle, or [INVALID_HANDLE_VALUE]. *)
Definition call_IcmpCreateFile : M OS (Z * error) :=
  fun os =>
    let h := create_ret (helper os) in
    (Ret (h, ErrSys 0),
     log_call CIcmpCreateFile
       (if h =? INVALID_HANDLE_VALUE then os
        else set_helper (set_handles (h :: handles (helper os)) (helper os)) os)).

Definition call_IcmpCloseHandle (h : Z) : M OS Z :=
  fun os =>
    let open := existsb (Z.eqb h) (handles (helper os)) in
    (Ret (if open then 1 else 0),
     log_call (CIcmpCloseHandle h)
       (set_helper
          (set_handles (filter (fun x => negb (x =? h)) (handles (helper os)))
                       (helper os)) os)).

(** [IcmpSendEcho]: one synchronous echo.  The reply buffer starts zeroed
    and keeps its size; with no answer scripted the call fails after the
    timeout. *)
Definition call_IcmpSendEcho (h ipAddr : Z) (data : list byte)
           (replySize timeoutMs : Z) : M OS (Z * list byte * error) :=
  blocking (fun os =>
    let os1 := log_call (CIcmpSendEcho h ipAddr data replySize timeoutMs) os in
    let size := Z.to_nat replySize in
    match echoes (helper os) with
    | [] =>
        (Ret (0, repeat 0 size, ErrSys 11010),
         set_clock (clock os + timeoutMs * Millisecond) os1)
    | ea :: rest =>
        (Ret (ea_ret ea, firstn size (ea_reply ea ++ repeat 0 size),
              ErrSys (ea_lasterr ea)),
         set_clock (clock os + Z.of_N (ea_elapsed ea))
           (set_helper (set_echoes rest (helper os)) os1))
    end).

(* ------------------------------------------------------------------ *)
(** ** ICMP messages and the library functions taken as given *)

(** [icmp.Echo] and [icmp.Message] of [golang.org/x/net/icmp]. *)
Record Echo : Type := mkEcho {
  ID : Z;
  Seq : Z;
  Data : list byte
}.

Inductive MessageBody : Type :=
| EchoBody (e : Echo)
| RawBody (b : list byte).

Record Message : Type := mkMessage {
  Type_ : Z;
  Code : Z;
  Checksum : Z;
  Body : option MessageBody
}.

Definition ICMPTypeEcho : Z := 8.        (* ipv4.ICMPTypeEcho *)
Definition ICMPTypeEchoReply : Z := 0.   (* ipv4.ICMPTypeEchoReply *)
Definition ProtocolICMP : Z := 1.        (* ipv4.ICMPTypeEchoReply.Protocol() *)

(** Library functions whose bodies are not part of the repository: the name
    service, the ICMP encoder and decoder, and the clock formatter.  The
    development is parametric in them.  A call that gives back a pointer
    and an error gives back one or the other, hence the sum. *)
Record Lib : Type := mkLib {
  net_LookupIP : string -> list IP * option error;
  icmp_Marshal : Message -> list byte * option error;
  icmp_ParseMessage : Z -> list byte -> Message + error;
  time_Format : Time -> string
}.

(* ------------------------------------------------------------------ *)
(** ** pkg/ping/ping.go *)

Record HostInfo : Type := mkHostInfo {
  Hostname : string;
  IPAddr : IP
}.

(** The inner loop of [ResolveHosts]: the first address with a non-nil
    [To4], or [None] when the loop ends with [ipv4Addr] still nil. *)
Fixpoint first_ipv4 (ips : list IP) : option IP :=
  match ips with
  | [] => None
  | ip :: rest =>
      match To4 ip with
      | Some _ => Some ip
      | None => first_ipv4 rest
      end
  end.

(** The outer loop of [ResolveHosts], with the slice [resolved] built so
    far.  Both error returns give back Go's nil slice. *)
Fixpoint resolve_from (L : Lib) (hosts : list string) (resolved : list HostInfo)
  : list HostInfo * option error :=
  match hosts with
  | [] => (resolved, None)
  | host :: rest =>
      let '(ips, err) := net_LookupIP L host in
      match err with
      | Some e => ([], Some (ErrResolve host e))
      | None =>
          match first_ipv4 ips with
          | None => ([], Some (ErrNoIPv4 host))
          | Some ipv4Addr =>
              resolve_from L rest (resolved ++ [mkHostInfo host ipv4Addr])
          end
      end
  end.

Definition ResolveHosts (L : Lib) (hosts : list string)
  : list HostInfo * option error :=
  resolve_from L hosts [].

(** The [Pinger] interface. *)
Class Pinger (T : Type) : Type := mkPinger {
  Ping : T -> IP -> Duration -> M OS (Duration * option error);
  Close : T -> M OS (option error)
}.

(* ------------------------------------------------------------------ *)
(** ** pkg/ping/ping_unix.go *)

Module Unix.

Record unixPinger : Type := mkUnixPinger {
  conn : option nat
}.

Definition newPinger : M OS (option unixPinger * option error) :=
  '(conn, err) <- icmp_ListenPacket ;;
  match err with
  | Some e => ret (None, Some e)
  | None => ret (Some (mkUnixPinger conn), None)
  end.

(** The receiver is not changed: [up.conn] keeps pointing at the
    connection after it is closed. *)
Definition Close (up : unixPinger) : M OS (option error) :=
  match conn up with
  | Some _ => conn_Close (conn up)
  | None => ret None
  end.

Definition createICMPMessage (L : Lib) (id seq : Z) : list byte :=
  let msg := mkMessage ICMPTypeEcho 0 0
               (Some (EchoBody (mkEcho id seq (bytes_of_string "ping")))) in
  let '(msgBytes, _) := icmp_Marshal L msg in
  msgBytes.

Definition Ping (L : Lib) (up : unixPinger) (ip : IP) (timeout : Duration)
  : M OS (Duration * option error) :=
  now <- time_Now ;;
  err <- conn_SetDeadline (conn up) (Time_Add now timeout) ;;
  match err with
  | Some e => ret (0, Some e)
  | None =>
      p <- os_Getpid ;;
      let msg := createICMPMessage L (Z.land p 65535) 1 in
      err <- conn_WriteTo (conn up) msg ip ;;
      match err with
      | Some e => ret (0, Some e)
      | None =>
          start <- time_Now ;;
          '(reply, _, err) <- conn_ReadFrom (conn up) 1500 ;;
          match err with
          | Some e => ret (0, Some e)
          | None =>
              match icmp_ParseMessage L ProtocolICMP reply with
              | inr e => ret (0, Some e)
              | inl rm =>
                  if Type_ rm =? ICMPTypeEchoReply
                  then d <- time_Since start ;; ret (d, None)
                  else ret (0, Some (ErrUnexpectedType (Type_ rm)))
              end
          end
      end
  end.

#[export] Instance unixPinger_Pinger (L : Lib) : Pinger unixPinger :=
  mkPinger (Ping L) Close.

End Unix.

(* ------------------------------------------------------------------ *)
(** ** pkg/ping/ping_windows.go *)

Module Windows.

(** [ICMP_ECHO_REPLY], as laid out on the 64-bit target the Makefile
    builds: Address at byte 0, Status at 4, RoundTripTime at 8, DataSize at
    12, Reserved at 14, Data at 16 and the options from 24 to 40. *)
Record icmpEchoReply : Type := mkIcmpEchoReply {
  Address : list byte;
  Status : Z;
  RoundTripTime : Z;
  DataSize : Z;
  Reserved : Z
}.

Definition sizeof_icmpEchoReply : Z := 40.

(** The little-endian field of two, or four, bytes at offset [off]. *)
Definition le16 (b : list byte) (off : nat) : Z :=
  nth off b 0 + 256 * nth (off + 1) b 0.

Definition le32 (b : list byte) (off : nat) : Z :=
  le16 b off + 65536 * le16 b (off + 2).

(** The cast [( *icmpEchoReply)(unsafe.Pointer(&replyBuf[0]))]. *)
Definition reply_of (replyBuf : list byte) : icmpEchoReply :=
  mkIcmpEchoReply (firstn 4 replyBuf) (le32 replyBuf 4) (le32 replyBuf 8)
                  (le16 replyBuf 12) (le16 replyBuf 14).

Record windowsPinger : Type := mkWindowsPinger {
  handle : Z;
  proc : string
}.

Definition newPinger : M OS (option windowsPinger * option error) :=
  err <- windows_LoadDLL ;;
  match err with
  | Some e => ret (None, Some (ErrLoadDLL e))
  | None =>
      found <- dll_FindProc "IcmpCreateFile" ;;
      match found with
      | inr e =>
          dll_Release ;;; ret (None, Some (ErrFindProc "IcmpCreateFile" e))
      | inl proc =>
          '(handle, err) <- call_IcmpCreateFile ;;
          if handle =? 0
          then dll_Release ;;; ret (None, Some (ErrCreateFile err))
          else ret (Some (mkWindowsPinger handle proc), None)
      end
  end.

(** The receiver is not changed: [wp.handle] keeps its value after the
    handle is closed and the DLL released. *)
Definition Close (wp : windowsPinger) : M OS (option error) :=
  (if handle wp =? 0 then ret tt
   else
     found <- dll_FindProc "IcmpCloseHandle" ;;
     match found with
     | inl closeProc => call_IcmpCloseHandle (handle wp) ;;; ret tt
     | inr _ => ret tt
     end) ;;;
  dll_Release.

Definition Ping (wp : windowsPinger) (ip : IP) (timeout : Duration)
  : M OS (Duration * option error) :=
  found <- dll_FindProc "IcmpSendEcho" ;;
  match found with
  | inr e => ret (0, Some (ErrFindProc "IcmpSendEcho" e))
  | inl sendProc =>
      let timeoutMs := uint32 (Milliseconds timeout) in
      let timeoutMs := if timeoutMs <? 1 then 1 else timeoutMs in
      let data := bytes_of_string "ping" in
      let replySize :=
        uint32 (uint32 sizeof_icmpEchoReply
                + uint32 (Z.of_nat (List.length data))) in
      match match To4 ip with
            | Some b => LittleEndian_Uint32 b
            | None => None
            end with
      | None => panic
      | Some ipAddr =>
          '(ret_, replyBuf, err) <-
            call_IcmpSendEcho (handle wp) ipAddr data replySize timeoutMs ;;
          if ret_ =? 0
          then ret (0, Some (ErrSendEcho err))
          else
            let reply := reply_of replyBuf in
            ret (Duration_mul (RoundTripTime reply) Millisecond, None)
      end
  end.

#[export] Instance windowsPinger_Pinger : Pinger windowsPinger :=
  mkPinger Ping Close.

End Windows.

(* ------------------------------------------------------------------ *)
(** ** ping.New: the transport chosen by the build tag *)

(** The platforms of the Makefile; [ping_unix.go] is built on all but
    [windows]. *)
Inductive GOOS : Type := linux | darwin | windows.

(** A value of interface type [Pinger]: a receiver with its methods. *)
Record PingerValue : Type := mkPingerValue {
  pv_type : Type;
  pv_methods : Pinger pv_type;
  pv_self : pv_type
}.

Definition pv_Ping (p : PingerValue) : IP -> Duration -> M OS (Duration * option error) :=
  @Ping _ (pv_methods p) (pv_self p).
Definition pv_Close (p : PingerValue) : M OS (option error) :=
  @Close _ (pv_methods p) (pv_self p).

Definition as_Pinger {T} (I : Pinger T) (r : option T * option error)
  : option PingerValue * option error :=
  (option_map (mkPingerValue I) (fst r), snd r).

Definition New (goos : GOOS) (L : Lib)
  : M OS (option PingerValue * option error) :=
  match goos with
  | windows =>
      r <- Windows.newPinger ;; ret (as_Pinger Windows.windowsPinger_Pinger r)
  | _ =>
      r <- Unix.newPinger ;; ret (as_Pinger (Unix.unixPinger_Pinger L) r)
  end.

(* ------------------------------------------------------------------ *)
(** ** cmd/muod/main.go *)

Definition ESC : string := String "027"%char EmptyString.
Definition colorReset : string := (ESC ++ "[0m")%string.
Definition colorGreen : string := (ESC ++ "[32m")%string.
Definition colorRed : string := (ESC ++ "[31m")%string.

(** The flag variables [monitorHosts] reads, after [main] has parsed them.
    [timeout] is both the argument of every [Ping] and the spacing of the
    rounds; there is no other duration among the flags. *)
Record Flags : Type := mkFlags {
  debugFlag : bool;
  plainFlag : bool;
  countFlag : Z;
  timeout : Duration
}.

(** What a run lets an observer see of its rounds.  These records are not
    data of the program: they are written next to the statements they
    describe and nothing reads them back. *)
Inductive Event : Type :=
| RoundBegin (index : Z) (target checked began : Time)
| Probed (index : Z) (host : HostInfo) (timeout_used rtt : Duration)
         (err : option error)
| RoundEmitted (index : Z) (line : string).

(** The process: the system underneath, the lines written to standard
    output, and the observations.  Standard error (usage, warnings and the
    [debugPrint] lines) is not kept. *)
Record Proc : Type := mkProc {
  os : OS;
  stdout : list string;
  trace : list Event
}.

Definition lift {A} (m : M OS A) : M Proc A :=
  fun p =>
    let '(o, os') := m (os p) in
    (o, mkProc os' (stdout p) (trace p)).

Definition fmt_Println (line : string) : M Proc unit :=
  modify (fun p => mkProc (os p) (stdout p ++ [line]) (trace p)).

Definition observe (e : Event) : M Proc unit :=
  modify (fun p => mkProc (os p) (stdout p) (trace p ++ [e])).

Section Monitor.

Variable L : Lib.
Variable goos : GOOS.
Variable flags : Flags.

(** The body of [for _, host := range resolvedHosts], from the hosts still
    to probe and the [parts] built so far. *)
Fixpoint probe_hosts (pinger : PingerValue) (count : Z)
         (hosts : list HostInfo) (parts : list string)
  : M Proc (list string) :=
  match hosts with
  | [] => ret parts
  | host :: rest =>
      '(rtt, err) <- lift (pv_Ping pinger (IPAddr host) (timeout flags)) ;;
      observe (Probed count host (timeout flags) rtt err) ;;;
      let parts :=
        match err with
        | Some _ => parts ++ [(colorRed ++ Hostname host ++ colorReset)%string]
        | None => parts ++ [(colorGreen ++ Hostname host ++ colorReset)%string]
        end in
      probe_hosts pinger count rest parts
  end.

(** One pass through the body of the [for] loop of [monitorHosts], up to
    and including [count++]; it yields the new [count]. *)
Definition round (pinger : PingerValue) (resolvedHosts : list HostInfo)
           (start : Time) (count : Z) : M Proc Z :=
  let nextPingTime := Time_Add start (Duration_mul count (timeout flags)) in
  checked <- lift time_Now ;;
  wait <- lift (time_Until nextPingTime) ;;
  (if wait >? 0 then lift (time_Sleep wait) else ret tt) ;;;
  began <- lift time_Now ;;
  observe (RoundBegin count nextPingTime checked began) ;;;
  parts <- (if negb (plainFlag flags)
            then now <- lift time_Now ;; ret [time_Format L now]
            else ret []) ;;
  parts <- probe_hosts pinger count resolvedHosts parts ;;
  let line := String.concat " " parts in
  fmt_Println line ;;;
  observe (RoundEmitted count line) ;;;
  ret (wrap64 (count + 1)).

(** The [for] loop: [fuel] bounds the passes a finite run makes; when it
    is used up the loop is still running. *)
Fixpoint rounds (fuel : nat) (pinger : PingerValue)
         (resolvedHosts : list HostInfo) (start : Time) (count : Z)
  : M Proc unit :=
  match fuel with
  | O => fun p => (Diverge, p)
  | S fuel' =>
      count <- round pinger resolvedHosts start count ;;
      if (countFlag flags >? 0) && (count >=? countFlag flags)
      then ret tt
      else rounds fuel' pinger resolvedHosts start count
  end.

Definition monitorHosts (fuel : nat) (resolvedHosts : list HostInfo)
  : M Proc unit :=
  if countFlag flags =? 0 then ret tt
  else
    '(pinger, err) <- lift (New goos L) ;;
    match err, pinger with
    | Some _, _ => os_Exit 1
    | None, None => panic
    | None, Some pinger =>
        with_defer (lift (pv_Close pinger))
          (start <- lift time_Now ;;
           rounds fuel pinger resolvedHosts start 0)
    end.

(** The tail of [main], from [hosts := flag.Args()] on.  [status] is the
    line built with [fmt.Sprintf], given here by its two formatted
    numbers. *)
Variable fmt_d : Z -> string.          (* "%d" *)
Variable fmt_seconds : Duration -> string.   (* "%.1f" of timeout.Seconds() *)

Definition main (fuel : nat) (hosts : list string) : M Proc unit :=
  if (List.length hosts <? 1)%nat then os_Exit 1
  else
    let '(resolvedHosts, err) := ResolveHosts L hosts in
    match err with
    | Some _ => os_Exit 1
    | None =>
        if countFlag flags =? 0
        then fmt_Println "DNS resolution complete. Exiting as requested (count=0)." ;;;
             os_Exit 0
        else
          let n := Z.of_nat (List.length hosts) in
          let status := ("Monitoring " ++ fmt_d n ++ " host")%string in
          let status := if n >? 1 then (status ++ "s")%string else status in
          let status :=
            if countFlag flags >? 0
            then
              let status :=
                (status ++ " for " ++ fmt_d (countFlag flags) ++ " round")%string in
              if countFlag flags >? 1 then (status ++ "s")%string else status
            else status in
          let status :=
            (status ++ " (timeout: " ++ fmt_seconds (timeout flags)
                    ++ "s) - Press Ctrl+C to stop")%string in
          fmt_Println status ;;;
          (if debugFlag flags then fmt_Println "Debug mode enabled" else ret tt) ;;;
          monitorHosts fuel resolvedHosts
    end.

End Monitor.

(* ------------------------------------------------------------------ *)
(** ** A concrete library and concrete systems, for the examples *)

Module Fixture.

(** The ICMP wire format of RFC 792: type, code, checksum, then for echo
    messages identifier, sequence number and data. *)
Definition be16 (hi lo : byte) : Z := Z.lor (Z.shiftl hi 8) lo.

Fixpoint sum16 (b : list byte) : Z :=
  match b with
  | [] => 0
  | [x] => Z.shiftl x 8
  | x :: y :: rest => be16 x y + sum16 rest
  end.

Definition checksum (b : list byte) : Z :=
  let s := sum16 b in
  let s := Z.shiftr s 16 + Z.land s 65535 in
  let s := s + Z.shiftr s 16 in
  Z.land (Z.lnot s) 65535.

Definition marshal (m : Message) : list byte * option error :=
  let body :=
    match Body m with
    | Some (EchoBody e) =>
        [Z.shiftr (uint16 (ID e)) 8; Z.land (ID e) 255;
         Z.shiftr (uint16 (Seq e)) 8; Z.land (Seq e) 255] ++ Data e
    | Some (RawBody b) => b
    | None => []
    end in
  let b := [Z.land (Type_ m) 255; Z.land (Code m) 255; 0; 0] ++ body in
  let s := checksum b in
  ([Z.land (Type_ m) 255; Z.land (Code m) 255; Z.shiftr s 8; Z.land s 255]
     ++ body, None).

Definition parse (proto : Z) (b : list byte) : Message + error :=
  match b with
  | ty :: code :: c1 :: c2 :: body =>
      if negb (proto =? ProtocolICMP) then inr (ErrParse 2)
      else if (ty =? ICMPTypeEcho) || (ty =? ICMPTypeEchoReply)
      then
        match body with
        | i1 :: i2 :: s1 :: s2 :: data =>
            inl (mkMessage ty code (be16 c1 c2)
                   (Some (EchoBody (mkEcho (be16 i1 i2) (be16 s1 s2) data))))
        | _ => inr (ErrParse 1)
        end
      else inl (mkMessage ty code (be16 c1 c2) (Some (RawBody body)))
  | _ => inr (ErrParse 1)
  end.

Definition loopback : IP := [127; 0; 0; 1].
Definition loopback6 : IP := [0;0;0;0; 0;0;0;0; 0;0;0;0; 0;0;0;1].
Definition testnet : IP := [192; 0; 2; 1].
Definition mapped : IP := [0;0;0;0; 0;0;0;0; 0;0;255;255; 192;0;2;7].
Definition stranger : IP := [10; 9; 8; 7].

Definition lookup (host : string) : list IP * option error :=
  if String.eqb host "localhost" then ([loopback6; loopback], None)
  else if String.eqb host "192.0.2.1" then ([testnet], None)
  else if String.eqb host "mapped.test" then ([loopback6; mapped; testnet], None)
  else if String.eqb host "v6only.test" then ([loopback6], None)
  else ([], Some (ErrLookup 1)).

Definition two_digits (n : Z) : string :=
  String (ascii_of_nat (48 + Z.to_nat (n / 10)))
    (String (ascii_of_nat (48 + Z.to_nat (n mod 10))) EmptyString).

Definition format (t : Time) : string :=
  let s := t / Second in
  (two_digits ((s / 3600) mod 24) ++ ":" ++ two_digits ((s / 60) mod 60)
     ++ ":" ++ two_digits (s mod 60))%string.

Definition lib : Lib := mkLib lookup marshal parse format.

(** A system on which nothing is open yet: the clock reads [t0], no
    datagram is queued, the helper DLL can be loaded and its first handle
    is 4096. *)
Definition boot (t0 : Time) : OS :=
  mkOS t0 None [] 4242 []
       (mkNet None [] [] [])
       (mkHelper None 0 ["IcmpCreateFile"; "IcmpCloseHandle"; "IcmpSendEcho"]%string
                 4096 [] []).

Definition with_inbox (l : list Datagram) (o : OS) : OS :=
  set_net (set_inbox l (net o)) o.
Definition with_echoes (l : list EchoAnswer) (o : OS) : OS :=
  set_helper (set_echoes l (helper o)) o.

(** An echo reply with the given identifier, sequence number and data. *)
Definition echo_reply (id seq : Z) (data : string) : list byte :=
  fst (marshal (mkMessage ICMPTypeEchoReply 0 0
                  (Some (EchoBody (mkEcho id seq (bytes_of_string data)))))).

(** A destination-unreachable message (type 3). *)
Definition unreachable : list byte :=
  fst (marshal (mkMessage 3 1 0 (Some (RawBody [0; 0; 0; 0])))).

(** A reply buffer of the helper with the given status and round-trip
    time fields. *)
Definition le_bytes4 (z : Z) : list byte :=
  [Z.land z 255; Z.land (Z.shiftr z 8) 255; Z.land (Z.shiftr z 16) 255;
   Z.land (Z.shiftr z 24) 255].

Definition reply_buffer (addr : IP) (status rtt : Z) : list byte :=
  addr ++ le_bytes4 status ++ le_bytes4 rtt ++ [4; 0; 0; 0].

Definition start_proc (o : OS) : Proc := mkProc o [] [].

(** The datagram transport once constructed on [o]: its socket is number
    0 when [o] has none yet. *)
Definition up0 : Unix.unixPinger := Unix.mkUnixPinger (Some O).
Definition listening (o : OS) : OS := snd (Unix.newPinger o).

(** The helper transport once constructed on [o]. *)
Definition wp0 : Windows.windowsPinger :=
  Windows.mkWindowsPinger 4096 "IcmpCreateFile".
Definition attached (o : OS) : OS := snd (Windows.newPinger o).

Definition ms (n : Z) : Duration := n * Millisecond.

(** The hosts of the end-to-end scenario, a system on which an interrupt
    arrives during the first blocking call, and flags for [count] rounds
    one second apart. *)
Definition two_hosts : list HostInfo :=
  [mkHostInfo "127.0.0.1" loopback; mkHostInfo "192.0.2.1" testnet].
Definition interrupted (o : OS) : OS := set_sigint (Some O) o.
Definition every_second (count : Z) : Flags := mkFlags false false count Second.

(** A reply to somebody else's request, from a host that was not probed,
    50 ns after the clock reading 100. *)
Definition stray : Datagram := mkDatagram 150 (echo_reply 7 9 "xyz") stranger.
Definition refusal : Datagram := mkDatagram 150 unreachable testnet.
Definition garbage : Datagram := mkDatagram 150 [0; 0] testnet.

End Fixture.

(* ================================================================== *)
(** * Vocabulary of the properties *)

(** A name resolves when the lookup succeeds and lists an address with a
    4-byte form. *)
Definition resolvable (L : Lib) (host : string) : Prop :=
  exists ips, net_LookupIP L host = (ips, None)
              /\ Exists (fun ip => To4 ip <> None) ips.

(** [r] carries the first IPv4 address the lookup of its name lists. *)
Definition first_match (L : Lib) (r : HostInfo) : Prop :=
  exists ips before after,
    net_LookupIP L (Hostname r) = (ips, None)
    /\ ips = before ++ IPAddr r :: after
    /\ Forall (fun ip => To4 ip = None) before
    /\ To4 (IPAddr r) <> None.

(** The state in which a probe of [up] reads a datagram before its
    deadline: the connection is usable, the send goes through, no
    interrupt ends the process inside the read, and the first queued
    datagram arrives before [now + timeout]. *)
Definition reply_in_time (up : Unix.unixPinger) (timeout : Duration) (o : OS)
           (sk : Socket) (dg : Datagram) (rest : list Datagram) : Prop :=
  live_socket (Unix.conn up) o = inl sk
  /\ hd None (send_errs (net o)) = None
  /\ sigint o <> Some O
  /\ inbox (net o) = dg :: rest
  /\ dg_arrival dg < Time_Add (clock o) timeout.

(** What a probe reports: [Some None] for success, [Some (Some e)] for the
    failure [e], [None] when the call does not return. *)
Definition verdict (r : Outcome (Duration * option error) * OS)
  : option (option error) :=
  match fst r with
  | Ret (_, err) => Some err
  | _ => None
  end.

(** The state in which a probe of the helper transport reaches the echo
    call: the DLL is loaded and exports [IcmpSendEcho], the address has a
    4-byte form, and no interrupt ends the process inside the call. *)
Definition echo_ready (ip : IP) (o : OS) : Prop :=
  dll_refs (helper o) <> O
  /\ string_mem "IcmpSendEcho" (dll_exports (helper o)) = true
  /\ To4 ip <> None
  /\ sigint o <> Some O.

(** What the coming echo call of the facility returns. *)
Definition echo_return (o : OS) : Z :=
  match echoes (helper o) with
  | [] => 0
  | ea :: _ => ea_ret ea
  end.

(** The millisecond timeout as the helper's [Ping] computes it. *)
Definition timeoutMs_of (timeout : Duration) : Z :=
  if uint32 (Milliseconds timeout) <? 1 then 1 else uint32 (Milliseconds timeout).



(** What the helper leaves in a reply buffer of [size] bytes. *)
Definition reply_buffer_of (ea : EchoAnswer) (size : nat) : list byte :=
  firstn size (ea_reply ea ++ repeat 0 size).

Definition byte_range (l : list byte) : Prop :=
  Forall (fun b => 0 <= b < 256) l.

(** Calls that give a transport's resources back. *)
Definition is_release (c : Call) : bool :=
  match c with
  | CConnClose _ | CIcmpCloseHandle _ | CFreeLibrary => true
  | _ => false
  end.

Definition releases (o : OS) : list Call := filter is_release (calls o).

(** A computation that never turns the clock back, raises no interrupt of
    its own and gives nothing back. *)
Definition steady {A} (m : M OS A) : Prop :=
  forall o,
    clock o <= clock (snd (m o))
    /\ (sigint o = None -> sigint (snd (m o)) = None)
    /\ releases (snd (m o)) = releases o.

(** A computation that returns whenever no interrupt is pending. *)
Definition returns {A} (m : M OS A) : Prop :=
  forall o, sigint o = None -> exists a o', m o = (Ret a, o').

(** The indices of the rounds begun, and of the rounds emitted, in a
    trace. *)
Fixpoint begun (tr : list Event) : list Z :=
  match tr with
  | [] => []
  | RoundBegin i _ _ _ :: rest => i :: begun rest
  | _ :: rest => begun rest
  end.

Fixpoint emitted (tr : list Event) : list Z :=
  match tr with
  | [] => []
  | RoundEmitted i _ :: rest => i :: emitted rest
  | _ :: rest => emitted rest
  end.

(** [l] is [c], [c+1], [c+2], ... as [count++] produces them. *)
Fixpoint counts_from (c : Z) (l : list Z) : Prop :=
  match l with
  | [] => True
  | i :: rest => i = c /\ counts_from (wrap64 (c + 1)) rest
  end.

(** The indices [c, c+1, ..., c+n-1], and [0, 1, ..., n-1]. *)
Fixpoint upto_from (c : Z) (n : nat) : list Z :=
  match n with
  | O => []
  | S n' => c :: upto_from (c + 1) n'
  end.

Definition upto (n : nat) : list Z := upto_from 0 n.



(** What holds of every observation of a run that took [start] as its
    origin: a round's target is [start] plus [index] times the timeout in
    [Duration] arithmetic, the round begins no earlier than its target, and
    at once when the target has passed; every probe is given the
    timeout. *)
Definition event_ok (flags : Flags) (start : Time) (e : Event) : Prop :=
  match e with
  | RoundBegin i target checked began =>
      target = Time_Add start (Duration_mul i (timeout flags))
      /\ start <= checked
      /\ target <= began
      /\ (target <= checked -> began = checked)
  | Probed _ _ used _ _ => used = timeout flags
  | RoundEmitted _ _ => True
  end.

(** All hosts hold an address with a 4-byte form, as [ResolveHosts]
    makes them. *)
Definition ipv4_hosts (hosts : list HostInfo) : Prop :=
  Forall (fun h => To4 (IPAddr h) <> None) hosts.

(** The transport can be constructed on [o]. *)
Definition constructible (goos : GOOS) (L : Lib) (o : OS) : Prop :=
  exists pinger o', New goos L o = (Ret (Some pinger, None), o').

(** Closing the transport returns, whatever the state, and takes no
    time. *)
Definition closes (pinger : PingerValue) : Prop :=
  forall o, exists e o',
    pv_Close pinger o = (Ret e, o')
    /\ sigint o' = sigint o /\ clock o' = clock o.

(* ------------------------------------------------------------------ *)
(** ** Vocabulary of the further properties *)


(** The calls of one full probe of the datagram transport, in order. *)
Definition exchange (L : Lib) (up : Unix.unixPinger) (ip : IP)
           (timeout : Duration) (o : OS) : list Call :=
  [CSetDeadline (conn_id (Unix.conn up)) (Time_Add (clock o) timeout);
   CWriteTo (conn_id (Unix.conn up))
            (Unix.createICMPMessage L (Z.land (pid o) 65535) 1) ip;
   CReadFrom (conn_id (Unix.conn up))].

(** The part of an output line that stands for one host: its name in red
    when the probe returned an error, in green otherwise. *)
Definition paint (host : HostInfo) (err : option error) : string :=
  match err with
  | Some _ => (colorRed ++ Hostname host ++ colorReset)%string
  | None => (colorGreen ++ Hostname host ++ colorReset)%string
  end.

(** The observation of a probe of [host] in round [count] that returned
    [out]. *)
Definition probed (flags : Flags) (count : Z)
           (x : HostInfo * (Duration * option error)) : Event :=
  Probed count (fst x) (timeout flags) (fst (snd x)) (snd (snd x)).

(** The clock readings of the rounds begun in a trace: at the check of the
    target and at the beginning of the round. *)
Fixpoint begin_pairs (tr : list Event) : list (Time * Time) :=
  match tr with
  | [] => []
  | RoundBegin _ _ checked began :: rest => (checked, began) :: begin_pairs rest
  | _ :: rest => begin_pairs rest
  end.

(** [lo <= checked1 <= began1 <= checked2 <= began2 <= ... <= hi]. *)
Fixpoint chained (lo : Time) (l : list (Time * Time)) (hi : Time) : Prop :=
  match l with
  | [] => lo <= hi
  | (checked, began) :: rest =>
      lo <= checked /\ checked <= began /\ chained began rest hi
  end.

(** A computation that keeps a property of the state, however it ends. *)
Definition preserves {S A} (I : S -> Prop) (m : M S A) : Prop :=
  forall s, I s -> I (snd (m s)).

(** The connection is usable. *)
Definition is_open (c : option nat) (o : OS) : Prop :=
  exists sk, live_socket c o = inl sk.

(** The helper's DLL is loaded [refs] times and exports [IcmpCloseHandle]. *)
Definition dll_held (refs : nat) (o : OS) : Prop :=
  dll_refs (helper o) = refs
  /\ string_mem "IcmpCloseHandle" (dll_exports (helper o)) = true.

(* ------------------------------------------------------------------ *)
(** ** pkg/config/config.go

    The file system and the environment as the package sees them, the YAML
    codec and the path join taken as given, and the package's functions.
    The [debugPrint] lines go to standard error and are not kept. *)

Module config.

(** The errors of the package: those of the calls it makes, and its own,
    built with [fmt.Errorf] around the cause. *)
Inductive cfg_error : Type :=
| ErrNotExist                     (* the file does not exist *)
| ErrOS (code : Z)                (* any other error of an os call *)
| ErrYAML (code : Z)              (* an error of the YAML codec *)
| ErrHomeDir (cause : cfg_error)  (* "failed to get user home directory: %v" *)
| ErrMkdir (cause : cfg_error)    (* "failed to create config directory: %v" *)
| ErrRead (cause : cfg_error)     (* "failed to read config file: %v" *)
| ErrParseFile (cause : cfg_error)   (* "failed to parse config file: %v" *)
| ErrMarshal (cause : cfg_error)  (* "failed to marshal config: %v" *)
| ErrWrite (cause : cfg_error).   (* "failed to write config file: %v" *)

(** [os.IsNotExist]. *)
Definition os_IsNotExist (e : cfg_error) : bool :=
  match e with
  | ErrNotExist => true
  | _ => false
  end.

Record Config : Type := mkConfig {
  DefaultTimeout : Duration;
  ShowTimestamps : bool;
  DefaultCount : Z
}.

Definition DefaultConfigFileName : string := "muod.yaml".
Definition DefaultConfigDirName : string := "muod".

(** Library functions taken as given: [filepath.Join] of two elements,
    [yaml.Unmarshal] into an existing value and [yaml.Marshal]. *)
Record Codec : Type := mkCodec {
  filepath_Join : string -> string -> string;
  yaml_Unmarshal : list byte -> Config -> Config + cfg_error;
  yaml_Marshal : Config -> list byte + cfg_error
}.

Record FS : Type := mkFS {
  xdg_config_home : string;          (* os.Getenv("XDG_CONFIG_HOME") *)
  user_home : string + cfg_error;    (* os.UserHomeDir *)
  dirs : list string;                (* directories made so far *)
  files : list (string * list byte); (* files written, newest first *)
  mkdir_err : string -> option cfg_error;  (* whether MkdirAll will fail *)
  read_err : string -> option cfg_error;   (* whether ReadFile will fail,
                                              other than by absence *)
  write_err : string -> option cfg_error   (* whether WriteFile will fail *)
}.

Fixpoint lookup (path : string) (l : list (string * list byte))
  : option (list byte) :=
  match l with
  | [] => None
  | (p, d) :: rest => if String.eqb path p then Some d else lookup path rest
  end.

Definition os_Getenv_XDG : M FS string := gets xdg_config_home.
Definition os_UserHomeDir : M FS (string + cfg_error) := gets user_home.

Definition os_MkdirAll (dir : string) : M FS (option cfg_error) :=
  fun fs =>
    match mkdir_err fs dir with
    | Some e => (Ret (Some e), fs)
    | None =>
        (Ret None,
         mkFS (xdg_config_home fs) (user_home fs) (dir :: dirs fs) (files fs)
              (mkdir_err fs) (read_err fs) (write_err fs))
    end.

Definition os_ReadFile (path : string) : M FS (list byte * option cfg_error) :=
  fun fs =>
    match read_err fs path with
    | Some e => (Ret ([], Some e), fs)
    | None =>
        match lookup path (files fs) with
        | Some data => (Ret (data, None), fs)
        | None => (Ret ([], Some ErrNotExist), fs)
        end
    end.

Definition os_WriteFile (path : string) (data : list byte)
  : M FS (option cfg_error) :=
  fun fs =>
    match write_err fs path with
    | Some e => (Ret (Some e), fs)
    | None =>
        (Ret None,
         mkFS (xdg_config_home fs) (user_home fs) (dirs fs)
              ((path, data) :: files fs)
              (mkdir_err fs) (read_err fs) (write_err fs))
    end.

Definition DefaultConfig : Config := mkConfig (5 * Second) true (-1).

Definition getConfigPath (C : Codec) (customPath : string)
  : M FS (string * option cfg_error) :=
  if negb (String.eqb customPath "") then ret (customPath, None)
  else
    configHome <- os_Getenv_XDG ;;
    r <- (if String.eqb configHome ""
          then
            home <- os_UserHomeDir ;;
            match home with
            | inr e => ret (inr (ErrHomeDir e))
            | inl home => ret (inl (filepath_Join C home ".config"))
            end
          else ret (inl configHome)) ;;
    match r with
    | inr e => ret (EmptyString, Some e)
    | inl configHome =>
        let configDir := filepath_Join C configHome DefaultConfigDirName in
        err <- os_MkdirAll configDir ;;
        match err with
        | Some e => ret (EmptyString, Some (ErrMkdir e))
        | None =>
            let configPath := filepath_Join C configDir DefaultConfigFileName in
            ret (configPath, None)
        end
    end.

Definition LoadConfig (C : Codec) (configPath : string)
  : M FS (option Config * option cfg_error) :=
  '(path, err) <- getConfigPath C configPath ;;
  match err with
  | Some e => ret (None, Some e)
  | None =>
      let cfg := DefaultConfig in
      '(data, err) <- os_ReadFile path ;;
      match err with
      | Some e =>
          if os_IsNotExist e then ret (Some cfg, None)
          else ret (None, Some (ErrRead e))
      | None =>
          match yaml_Unmarshal C data cfg with
          | inr e => ret (None, Some (ErrParseFile e))
          | inl cfg => ret (Some cfg, None)
          end
      end
  end.

Definition SaveConfig (C : Codec) (cfg : Config) (configPath : string)
  : M FS (option cfg_error) :=
  '(path, err) <- getConfigPath C configPath ;;
  match err with
  | Some e => ret (Some e)
  | None =>
      match yaml_Marshal C cfg with
      | inr e => ret (Some (ErrMarshal e))
      | inl data =>
          err <- os_WriteFile path data ;;
          match err with
          | Some e => ret (Some (ErrWrite e))
          | None => ret None
          end
      end
  end.

End config.

(* ------------------------------------------------------------------ *)
(** ** Further scenarios

    Systems and values the further properties are run on. *)

Module Scenario.

Import Fixture.


(** A system that refuses the raw socket. *)
Definition deaf : OS :=
  set_net (mkNet (Some (ErrSys 1)) [] [] []) (boot 100).

(** A system whose [IcmpCreateFile] returns [INVALID_HANDLE_VALUE], and one
    where it returns zero. *)
Definition invalid_handle : OS :=
  set_helper (mkHelper None 0
                ["IcmpCreateFile"; "IcmpCloseHandle"; "IcmpSendEcho"]%string
                INVALID_HANDLE_VALUE [] [])
             (boot 100).
Definition no_handle : OS :=
  set_helper (mkHelper None 0
                ["IcmpCreateFile"; "IcmpCloseHandle"; "IcmpSendEcho"]%string
                0 [] [])
             (boot 100).

(** An answer of the facility with a round-trip time of zero. *)
Definition instant : EchoAnswer := mkEchoAnswer 1 (reply_buffer testnet 0 0) 0 0.

(** The datagram transport as a value of the interface. *)
Definition up0_value : PingerValue := mkPingerValue (Unix.unixPinger_Pinger lib) up0.

Definition fmt_d (n : Z) : string := two_digits n.
Definition fmt_seconds (d : Duration) : string := two_digits (d / Second).

(** A path join with a slash, and a codec that writes the three fields as
    three numbers and reads them back; no data leaves the value as it
    is. *)
Definition join (a b : string) : string := (a ++ "/" ++ b)%string.

Definition encode (c : config.Config) : list byte + config.cfg_error :=
  inl [config.DefaultTimeout c;
       if config.ShowTimestamps c then 1 else 0;
       config.DefaultCount c].

Definition decode (data : list byte) (c : config.Config)
  : config.Config + config.cfg_error :=
  match data with
  | [] => inl c
  | [t; s; n] => inl (config.mkConfig t (s =? 1) n)
  | _ => inr (config.ErrYAML 1)
  end.

Definition codec : config.Codec := config.mkCodec join decode encode.

(** A fresh account with a home directory, and one with XDG_CONFIG_HOME set
    and no home directory to be found. *)
Definition no_error (_ : string) : option config.cfg_error := None.

Definition home_fs : config.FS :=
  config.mkFS "" (inl "/home/u"%string) [] [] no_error no_error no_error.
Definition xdg_fs : config.FS :=
  config.mkFS "/xdg" (inr (config.ErrOS 2)) [] [] no_error no_error no_error.

Definition quick : config.Config := config.mkConfig Second false 3.

End Scenario.

Unset Implicit Arguments.

(* ================================================================== *)
(** * Properties *)

(* ------------------------------------------------------------------ *)
(** ** The resolver *)

Section Resolver.

Variable L : Lib.

Lemma first_ipv4_Some (ips : list IP) (ip : IP) :
  first_ipv4 ips = Some ip ->
  exists before after,
    ips = before ++ ip :: after
    /\ Forall (fun x => To4 x = None) before
    /\ To4 ip <> None.
Proof.
  induction ips as [|x rest IH]; simpl; [discriminate|].
  destruct (To4 x) eqn:Hx.
  - intros [= <-]. exists [], rest. repeat split; [constructor | congruence].
  - intros H. destruct (IH H) as (before & after & -> & Hb & Hip).
    exists (x :: before), after. repeat split; auto.
Qed.

Lemma first_ipv4_None (ips : list IP) :
  first_ipv4 ips = None -> Forall (fun x => To4 x = None) ips.
Proof.
  induction ips as [|x rest IH]; simpl; [constructor|].
  destruct (To4 x) eqn:Hx; [discriminate|]. auto.
Qed.

Lemma resolvable_first_ipv4 (host : string) :
  resolvable L host ->
  exists ips ip, net_LookupIP L host = (ips, None) /\ first_ipv4 ips = Some ip.
Proof.
  intros (ips & Hl & Hex). exists ips.
  destruct (first_ipv4 ips) as [ip|] eqn:Hf; [eauto|].
  apply first_ipv4_None in Hf. apply Exists_exists in Hex.
  destruct Hex as (ip & Hin & Hip). rewrite Forall_forall in Hf.
  elim Hip. auto.
Qed.

Lemma resolve_from_ok (hosts : list string) :
  forall resolved,
    Forall (resolvable L) hosts ->
    exists recs,
      resolve_from L hosts resolved = (resolved ++ recs, None)
      /\ map Hostname recs = hosts
      /\ Forall (first_match L) recs.
Proof.
  induction hosts as [|host rest IH]; intros resolved Hall.
  - exists []. simpl. rewrite app_nil_r. auto.
  - inversion Hall as [|? ? Hh Hrest]; subst.
    destruct (resolvable_first_ipv4 _ Hh) as (ips & ip & Hl & Hf).
    destruct (IH (resolved ++ [mkHostInfo host ip]) Hrest)
      as (recs & Hrun & Hnames & Hrecs).
    exists (mkHostInfo host ip :: recs). simpl. rewrite Hl, Hf, Hrun.
    rewrite <- app_assoc. simpl. repeat split; [congruence|].
    constructor; [|assumption].
    destruct (first_ipv4_Some _ _ Hf) as (before & after & ? & ? & ?).
    exists ips, before, after. simpl. auto.
Qed.

Lemma resolve_from_fail (hosts : list string) :
  forall resolved,
    Exists (fun h => ~ resolvable L h) hosts ->
    exists e, resolve_from L hosts resolved = ([], Some e).
Proof.
  induction hosts as [|host rest IH]; intros resolved Hex.
  - inversion Hex.
  - simpl. destruct (net_LookupIP L host) as [ips [e|]] eqn:Hl; [eauto|].
    destruct (first_ipv4 ips) as [ip|] eqn:Hf; [|eauto].
    inversion Hex as [? ? Hbad|? ? Hlater]; subst.
    + elim Hbad. exists ips. split; [assumption|].
      destruct (first_ipv4_Some _ _ Hf) as (before & after & -> & _ & Hip).
      apply Exists_exists. exists ip. split; [|assumption].
      apply in_or_app. right. left. reflexivity.
    + apply IH. assumption.
Qed.

(** C4.  When every name of the list resolves to at least one IPv4 address,
    [ResolveHosts] returns no error and one record per name, in the order of
    the input, each holding the first address of its lookup that has a
    4-byte form.  When some name of the list does not resolve, or resolves
    to no such address, [ResolveHosts] returns an error together with the
    nil slice: nothing of what was resolved before is handed back. *)
Theorem ResolveHosts_all_or_nothing (hosts : list string) :
  (Forall (resolvable L) hosts ->
   exists recs,
     ResolveHosts L hosts = (recs, None)
     /\ map Hostname recs = hosts
     /\ Forall (first_match L) recs)
  /\
  (Exists (fun h => ~ resolvable L h) hosts ->
   exists e, ResolveHosts L hosts = ([], Some e)).
Proof.
  unfold ResolveHosts. split; intros H.
  - destruct (resolve_from_ok _ [] H) as (recs & Hrun & Hrest).
    exists recs. auto.
  - apply resolve_from_fail. assumption.
Qed.

End Resolver.

(* ------------------------------------------------------------------ *)
(** ** The datagram transport *)

Lemma bind_Ret {S A B} (m : M S A) (k : A -> M S B) (s s' : S) (a : A) :
  m s = (Ret a, s') -> bind m k s = k a s'.
Proof. unfold bind. intros ->. reflexivity. Qed.

Lemma nth_error_list_set {A} (l : list A) (i : nat) (x y : A) :
  nth_error l i = Some y -> nth_error (list_set i x l) i = Some x.
Proof.
  revert i. induction l as [|h t IH]; intros [|i]; simpl; try discriminate; auto.
Qed.

Lemma live_socket_open (c : option nat) (sk : Socket) (o : OS) :
  live_socket c o = inl sk -> sk_closed sk = false.
Proof.
  unfold live_socket. destruct c as [id|]; [|discriminate].
  destruct (nth_error (socks (net o)) id) as [s0|]; [|discriminate].
  destruct (sk_closed s0) eqn:Hc; [discriminate|]. intros [= <-]. assumption.
Qed.

Lemma live_socket_put (c : option nat) (sk sk' : Socket) (o : OS) :
  live_socket c o = inl sk ->
  live_socket c (put_socket c sk' o)
  = if sk_closed sk' then inr ErrClosed else inl sk'.
Proof.
  unfold live_socket, put_socket. destruct c as [id|]; [|discriminate].
  simpl. destruct (nth_error (socks (net o)) id) as [s0|] eqn:Hn; [|discriminate].
  intros _. rewrite (nth_error_list_set _ _ sk' _ Hn). reflexivity.
Qed.

Section UnixProbe.

Variable L : Lib.
Variable up : Unix.unixPinger.
Variable timeout : Duration.

Lemma SetDeadline_live (o : OS) (sk : Socket) (t : Time) :
  live_socket (Unix.conn up) o = inl sk ->
  exists o1,
    conn_SetDeadline (Unix.conn up) t o = (Ret None, o1)
    /\ live_socket (Unix.conn up) o1 = inl (mkSocket false (Some t))
    /\ clock o1 = clock o /\ sigint o1 = sigint o /\ pid o1 = pid o
    /\ send_errs (net o1) = send_errs (net o)
    /\ inbox (net o1) = inbox (net o).
Proof.
  intros Hlive. unfold conn_SetDeadline. rewrite Hlive.
  eexists. split; [reflexivity|].
  rewrite (live_socket_open _ _ _ Hlive).
  split; [|repeat split].
  change (live_socket (Unix.conn up)
            (put_socket (Unix.conn up) (mkSocket false (Some t)) o)
          = inl (mkSocket false (Some t))).
  rewrite (live_socket_put _ _ _ _ Hlive). reflexivity.
Qed.

Lemma WriteTo_live_any (dst : IP) (o : OS) (sk : Socket) (msg : list byte) :
  live_socket (Unix.conn up) o = inl sk ->
  hd None (send_errs (net o)) = None ->
  exists o1,
    conn_WriteTo (Unix.conn up) msg dst o = (Ret None, o1)
    /\ live_socket (Unix.conn up) o1 = inl sk
    /\ clock o1 = clock o /\ sigint o1 = sigint o
    /\ inbox (net o1) = inbox (net o).
Proof.
  intros Hlive Hsend. unfold conn_WriteTo. rewrite Hlive, Hsend.
  eexists. split; [reflexivity|]. repeat split. exact Hlive.
Qed.

Lemma ReadFrom_datagram (o : OS) (dl : Time) (dg : Datagram) (rest : list Datagram) :
  live_socket (Unix.conn up) o = inl (mkSocket false (Some dl)) ->
  sigint o <> Some O ->
  inbox (net o) = dg :: rest ->
  dg_arrival dg < dl ->
  exists o1,
    conn_ReadFrom (Unix.conn up) 1500 o
    = (Ret (firstn 1500 (dg_bytes dg), Some (dg_peer dg), None), o1)
    /\ clock o1 = Z.max (clock o) (dg_arrival dg).
Proof.
  intros Hlive Hsig Hin Hdl. unfold conn_ReadFrom, blocking.
  assert (Hlt : (dg_arrival dg <? dl) = true) by (apply Z.ltb_lt; assumption).
  destruct (sigint o) as [[|n]|] eqn:Hs; [congruence| |].
  - change (live_socket (Unix.conn up) (set_sigint (Some n) o))
      with (live_socket (Unix.conn up) o).
    rewrite Hlive. simpl. rewrite Hin. simpl. rewrite Hlt.
    eexists. split; reflexivity.
  - rewrite Hlive. rewrite Hin. simpl. rewrite Hlt.
    eexists. split; reflexivity.
Qed.

(** A probe whose read returns a datagram: the state reached and the
    bytes handed to the parser. *)
Lemma Ping_reads (ip : IP) (o : OS) (sk : Socket) (dg : Datagram)
      (rest : list Datagram) :
  reply_in_time up timeout o sk dg rest ->
  exists o',
    clock o' = Z.max (clock o) (dg_arrival dg)
    /\ Unix.Ping L up ip timeout o
       = match icmp_ParseMessage L ProtocolICMP (firstn 1500 (dg_bytes dg)) with
         | inr e => (Ret (0, Some e), o')
         | inl rm =>
             if Type_ rm =? ICMPTypeEchoReply
             then (Ret (Time_Sub (clock o') (clock o), None), o')
             else (Ret (0, Some (ErrUnexpectedType (Type_ rm))), o')
         end.
Proof.
  intros (Hlive & Hsend & Hsig & Hin & Hdl).
  destruct (SetDeadline_live _ _ (Time_Add (clock o) timeout) Hlive)
    as (o1 & E1 & Hlive1 & Hc1 & Hs1 & Hp1 & Hse1 & Hi1).
  rewrite <- Hse1 in Hsend.
  destruct (WriteTo_live_any ip _ _
              (Unix.createICMPMessage L (Z.land (pid o1) 65535) 1)
              Hlive1 Hsend) as (o2 & E2 & Hlive2 & Hc2 & Hs2 & Hi2).
  assert (Hsig2 : sigint o2 <> Some O) by congruence.
  assert (Hin2 : inbox (net o2) = dg :: rest) by congruence.
  destruct (ReadFrom_datagram _ _ _ _ Hlive2 Hsig2 Hin2 Hdl) as (o3 & E3 & Hc3).
  exists o3. split; [congruence|].
  unfold Unix.Ping.
  rewrite (bind_Ret _ _ _ _ _ (eq_refl : time_Now o = (Ret (clock o), o))).
  rewrite (bind_Ret _ _ _ _ _ E1).
  rewrite (bind_Ret _ _ _ _ _ (eq_refl : os_Getpid o1 = (Ret (pid o1), o1))).
  rewrite (bind_Ret _ _ _ _ _ E2).
  rewrite (bind_Ret _ _ _ _ _ (eq_refl : time_Now o2 = (Ret (clock o2), o2))).
  rewrite (bind_Ret _ _ _ _ _ E3).
  destruct (icmp_ParseMessage L ProtocolICMP (firstn 1500 (dg_bytes dg)))
    as [rm|e]; [|reflexivity].
  destruct (Type_ rm =? ICMPTypeEchoReply); [|reflexivity].
  unfold time_Since, time_Now, gets, bind, ret.
  rewrite Hc2, Hc1. reflexivity.
Qed.


(** C6.  When the read of a probe returns a datagram before the deadline:
    if the bytes parse as an ICMP message of type Echo Reply the probe
    returns no error and, as round-trip time, the time elapsed on the clock
    since the send, which is not negative; if they parse as a message of
    any other type it returns the unexpected-type error with a zero
    duration; if they do not parse it returns the parser's error with a
    zero duration. *)
Theorem Ping_unix_reply (ip : IP) (o : OS) (sk : Socket) (dg : Datagram)
        (rest : list Datagram) :
  reply_in_time up timeout o sk dg rest ->
  let reply := firstn 1500 (dg_bytes dg) in
  let r := Unix.Ping L up ip timeout o in
  (forall rm, icmp_ParseMessage L ProtocolICMP reply = inl rm ->
              Type_ rm = ICMPTypeEchoReply ->
              fst r = Ret (Time_Sub (clock (snd r)) (clock o), None)
              /\ 0 <= Time_Sub (clock (snd r)) (clock o))
  /\ (forall rm, icmp_ParseMessage L ProtocolICMP reply = inl rm ->
                 Type_ rm <> ICMPTypeEchoReply ->
                 fst r = Ret (0, Some (ErrUnexpectedType (Type_ rm))))
  /\ (forall e, icmp_ParseMessage L ProtocolICMP reply = inr e ->
                fst r = Ret (0, Some e)).
Proof.
  intros H reply r. destruct (Ping_reads ip o sk dg rest H) as (o' & Hc & E).
  subst r reply. rewrite E. clear E.
  split; [|split].
  - intros rm -> Hty. apply Z.eqb_eq in Hty. rewrite Hty. simpl.
    split; [reflexivity|]. rewrite Hc. unfold Time_Sub, max_int64, min_int64. lia.
  - intros rm -> Hty. apply Z.eqb_neq in Hty. rewrite Hty. reflexivity.
  - intros e ->. reflexivity.
Qed.

(** C9.  A probe compares nothing of the reply with what it sent.  When the
    first datagram read before the deadline parses as an Echo Reply, the
    probe of any address [ip] succeeds, whatever the identifier, sequence
    number and data of the reply and whoever its sender is; and for two
    probes that each read a datagram in time, of whatever addresses, the
    reports agree as soon as the two parsed messages have the same
    type. *)
Theorem Ping_unix_type_only (ip : IP) (o : OS) (sk : Socket) (dg : Datagram)
        (rest : list Datagram) (rm : Message) :
  reply_in_time up timeout o sk dg rest ->
  icmp_ParseMessage L ProtocolICMP (firstn 1500 (dg_bytes dg)) = inl rm ->
  (Type_ rm = ICMPTypeEchoReply ->
   verdict (Unix.Ping L up ip timeout o) = Some None)
  /\ (forall ip2 o2 sk2 dg2 rest2 rm2,
        reply_in_time up timeout o2 sk2 dg2 rest2 ->
        icmp_ParseMessage L ProtocolICMP (firstn 1500 (dg_bytes dg2)) = inl rm2 ->
        Type_ rm2 = Type_ rm ->
        verdict (Unix.Ping L up ip2 timeout o2)
        = verdict (Unix.Ping L up ip timeout o)).
Proof.
  intros H Hp.
  assert (V : forall ipx ox skx dgx restx rmx,
             reply_in_time up timeout ox skx dgx restx ->
             icmp_ParseMessage L ProtocolICMP (firstn 1500 (dg_bytes dgx)) = inl rmx ->
             verdict (Unix.Ping L up ipx timeout ox)
             = Some (if Type_ rmx =? ICMPTypeEchoReply then None
                     else Some (ErrUnexpectedType (Type_ rmx)))).
  { intros ipx ox skx dgx restx rmx Hx Hpx.
    destruct (Ping_reads ipx ox skx dgx restx Hx) as (o' & _ & E).
    unfold verdict. rewrite E, Hpx.
    destruct (Type_ rmx =? ICMPTypeEchoReply); reflexivity. }
  split.
  - intros Hty. rewrite (V ip o sk dg rest rm H Hp).
    apply Z.eqb_eq in Hty. rewrite Hty. reflexivity.
  - intros ip2 o2 sk2 dg2 rest2 rm2 H2 Hp2 Hty.
    rewrite (V ip2 o2 sk2 dg2 rest2 rm2 H2 Hp2), (V ip o sk dg rest rm H Hp).
    rewrite Hty. reflexivity.
Qed.

End UnixProbe.

(* ------------------------------------------------------------------ *)
(** ** The helper transport *)

Lemma To4_word (ip : IP) :
  To4 ip <> None ->
  exists ipAddr,
    match To4 ip with
    | Some b => LittleEndian_Uint32 b
    | None => None
    end = Some ipAddr.
Proof.
  unfold To4. destruct (List.length ip =? 4)%nat eqn:H4.
  - intros _. apply Nat.eqb_eq in H4.
    destruct ip as [|a [|b [|c [|d [|e t]]]]]; try discriminate.
    simpl. eauto.
  - destruct ((List.length ip =? 16)%nat && isZeros (firstn 10 ip)
              && (nth 10 ip 0 =? 255) && (nth 11 ip 0 =? 255)) eqn:H16;
      [|congruence].
    intros _. repeat (apply andb_prop in H16; destruct H16 as [H16 ?]).
    apply Nat.eqb_eq in H16.
    do 16 (destruct ip as [|? ip]; [discriminate|]).
    simpl. eauto.
Qed.


Lemma Forall_firstn_range (n : nat) (l : list byte) :
  byte_range l -> byte_range (firstn n l).
Proof.
  unfold byte_range. revert l. induction n as [|n IH]; intros [|x l] H; simpl;
    try constructor; inversion H; subst; auto.
Qed.

Lemma nth_range (l : list byte) (i : nat) :
  byte_range l -> 0 <= nth i l 0 < 256.
Proof.
  unfold byte_range. revert i. induction l as [|x l IH]; intros [|i] H; simpl;
    try lia; inversion H; subst; auto.
Qed.

Lemma reply_buffer_range (ea : EchoAnswer) (size : nat) :
  byte_range (ea_reply ea) -> byte_range (reply_buffer_of ea size).
Proof.
  intros H. apply Forall_firstn_range. apply Forall_app. split; [exact H|].
  clear. induction size; simpl; constructor; [lia|assumption].
Qed.

Lemma le32_range (b : list byte) (off : nat) :
  byte_range b -> 0 <= Windows.le32 b off < 2 ^ 32.
Proof.
  intros H. unfold Windows.le32, Windows.le16.
  pose proof (nth_range b off H). pose proof (nth_range b (off + 1) H).
  pose proof (nth_range b (off + 2) H). pose proof (nth_range b (off + 2 + 1) H).
  change (2 ^ 32) with 4294967296. lia.
Qed.

Lemma wrap64_small (z : Z) : min_int64 <= z <= max_int64 -> wrap64 z = z.
Proof.
  unfold wrap64, min_int64, max_int64. intros H.
  rewrite Z.mod_small; change (2 ^ 63) with 9223372036854775808;
    change (2 ^ 64) with 18446744073709551616; lia.
Qed.

Lemma uint32_range (z : Z) : 0 <= uint32 z < 2 ^ 32.
Proof. unfold uint32. apply Z.mod_pos_bound. reflexivity. Qed.

Section HelperProbe.

Variable wp : Windows.windowsPinger.
Variable timeout : Duration.

(** A probe that reaches the echo call: the call it logs and what it
    returns. *)
Lemma Ping_calls (ip : IP) (o : OS) :
  echo_ready ip o ->
  exists ipAddr o',
    calls o' = calls o
               ++ [CIcmpSendEcho (Windows.handle wp) ipAddr
                     (bytes_of_string "ping") 44 (timeoutMs_of timeout)]
    /\ Windows.Ping wp ip timeout o
       = match echoes (helper o) with
         | [] => (Ret (0, Some (ErrSendEcho (ErrSys 11010))), o')
         | ea :: _ =>
             if ea_ret ea =? 0
             then (Ret (0, Some (ErrSendEcho (ErrSys (ea_lasterr ea)))), o')
             else (Ret (Duration_mul
                          (Windows.RoundTripTime
                             (Windows.reply_of (reply_buffer_of ea 44)))
                          Millisecond, None), o')
         end.
Proof.
  intros (Hrefs & Hexp & Hip & Hsig).
  destruct (To4_word ip Hip) as (ipAddr & Hw).
  exists ipAddr.
  unfold Windows.Ping.
  assert (E : dll_FindProc "IcmpSendEcho" o = (Ret (inl "IcmpSendEcho"%string), o)).
  { unfold dll_FindProc. destruct (dll_refs (helper o)); [congruence|].
    rewrite Hexp. reflexivity. }
  rewrite (bind_Ret _ _ _ _ _ E). rewrite Hw.
  fold (timeoutMs_of timeout).
  change (uint32 (uint32 Windows.sizeof_icmpEchoReply
                  + uint32 (Z.of_nat (List.length (bytes_of_string "ping")))))
    with 44.
  unfold bind, call_IcmpSendEcho, blocking.
  destruct (sigint o) as [[|n]|] eqn:Hs; [congruence| |];
    simpl; (destruct (echoes (helper o)) as [|ea rest]; simpl;
            [eexists; split; [|reflexivity]; reflexivity|]);
    unfold reply_buffer_of;
    (destruct (ea_ret ea =? 0); eexists; (split; [|reflexivity]); reflexivity).
Qed.


(** C10.  A probe that reaches the echo call reports success exactly when
    the call returns non-zero.  The duration it then reports is read from
    the round-trip-time field alone: two replies that agree on the return
    value and on that field give the same result, whatever their status
    fields hold. *)
Theorem Ping_helper_success (ip : IP) (o : OS) :
  echo_ready ip o ->
  let r := Windows.Ping wp ip timeout o in
  (verdict r = Some None <-> echo_return o <> 0)
  /\ (forall ea rest,
        echoes (helper o) = ea :: rest ->
        ea_ret ea <> 0 ->
        fst r = Ret (Duration_mul
                       (Windows.RoundTripTime
                          (Windows.reply_of (reply_buffer_of ea 44)))
                       Millisecond, None)
        /\ forall ip2 o2 ea2 rest2,
             echo_ready ip2 o2 ->
             echoes (helper o2) = ea2 :: rest2 ->
             ea_ret ea2 <> 0 ->
             Windows.RoundTripTime (Windows.reply_of (reply_buffer_of ea2 44))
             = Windows.RoundTripTime (Windows.reply_of (reply_buffer_of ea 44)) ->
             fst (Windows.Ping wp ip2 timeout o2) = fst r).
Proof.
  intros H r. destruct (Ping_calls ip o H) as (ipAddr & o' & _ & E).
  subst r. split.
  - unfold verdict, echo_return. rewrite E.
    destruct (echoes (helper o)) as [|ea rest]; simpl.
    + split; [discriminate | congruence].
    + destruct (ea_ret ea =? 0) eqn:Hz; simpl.
      * apply Z.eqb_eq in Hz. split; [discriminate | congruence].
      * apply Z.eqb_neq in Hz. split; auto.
  - intros ea rest He Hret. rewrite E, He.
    apply Z.eqb_neq in Hret. rewrite Hret. split; [reflexivity|].
    intros ip2 o2 ea2 rest2 H2 He2 Hret2 Hrtt.
    destruct (Ping_calls ip2 o2 H2) as (ipAddr2 & o2' & _ & E2).
    rewrite E2, He2. apply Z.eqb_neq in Hret2. rewrite Hret2.
    cbv beta iota delta [fst]. rewrite Hrtt. reflexivity.
Qed.

End HelperProbe.

(* ------------------------------------------------------------------ *)
(** ** Closing a transport twice *)

Lemma newPinger_unix_inv (o o1 : OS) (up : Unix.unixPinger) :
  Unix.newPinger o = (Ret (Some up, None), o1) ->
  up = Unix.mkUnixPinger (Some (List.length (socks (net o))))
  /\ live_socket (Unix.conn up) o1 = inl (mkSocket false None).
Proof.
  unfold Unix.newPinger, bind, icmp_ListenPacket.
  destruct (listen_err (net o)); [discriminate|].
  intros [= <- <-]. split; [reflexivity|].
  unfold live_socket. simpl.
  rewrite nth_error_app2, Nat.sub_diag by apply Nat.le_refl. reflexivity.
Qed.

Lemma newPinger_windows_inv (o o1 : OS) (wp : Windows.windowsPinger) :
  Windows.newPinger o = (Ret (Some wp, None), o1) ->
  (Windows.handle wp =? 0) = false
  /\ dll_refs (helper o1) = S (dll_refs (helper o))
  /\ dll_exports (helper o1) = dll_exports (helper o).
Proof.
  unfold Windows.newPinger, bind, windows_LoadDLL.
  destruct (dll_load_err (helper o)); [discriminate|].
  unfold dll_FindProc. simpl.
  destruct (string_mem "IcmpCreateFile" (dll_exports (helper o)));
    unfold dll_Release, ret; simpl; [|discriminate].
  destruct (create_ret (helper o) =? INVALID_HANDLE_VALUE);
    destruct (create_ret (helper o) =? 0) eqn:Hz; simpl; try discriminate;
    intros [= <- <-]; simpl; auto.
Qed.

(** C1, on the code.  The second [Close] of a transport is not a no-op.
    The datagram transport closes its connection a second time and returns
    the error of closing a closed connection.  The helper transport, which
    keeps its handle value, either finds its DLL unloaded and returns the
    error of the second release, or (when something else still holds the
    DLL) closes the same handle value once more and releases a load that
    is not its own. *)
Theorem Close_twice :
  (forall o o1 up,
      Unix.newPinger o = (Ret (Some up, None), o1) ->
      exists o2 o3,
        Unix.Close up o1 = (Ret None, o2)
        /\ Unix.Close up o2 = (Ret (Some ErrClosed), o3))
  /\
  (forall o o1 wp,
      Windows.newPinger o = (Ret (Some wp, None), o1) ->
      string_mem "IcmpCloseHandle" (dll_exports (helper o)) = true ->
      exists o2 e2 o3,
        Windows.Close wp o1 = (Ret None, o2)
        /\ Windows.Close wp o2 = (Ret e2, o3)
        /\ ((dll_refs (helper o) = O
             /\ e2 = Some (ErrSys ERROR_MOD_NOT_FOUND)
             /\ calls o3 = calls o1
                           ++ [CIcmpCloseHandle (Windows.handle wp);
                               CFreeLibrary; CFreeLibrary])
            \/ (dll_refs (helper o) <> O
                /\ e2 = None
                /\ calls o3 = calls o1
                              ++ [CIcmpCloseHandle (Windows.handle wp);
                                  CFreeLibrary;
                                  CIcmpCloseHandle (Windows.handle wp);
                                  CFreeLibrary]))).
Proof.
  split.
  - intros o o1 up Hnew.
    destruct (newPinger_unix_inv o o1 up Hnew) as (-> & Hlive).
    unfold Unix.Close. cbv beta iota delta [Unix.conn] in *.
    unfold conn_Close at 1. rewrite Hlive.
    eexists. eexists. split; [reflexivity|].
    unfold conn_Close.
    change (live_socket (Some (List.length (socks (net o))))
              (log_call (CConnClose (conn_id (Some (List.length (socks (net o))))))
                 (put_socket (Some (List.length (socks (net o))))
                    (mkSocket true (sk_deadline (mkSocket false None))) o1)))
      with (live_socket (Some (List.length (socks (net o))))
              (put_socket (Some (List.length (socks (net o))))
                 (mkSocket true None) o1)).
    rewrite (live_socket_put _ _ _ _ Hlive). reflexivity.
  - intros o o1 wp Hnew Hexp.
    destruct (newPinger_windows_inv o o1 wp Hnew) as (Hh & Hrefs & Hexps).
    rewrite <- Hexps in Hexp.
    unfold Windows.Close. rewrite Hh.
    unfold bind at 1 2. unfold dll_FindProc at 1. rewrite Hrefs, Hexp.
    unfold call_IcmpCloseHandle at 1. unfold bind at 1. unfold ret at 1.
    unfold dll_Release at 1. simpl. rewrite Hrefs.
    destruct (dll_refs (helper o)) as [|k] eqn:Hk;
      eexists; eexists; eexists; (split; [reflexivity|]);
      unfold bind, dll_FindProc, dll_Release, call_IcmpCloseHandle, ret; simpl.
    + split; [reflexivity|]. left. repeat split.
      simpl. repeat rewrite <- app_assoc. reflexivity.
    + rewrite Hexp. simpl. split; [reflexivity|]. right.
      repeat split; [discriminate|].
      simpl. repeat rewrite <- app_assoc. reflexivity.
Qed.

(* ------------------------------------------------------------------ *)
(** ** The transports on concrete systems *)

Import Fixture.

(** The resolver on the fixture's name service: a list that resolves, and
    one whose second name has no IPv4 address. *)
Lemma ResolveHosts_all_or_nothing_witness :
  (exists recs,
      ResolveHosts lib ["localhost"; "mapped.test"]%string = (recs, None)
      /\ map Hostname recs = ["localhost"; "mapped.test"]%string
      /\ Forall (first_match lib) recs)
  /\ (exists e,
         ResolveHosts lib ["localhost"; "v6only.test"; "192.0.2.1"]%string
         = ([], Some e)).
Proof.
  split.
  - apply (proj1 (ResolveHosts_all_or_nothing lib
                    ["localhost"; "mapped.test"]%string)).
    repeat constructor.
    + exists [loopback6; loopback]. split; [reflexivity|].
      apply Exists_cons_tl, Exists_cons_hd. vm_compute. discriminate.
    + exists [loopback6; mapped; testnet]. split; [reflexivity|].
      apply Exists_cons_tl, Exists_cons_hd. vm_compute. discriminate.
  - apply (proj2 (ResolveHosts_all_or_nothing lib
                    ["localhost"; "v6only.test"; "192.0.2.1"]%string)).
    apply Exists_cons_tl, Exists_cons_hd.
    intros (ips & Hl & Hex). vm_compute in Hl. injection Hl as <-.
    inversion Hex as [? ? H|? ? H]; subst;
      [apply H; reflexivity | inversion H].
Defined.

Lemma stray_in_time :
  reply_in_time up0 (ms 200) (listening (with_inbox [stray] (boot 100)))
                (mkSocket false None) stray [].
Proof.
  unfold reply_in_time. vm_compute.
  repeat split; try reflexivity; discriminate.
Defined.

Lemma refusal_in_time :
  reply_in_time up0 (ms 200) (listening (with_inbox [refusal] (boot 100)))
                (mkSocket false None) refusal [].
Proof.
  unfold reply_in_time. vm_compute.
  repeat split; try reflexivity; discriminate.
Defined.

Lemma garbage_in_time :
  reply_in_time up0 (ms 200) (listening (with_inbox [garbage] (boot 100)))
                (mkSocket false None) garbage [].
Proof.
  unfold reply_in_time. vm_compute.
  repeat split; try reflexivity; discriminate.
Defined.

(** An echo reply read 50 ns after the send gives 50 ns; a destination
    unreachable message and two stray bytes give the two errors. *)
Lemma Ping_unix_reply_witness :
  fst (Unix.Ping lib up0 testnet (ms 200)
         (listening (with_inbox [stray] (boot 100))))
  = Ret (50, None)
  /\ fst (Unix.Ping lib up0 testnet (ms 200)
            (listening (with_inbox [refusal] (boot 100))))
     = Ret (0, Some (ErrUnexpectedType 3))
  /\ fst (Unix.Ping lib up0 testnet (ms 200)
            (listening (with_inbox [garbage] (boot 100))))
     = Ret (0, Some (ErrParse 1)).
Proof.
  split; [|split].
  - destruct (Ping_unix_reply lib up0 (ms 200) testnet _ _ _ _ stray_in_time)
      as (H & _ & _).
    destruct (H (mkMessage 0 0 3446
                   (Some (EchoBody (mkEcho 7 9 (bytes_of_string "xyz")))))
                eq_refl eq_refl) as [E _].
    rewrite E. vm_compute. reflexivity.
  - destruct (Ping_unix_reply lib up0 (ms 200) testnet _ _ _ _ refusal_in_time)
      as (_ & H & _).
    apply (H (mkMessage 3 1 64766 (Some (RawBody [0; 0; 0; 0]))) eq_refl).
    vm_compute. discriminate.
  - destruct (Ping_unix_reply lib up0 (ms 200) testnet _ _ _ _ garbage_in_time)
      as (_ & _ & H).
    apply (H (ErrParse 1) eq_refl).
Defined.

(** A probe of 192.0.2.1 that sent identifier 4242, sequence number 1 and
    the data "ping" succeeds on a reply from 10.9.8.7 with identifier 7,
    sequence number 9 and the data "xyz". *)
Lemma Ping_unix_type_only_witness :
  Unix.createICMPMessage lib (Z.land 4242 65535) 1
  = [8; 0; 8; 156; 16; 146; 0; 1; 112; 105; 110; 103]
  /\ dg_bytes stray = [0; 0; 13; 118; 0; 7; 0; 9; 120; 121; 122]
  /\ dg_peer stray = [10; 9; 8; 7]
  /\ verdict (Unix.Ping lib up0 testnet (ms 200)
                (listening (with_inbox [stray] (boot 100))))
     = Some None.
Proof.
  split; [reflexivity|]. split; [reflexivity|]. split; [reflexivity|].
  apply (proj1 (Ping_unix_type_only lib up0 (ms 200) testnet _ _ _ _
                  (mkMessage 0 0 3446
                     (Some (EchoBody (mkEcho 7 9 (bytes_of_string "xyz")))))
                  stray_in_time eq_refl)).
  reflexivity.
Defined.

Lemma attached_ready (l : list EchoAnswer) :
  echo_ready testnet (attached (with_echoes l (boot 100))).
Proof.
  unfold echo_ready. vm_compute. repeat split; discriminate.
Defined.



(** A reply whose status field holds 11003 (destination host unreachable)
    with a non-zero return of the call is a successful probe of 7 ms. *)
Lemma Ping_helper_success_witness :
  Windows.Status
    (Windows.reply_of
       (reply_buffer_of (mkEchoAnswer 1 (reply_buffer testnet 11003 7) 0 5000000)
                        44))
  = 11003
  /\ fst (Windows.Ping wp0 testnet (ms 200)
            (attached (with_echoes
                         [mkEchoAnswer 1 (reply_buffer testnet 11003 7) 0 5000000]
                         (boot 100))))
     = Ret (ms 7, None).
Proof.
  split; [reflexivity|].
  destruct (Ping_helper_success wp0 (ms 200) testnet _
              (attached_ready
                 [mkEchoAnswer 1 (reply_buffer testnet 11003 7) 0 5000000]))
    as (_ & H).
  destruct (H _ [] eq_refl) as [E _]; [discriminate|].
  rewrite E. reflexivity.
Defined.

(** Two closes of each transport, on a system where nothing else holds the
    helper's DLL. *)
Lemma Close_twice_witness :
  (exists o2 o3,
      Unix.Close up0 (listening (boot 100)) = (Ret None, o2)
      /\ Unix.Close up0 o2 = (Ret (Some ErrClosed), o3))
  /\ (exists o2 e2 o3,
         Windows.Close wp0 (attached (boot 100)) = (Ret None, o2)
         /\ Windows.Close wp0 o2 = (Ret e2, o3)
         /\ e2 = Some (ErrSys ERROR_MOD_NOT_FOUND)).
Proof.
  split.
  - apply (proj1 Close_twice (boot 100)). reflexivity.
  - destruct (proj2 Close_twice (boot 100) (attached (boot 100)) wp0
                eq_refl eq_refl)
      as (o2 & e2 & o3 & E1 & E2 & [(_ & He & _) | (Hr & _)]).
    + exists o2, e2, o3. auto.
    + elim Hr. reflexivity.
Defined.

(* ------------------------------------------------------------------ *)
(** ** What a probe leaves alone *)

Lemma steady_ret {A} (a : A) : steady (ret a).
Proof. intros o. simpl. repeat split; auto. lia. Qed.

Lemma steady_panic {A} : steady (@panic OS A).
Proof. intros o. simpl. repeat split; auto. lia. Qed.

Lemma steady_gets {A} (f : OS -> A) : steady (gets f).
Proof. intros o. simpl. repeat split; auto. lia. Qed.

Lemma steady_bind {A B} (m : M OS A) (k : A -> M OS B) :
  steady m -> (forall a, steady (k a)) -> steady (bind m k).
Proof.
  intros Hm Hk o. unfold bind. destruct (Hm o) as (Hc & Hs & Hr).
  destruct (m o) as [[a| | | |] o1]; simpl in *; auto.
  destruct (Hk a o1) as (Hc' & Hs' & Hr'). repeat split.
  - lia.
  - auto.
  - congruence.
Qed.

Lemma steady_blocking {A} (m : M OS A) : steady m -> steady (blocking m).
Proof.
  intros Hm o. unfold blocking. destruct (sigint o) as [[|n]|] eqn:Hs.
  - simpl. repeat split; [lia | congruence].
  - destruct (Hm (set_sigint (Some n) o)) as (Hc & _ & Hr).
    repeat split; [exact Hc | congruence | exact Hr].
  - destruct (Hm o) as (Hc & Hs' & Hr). repeat split; auto.
Qed.

Create HintDb steady.

#[local] Hint Resolve steady_ret steady_panic steady_gets steady_blocking
  : steady.

Ltac steady_cases :=
  intros o; simpl;
  repeat match goal with
         | |- context [match ?x with _ => _ end] => destruct x; simpl
         end;
  unfold releases; simpl; rewrite ?filter_app; simpl; rewrite ?app_nil_r;
  repeat split; auto; try lia.

Lemma steady_SetDeadline (c : option nat) (t : Time) :
  steady (conn_SetDeadline c t).
Proof. unfold conn_SetDeadline. steady_cases. Qed.

Lemma steady_WriteTo (c : option nat) (msg : list byte) (dst : IP) :
  steady (conn_WriteTo c msg dst).
Proof. unfold conn_WriteTo. steady_cases. Qed.

Lemma steady_ReadFrom (c : option nat) (cap : nat) :
  steady (conn_ReadFrom c cap).
Proof.
  unfold conn_ReadFrom. apply steady_blocking. steady_cases.
Qed.

Lemma steady_FindProc (name : string) : steady (dll_FindProc name).
Proof. unfold dll_FindProc. steady_cases. Qed.

Lemma steady_IcmpSendEcho (h ipAddr : Z) (data : list byte)
      (replySize timeoutMs : Z) :
  0 <= timeoutMs ->
  steady (call_IcmpSendEcho h ipAddr data replySize timeoutMs).
Proof.
  intros Hms. unfold call_IcmpSendEcho. apply steady_blocking.
  steady_cases. unfold Millisecond. lia.
Qed.

Lemma steady_Sleep (d : Duration) : steady (time_Sleep d).
Proof.
  unfold time_Sleep. destruct (d <=? 0) eqn:Hd; [apply steady_ret|].
  apply Z.leb_gt in Hd. apply steady_blocking. steady_cases.
Qed.

Lemma steady_Until (t : Time) : steady (time_Until t).
Proof.
  unfold time_Until, time_Now. apply steady_bind; auto with steady.
Qed.

#[local] Hint Resolve steady_SetDeadline steady_WriteTo steady_ReadFrom
  steady_FindProc steady_Sleep steady_Until : steady.

Ltac steady_step :=
  first
    [ apply steady_bind; [|intros ?]
    | match goal with
      | |- steady (match ?x with _ => _ end) => destruct x
      | |- steady (if ?x then _ else _) => destruct x
      end
    | solve [auto with steady] ].

Lemma steady_Ping_unix (L : Lib) (up : Unix.unixPinger) (ip : IP)
      (timeout : Duration) :
  steady (Unix.Ping L up ip timeout).
Proof.
  unfold Unix.Ping, time_Since, time_Now, os_Getpid. repeat steady_step.
Qed.

Lemma steady_Ping_windows (wp : Windows.windowsPinger) (ip : IP)
      (timeout : Duration) :
  steady (Windows.Ping wp ip timeout).
Proof.
  unfold Windows.Ping. repeat steady_step.
  apply steady_IcmpSendEcho.
  pose proof (uint32_range (Milliseconds timeout)).
  destruct (uint32 (Milliseconds timeout) <? 1); lia.
Qed.

(** A probe returns whenever no interrupt is pending: always on the
    datagram transport, and for an address with a 4-byte form on the
    helper transport. *)
Lemma ReadFrom_returns (c : option nat) (cap : nat) (o : OS) (dl : Time) :
  live_socket c o = inl (mkSocket false (Some dl)) ->
  sigint o = None ->
  exists r o', conn_ReadFrom c cap o = (Ret r, o').
Proof.
  intros Hlive Hs. unfold conn_ReadFrom, blocking. rewrite Hs, Hlive. simpl.
  destruct (inbox (net o)) as [|dg rest]; [eauto|].
  destruct (dg_arrival dg <? dl); eauto.
Qed.

Lemma returns_Ping_unix (L : Lib) (up : Unix.unixPinger) (ip : IP)
      (timeout : Duration) :
  returns (Unix.Ping L up ip timeout).
Proof.
  intros o Hs. unfold Unix.Ping.
  rewrite (bind_Ret _ _ _ _ _ (eq_refl : time_Now o = (Ret (clock o), o))).
  destruct (live_socket (Unix.conn up) o) as [sk|e] eqn:Hlive.
  2:{ unfold bind, conn_SetDeadline. rewrite Hlive. unfold ret. eauto. }
  destruct (SetDeadline_live up o sk (Time_Add (clock o) timeout) Hlive)
    as (o1 & E1 & Hlive1 & Hc1 & Hs1 & Hp1 & Hse1 & Hi1).
  rewrite (bind_Ret _ _ _ _ _ E1).
  rewrite (bind_Ret _ _ _ _ _ (eq_refl : os_Getpid o1 = (Ret (pid o1), o1))).
  destruct (hd None (send_errs (net o1))) as [e|] eqn:Hsend.
  { unfold bind, conn_WriteTo. rewrite Hlive1, Hsend. unfold ret. eauto. }
  destruct (WriteTo_live_any up ip o1 _
              (Unix.createICMPMessage L (Z.land (pid o1) 65535) 1)
              Hlive1 Hsend) as (o2 & E2 & Hlive2 & Hc2 & Hs2 & Hi2).
  rewrite (bind_Ret _ _ _ _ _ E2).
  rewrite (bind_Ret _ _ _ _ _ (eq_refl : time_Now o2 = (Ret (clock o2), o2))).
  assert (Hq : sigint o2 = None) by congruence.
  destruct (ReadFrom_returns (Unix.conn up) 1500 o2 _ Hlive2 Hq)
    as ([[reply peer] err] & o3 & E3).
  rewrite (bind_Ret _ _ _ _ _ E3).
  destruct err as [e|]; [unfold ret; eauto|].
  destruct (icmp_ParseMessage L ProtocolICMP reply) as [rm|e];
    [|unfold ret; eauto].
  destruct (Type_ rm =? ICMPTypeEchoReply); [|unfold ret; eauto].
  unfold time_Since, time_Now, gets, bind, ret. eauto.
Qed.

Lemma returns_Ping_windows (wp : Windows.windowsPinger) (ip : IP)
      (timeout : Duration) :
  To4 ip <> None -> returns (Windows.Ping wp ip timeout).
Proof.
  intros Hip o Hs. unfold Windows.Ping.
  destruct (To4_word ip Hip) as (ipAddr & Hw). rewrite Hw.
  unfold bind, dll_FindProc.
  destruct (dll_refs (helper o)); [unfold ret; eauto|].
  destruct (string_mem "IcmpSendEcho" (dll_exports (helper o)));
    [|unfold ret; eauto].
  unfold call_IcmpSendEcho, blocking. rewrite Hs.
  destruct (echoes (helper o)) as [|ea rest]; simpl; [unfold ret; eauto|].
  destruct (ea_ret ea =? 0); unfold ret; eauto.
Qed.

(* ------------------------------------------------------------------ *)
(** ** The round loop *)

Lemma bind_stop {S A B} (m : M S A) (k : A -> M S B) (s s' : S) (out : Outcome A) :
  m s = (out, s') ->
  (forall a, out <> Ret a) ->
  exists out', bind m k s = (out', s') /\ (forall b, out' <> Ret b)
               /\ (out = Killed <-> out' = Killed).
Proof.
  unfold bind. intros -> H.
  destruct out as [a| c | | |]; [elim (H a); reflexivity | | | |];
    eexists; (split; [reflexivity|]); split; try discriminate;
    split; try discriminate; auto.
Qed.

Lemma wrap64_range (z : Z) : min_int64 <= wrap64 z <= max_int64.
Proof.
  unfold wrap64, min_int64, max_int64.
  pose proof (Z.mod_pos_bound (z + 2 ^ 63) (2 ^ 64) eq_refl) as H.
  change (2 ^ 63) with 9223372036854775808 in *.
  change (2 ^ 64) with 18446744073709551616 in *. lia.
Qed.

Lemma releases_log (c : Call) (o : OS) :
  is_release c = false -> releases (log_call c o) = releases o.
Proof.
  intros H. unfold releases. simpl. rewrite filter_app. simpl. rewrite H.
  apply app_nil_r.
Qed.

Lemma begun_app (l1 l2 : list Event) : begun (l1 ++ l2) = begun l1 ++ begun l2.
Proof.
  induction l1 as [|e l1 IH]; [reflexivity|].
  destruct e; simpl; rewrite IH; reflexivity.
Qed.

Lemma emitted_app (l1 l2 : list Event) :
  emitted (l1 ++ l2) = emitted l1 ++ emitted l2.
Proof.
  induction l1 as [|e l1 IH]; [reflexivity|].
  destruct e; simpl; rewrite IH; reflexivity.
Qed.

Section Rounds.

Variable L : Lib.
Variable flags : Flags.
Variable pinger : PingerValue.
Variable hosts : list HostInfo.
Variable start : Time.

Hypothesis pinger_steady : forall ip t, steady (pv_Ping pinger ip t).

(** The inner loop adds probes to the trace and nothing else. *)
Lemma probe_hosts_inv (count : Z) :
  forall (todo : list HostInfo) (parts : list string) (o : OS)
         (so : list string) (tr : list Event),
  exists evs o',
    snd (probe_hosts flags pinger count todo parts (mkProc o so tr))
    = mkProc o' so (tr ++ evs)
    /\ clock o <= clock o'
    /\ (sigint o = None -> sigint o' = None)
    /\ releases o' = releases o
    /\ Forall (event_ok flags start) evs
    /\ begun evs = [] /\ emitted evs = [].
Proof.
  induction todo as [|host rest IH]; intros parts o so tr.
  - exists [], o. simpl. rewrite app_nil_r. repeat split; auto. lia.
  - simpl. unfold bind at 1. unfold lift at 1. simpl.
    destruct (pinger_steady (IPAddr host) (timeout flags) o) as (Hc & Hs & Hr).
    destruct (pv_Ping pinger (IPAddr host) (timeout flags) o)
      as [[[rtt err]| c | | |] o1]; simpl in *;
      try (exists [], o1; rewrite app_nil_r; repeat split; auto; fail).
    unfold bind at 1. unfold observe at 1, modify. simpl.
    match goal with
    | |- context [probe_hosts _ _ _ rest ?ps ?p] =>
        destruct (IH ps o1 so
                    (tr ++ [Probed count host (timeout flags) rtt err]))
          as (evs & o' & E & Hc' & Hs' & Hr' & Hok & Hb & He)
    end.
    exists (Probed count host (timeout flags) rtt err :: evs), o'.
    rewrite E. rewrite <- app_assoc. simpl.
    repeat split; auto; try lia; try congruence.
    constructor; [reflexivity | assumption].
Qed.

(** The wait in front of a round. *)
Lemma wait_step (wait : Duration) (o : OS) (so : list string) (tr : list Event) :
  let m := if wait >? 0 then lift (time_Sleep wait) else ret tt in
  (sigint o = Some O /\ m (mkProc o so tr) = (Killed, mkProc o so tr))
  \/ exists o1,
       m (mkProc o so tr) = (Ret tt, mkProc o1 so tr)
       /\ (sigint o = None -> sigint o1 = None)
       /\ releases o1 = releases o
       /\ clock o <= clock o1
       /\ (0 < wait -> clock o + wait <= clock o1)
       /\ (wait <= 0 -> clock o1 = clock o).
Proof.
  intros m. subst m. destruct (wait >? 0) eqn:Hw.
  - apply Z.gtb_lt in Hw. unfold lift, time_Sleep.
    replace (wait <=? 0) with false by (symmetry; apply Z.leb_gt; assumption).
    unfold blocking. simpl. destruct (sigint o) as [[|n]|] eqn:Hs.
    + left. auto.
    + right. eexists. split; [reflexivity|]. simpl.
      repeat split; try congruence; try lia.
      unfold releases. simpl. rewrite filter_app. simpl. apply app_nil_r.
    + right. eexists. split; [reflexivity|]. simpl.
      repeat split; try congruence; try lia.
      unfold releases. simpl. rewrite filter_app. simpl. apply app_nil_r.
  - right. exists o. split; [reflexivity|].
    assert (wait <= 0) by (destruct (Z.gtb_spec wait 0); [discriminate | lia]).
    repeat split; auto; lia.
Qed.

(** One pass of the loop body. *)
Lemma round_inv (count : Z) (o : OS) (so : list string) (tr : list Event) :
  start <= clock o ->
  exists evs o' so',
    snd (round L flags pinger hosts start count (mkProc o so tr))
    = mkProc o' so' (tr ++ evs)
    /\ clock o <= clock o'
    /\ (sigint o = None -> sigint o' = None)
    /\ releases o' = releases o
    /\ Forall (event_ok flags start) evs
    /\ match fst (round L flags pinger hosts start count (mkProc o so tr)) with
       | Ret c' =>
           c' = wrap64 (count + 1)
           /\ begun evs = [count] /\ emitted evs = [count]
           /\ List.length so' = S (List.length so)
       | _ =>
           (begun evs = [] \/ begun evs = [count])
           /\ emitted evs = [] /\ so' = so
       end.
Proof.
  intros Hstart. unfold round.
  set (target := Time_Add start (Duration_mul count (timeout flags))).
  rewrite (bind_Ret _ _ _ _ _
             (eq_refl : lift time_Now (mkProc o so tr)
                        = (Ret (clock o), mkProc o so tr))).
  rewrite (bind_Ret _ _ _ _ _
             (eq_refl : lift (time_Until target) (mkProc o so tr)
                        = (Ret (Time_Sub target (clock o)), mkProc o so tr))).
  set (wait := Time_Sub target (clock o)).
  assert (Hwait : (0 < wait -> wait = target - clock o)
                  /\ (wait <= 0 -> target <= clock o)).
  { subst wait target. unfold Time_Sub, Time_Add.
    pose proof (wrap64_range (count * timeout flags)) as Hr.
    unfold Duration_mul, min_int64, max_int64 in *. lia. }
  destruct (wait_step wait o so tr)
    as [(Hk & E) | (o1 & E & Hs1 & Hr1 & Hc1 & Hpos & Hneg)].
  { match goal with
    | |- context [bind (if wait >? 0 then _ else _) ?k _] =>
        destruct (bind_stop _ k _ _ _ E) as (out' & E' & Hnr & Hkk);
          [discriminate|]
    end.
    rewrite E'. exists [], o, so. rewrite app_nil_r. simpl.
    repeat split; auto; try lia.
    destruct out' as [a| | | |]; [elim (Hnr a); reflexivity| | | |];
      repeat split; auto. }
  rewrite (bind_Ret _ _ _ _ _ E).
  rewrite (bind_Ret _ _ _ _ _
             (eq_refl : lift time_Now (mkProc o1 so tr)
                        = (Ret (clock o1), mkProc o1 so tr))).
  set (ev := RoundBegin count target (clock o) (clock o1)).
  rewrite (bind_Ret _ _ _ _ _
             (eq_refl : observe ev (mkProc o1 so tr)
                        = (Ret tt, mkProc o1 so (tr ++ [ev])))).
  assert (Hev : event_ok flags start ev).
  { subst ev. simpl. fold target. repeat split; auto.
    - destruct (Z_lt_le_dec 0 wait) as [Hp|Hn].
      + specialize (Hpos Hp). destruct Hwait as [Hw _]. rewrite (Hw Hp) in Hpos. lia.
      + specialize (Hneg Hn). destruct Hwait as [_ Hw]. specialize (Hw Hn). lia.
    - intros Hle. apply Hneg.
      destruct (Z_lt_le_dec 0 wait) as [Hp|Hn]; [|assumption].
      destruct Hwait as [Hw _]. specialize (Hw Hp). lia. }
  assert (Eparts : exists parts0,
             (if negb (plainFlag flags)
              then now <- lift time_Now ;; ret [time_Format L now]
              else ret []) (mkProc o1 so (tr ++ [ev]))
             = (Ret parts0, mkProc o1 so (tr ++ [ev]))).
  { destruct (negb (plainFlag flags)); eexists; reflexivity. }
  destruct Eparts as (parts0 & Eparts).
  rewrite (bind_Ret _ _ _ _ _ Eparts).
  destruct (probe_hosts_inv count hosts parts0 o1 so (tr ++ [ev]))
    as (evs & o2 & E2 & Hc2 & Hs2 & Hr2 & Hok & Hb & He).
  destruct (probe_hosts flags pinger count hosts parts0 (mkProc o1 so (tr ++ [ev])))
    as [out p2] eqn:Ep.
  simpl in E2. subst p2.
  destruct out as [parts| c | | |].
  - rewrite (bind_Ret _ _ _ _ _ Ep).
    unfold bind, fmt_Println, observe, modify, ret. simpl.
    exists (ev :: evs ++ [RoundEmitted count (concat " " parts)]), o2,
      (so ++ [concat " " parts]).
    repeat rewrite <- app_assoc. simpl.
    repeat split; auto; try lia; try congruence.
    + constructor; [assumption|]. apply Forall_app. split; [assumption|].
      constructor; [exact I | constructor].
    + subst ev. simpl. clear - Hb. induction evs as [|e evs IH]; [reflexivity|].
      destruct e; simpl in *; try discriminate; auto.
    + subst ev. simpl. clear - He. induction evs as [|e evs IH]; [reflexivity|].
      destruct e; simpl in *; try discriminate; auto.
    + rewrite length_app. simpl. lia.
  - unfold bind. rewrite Ep. simpl.
    exists (ev :: evs), o2, so. rewrite <- app_assoc. simpl.
    repeat split; auto; try lia; try congruence.
    right. subst ev. simpl. congruence.
  - unfold bind. rewrite Ep. simpl.
    exists (ev :: evs), o2, so. rewrite <- app_assoc. simpl.
    repeat split; auto; try lia; try congruence.
    right. subst ev. simpl. congruence.
  - unfold bind. rewrite Ep. simpl.
    exists (ev :: evs), o2, so. rewrite <- app_assoc. simpl.
    repeat split; auto; try lia; try congruence.
    right. subst ev. simpl. congruence.
  - unfold bind. rewrite Ep. simpl.
    exists (ev :: evs), o2, so. rewrite <- app_assoc. simpl.
    repeat split; auto; try lia; try congruence.
    right. subst ev. simpl. congruence.
Qed.


(** The loop, for any fuel and however it ends: the trace grows by
    well-formed observations, and the rounds begun are numbered as
    [count++] numbers them. *)
Lemma rounds_inv (fuel : nat) :
  forall (count : Z) (o : OS) (so : list string) (tr : list Event),
    start <= clock o ->
    exists evs o' so',
      snd (rounds L flags fuel pinger hosts start count (mkProc o so tr))
      = mkProc o' so' (tr ++ evs)
      /\ clock o <= clock o'
      /\ (sigint o = None -> sigint o' = None)
      /\ releases o' = releases o
      /\ Forall (event_ok flags start) evs
      /\ counts_from count (begun evs)
      /\ (List.length (begun evs) <= fuel)%nat.
Proof.
  induction fuel as [|fuel IH]; intros count o so tr Hstart.
  - exists [], o, so. simpl. rewrite app_nil_r. repeat split; auto. lia.
  - simpl. unfold bind at 1.
    destruct (round_inv count o so tr Hstart)
      as (evs1 & o1 & so1 & E1 & Hc1 & Hs1 & Hr1 & Hok1 & Hm).
    destruct (round L flags pinger hosts start count (mkProc o so tr))
      as [out p1].
    simpl in E1, Hm. subst p1.
    destruct out as [c'| c | | |];
      try (destruct Hm as ([Hb|Hb] & _ & _);
           exists evs1, o1, so1; rewrite Hb; simpl;
           repeat split; auto; lia).
    destruct Hm as (-> & Hb & He & Hl).
    destruct ((countFlag flags >? 0) && (wrap64 (count + 1) >=? countFlag flags)).
    + exists evs1, o1, so1. rewrite Hb. simpl. repeat split; auto. lia.
    + destruct (IH (wrap64 (count + 1)) o1 so1 (tr ++ evs1))
        as (evs2 & o2 & so2 & E2 & Hc2 & Hs2 & Hr2 & Hok2 & Hcf & Hlen);
        [lia|].
      exists (evs1 ++ evs2), o2, so2. rewrite E2, app_assoc, begun_app, Hb.
      simpl. repeat split; auto; try lia; try congruence.
      apply Forall_app. auto.
Qed.

Hypothesis hosts_answer :
  Forall (fun h => forall t, returns (pv_Ping pinger (IPAddr h) t)) hosts.

Lemma probe_hosts_returns (count : Z) :
  forall (todo : list HostInfo) (parts : list string) (o : OS)
         (so : list string) (tr : list Event),
    Forall (fun h => forall t, returns (pv_Ping pinger (IPAddr h) t)) todo ->
    sigint o = None ->
    exists parts' p',
      probe_hosts flags pinger count todo parts (mkProc o so tr)
      = (Ret parts', p').
Proof.
  induction todo as [|host rest IH]; intros parts o so tr Hall Hs.
  - simpl. unfold ret. eauto.
  - inversion Hall as [|? ? Hh Hrest]; subst.
    destruct (Hh (timeout flags) o Hs) as ([rtt err] & o1 & E).
    destruct (pinger_steady (IPAddr host) (timeout flags) o) as (_ & Hs1 & _).
    rewrite E in Hs1. simpl in Hs1.
    simpl. unfold bind at 1. unfold lift at 1. simpl. rewrite E.
    unfold bind at 1. unfold observe at 1, modify.
    apply IH; auto.
Qed.

Lemma round_returns (count : Z) (o : OS) (so : list string) (tr : list Event) :
  sigint o = None ->
  exists c' p',
    round L flags pinger hosts start count (mkProc o so tr) = (Ret c', p').
Proof.
  intros Hs. unfold round.
  set (target := Time_Add start (Duration_mul count (timeout flags))).
  rewrite (bind_Ret _ _ _ _ _
             (eq_refl : lift time_Now (mkProc o so tr)
                        = (Ret (clock o), mkProc o so tr))).
  rewrite (bind_Ret _ _ _ _ _
             (eq_refl : lift (time_Until target) (mkProc o so tr)
                        = (Ret (Time_Sub target (clock o)), mkProc o so tr))).
  destruct (wait_step (Time_Sub target (clock o)) o so tr)
    as [(Hk & _) | (o1 & E & Hs1 & _)]; [congruence|].
  rewrite (bind_Ret _ _ _ _ _ E).
  rewrite (bind_Ret _ _ _ _ _
             (eq_refl : lift time_Now (mkProc o1 so tr)
                        = (Ret (clock o1), mkProc o1 so tr))).
  set (ev := RoundBegin count target (clock o) (clock o1)).
  rewrite (bind_Ret _ _ _ _ _
             (eq_refl : observe ev (mkProc o1 so tr)
                        = (Ret tt, mkProc o1 so (tr ++ [ev])))).
  assert (Eparts : exists parts0,
             (if negb (plainFlag flags)
              then now <- lift time_Now ;; ret [time_Format L now]
              else ret []) (mkProc o1 so (tr ++ [ev]))
             = (Ret parts0, mkProc o1 so (tr ++ [ev]))).
  { destruct (negb (plainFlag flags)); eexists; reflexivity. }
  destruct Eparts as (parts0 & Eparts).
  rewrite (bind_Ret _ _ _ _ _ Eparts).
  destruct (probe_hosts_returns count hosts parts0 o1 so (tr ++ [ev])
              hosts_answer (Hs1 Hs)) as (parts & p2 & Ep).
  rewrite (bind_Ret _ _ _ _ _ Ep).
  unfold bind, fmt_Println, observe, modify, ret. simpl. eauto.
Qed.

(** With a positive [countFlag] and no interrupt, the loop entered at
    [count] below [countFlag] returns after emitting the rounds [count],
    ..., [countFlag - 1]. *)
Lemma rounds_exact (fuel : nat) :
  forall (count : Z) (o : OS) (so : list string) (tr : list Event),
    start <= clock o ->
    sigint o = None ->
    0 <= count < countFlag flags ->
    countFlag flags <= max_int64 ->
    (Z.to_nat (countFlag flags - count) <= fuel)%nat ->
    exists evs o' so',
      rounds L flags fuel pinger hosts start count (mkProc o so tr)
      = (Ret tt, mkProc o' so' (tr ++ evs))
      /\ sigint o' = None
      /\ clock o <= clock o'
      /\ emitted evs = upto_from count (Z.to_nat (countFlag flags - count))
      /\ begun evs = emitted evs
      /\ List.length so'
         = (List.length so + Z.to_nat (countFlag flags - count))%nat.
Proof.
  induction fuel as [|fuel IH]; intros count o so tr Hstart Hs Hcount Hmax Hfuel;
    [lia|].
  simpl.
  destruct (round_returns count o so tr Hs) as (c' & p1 & E).
  destruct (round_inv count o so tr Hstart)
    as (evs1 & o1 & so1 & E1 & Hc1 & Hs1 & Hr1 & Hok1 & Hm).
  rewrite E in E1, Hm. simpl in E1, Hm. subst p1.
  destruct Hm as (-> & Hb & He & Hl).
  rewrite (bind_Ret _ _ _ _ _ E).
  assert (Hw : wrap64 (count + 1) = count + 1).
  { apply wrap64_small. unfold min_int64, max_int64 in *. lia. }
  rewrite Hw.
  replace (countFlag flags >? 0) with true
    by (symmetry; apply Z.gtb_lt; lia).
  simpl.
  destruct (count + 1 >=? countFlag flags) eqn:Hge.
  - assert (countFlag flags - count = 1)
      by (destruct (Z.geb_spec (count + 1) (countFlag flags)); [lia | discriminate]).
    exists evs1, o1, so1. replace (countFlag flags - count) with 1 by lia.
    simpl. repeat split; auto; try congruence. lia.
  - assert (count + 1 < countFlag flags)
      by (destruct (Z.geb_spec (count + 1) (countFlag flags)); [discriminate | lia]).
    destruct (IH (count + 1) o1 so1 (tr ++ evs1))
      as (evs2 & o2 & so2 & E2 & Hs2 & Hc2 & He2 & Hb2 & Hl2);
      auto; try lia.
    exists (evs1 ++ evs2), o2, so2.
    rewrite E2, app_assoc, emitted_app, begun_app, He, Hb, He2, Hb2, He2.
    replace (Z.to_nat (countFlag flags - count))
      with (S (Z.to_nat (countFlag flags - (count + 1)))) by lia.
    simpl. repeat split; auto; lia.
Qed.

(** Without a positive [countFlag] the loop never returns; with no
    interrupt it is still running after any number of rounds. *)
Lemma rounds_forever (fuel : nat) :
  countFlag flags <= 0 ->
  forall (count : Z) (p : Proc) (u : unit),
    fst (rounds L flags fuel pinger hosts start count p) <> Ret u.
Proof.
  intros Hneg. induction fuel as [|fuel IH]; intros count p u;
    [discriminate|].
  simpl. unfold bind.
  destruct (round L flags pinger hosts start count p) as [[c'| c | | |] p1];
    try discriminate.
  replace (countFlag flags >? 0) with false
    by (destruct (Z.gtb_spec (countFlag flags) 0); [lia | reflexivity]).
  simpl. apply IH.
Qed.

Lemma rounds_running (fuel : nat) :
  countFlag flags <= 0 ->
  forall (count : Z) (o : OS) (so : list string) (tr : list Event),
    start <= clock o ->
    sigint o = None ->
    exists evs o' so',
      rounds L flags fuel pinger hosts start count (mkProc o so tr)
      = (Diverge, mkProc o' so' (tr ++ evs))
      /\ counts_from count (emitted evs)
      /\ List.length (emitted evs) = fuel.
Proof.
  intros Hneg. induction fuel as [|fuel IH]; intros count o so tr Hstart Hs.
  - exists [], o, so. simpl. rewrite app_nil_r. auto.
  - simpl.
    destruct (round_returns count o so tr Hs) as (c' & p1 & E).
    destruct (round_inv count o so tr Hstart)
      as (evs1 & o1 & so1 & E1 & Hc1 & Hs1 & Hr1 & Hok1 & Hm).
    rewrite E in E1, Hm. simpl in E1, Hm. subst p1.
    destruct Hm as (-> & Hb & He & Hl).
    rewrite (bind_Ret _ _ _ _ _ E).
    replace (countFlag flags >? 0) with false
      by (destruct (Z.gtb_spec (countFlag flags) 0); [lia | reflexivity]).
    simpl.
    destruct (IH (wrap64 (count + 1)) o1 so1 (tr ++ evs1))
      as (evs2 & o2 & so2 & E2 & Hcf & Hlen); auto; try lia.
    exists (evs1 ++ evs2), o2, so2.
    rewrite E2, app_assoc, emitted_app, He. simpl.
    repeat split; auto.
Qed.

End Rounds.

(* ------------------------------------------------------------------ *)
(** ** monitorHosts *)

Lemma closes_unix (L : Lib) (up : Unix.unixPinger) :
  closes (mkPingerValue (Unix.unixPinger_Pinger L) up).
Proof.
  intros o. unfold pv_Close. simpl. unfold Unix.Close.
  destruct (Unix.conn up) as [id|]; [|unfold ret; eauto].
  unfold conn_Close. destruct (live_socket (Some id) o); eauto.
Qed.

Lemma closes_windows (wp : Windows.windowsPinger) :
  closes (mkPingerValue Windows.windowsPinger_Pinger wp).
Proof.
  intros o. unfold pv_Close. simpl. unfold Windows.Close.
  unfold bind, dll_FindProc, call_IcmpCloseHandle, dll_Release, ret.
  destruct (Windows.handle wp =? 0); simpl;
    destruct (dll_refs (helper o)) as [|r] eqn:Hr; simpl;
    try destruct (string_mem "IcmpCloseHandle" (dll_exports (helper o)));
    simpl; rewrite ?Hr;
    eexists; eexists; (split; [reflexivity|]); split; reflexivity.
Qed.

(** Constructing the transport returns, takes no time and, when it
    succeeds, gives nothing back and yields a transport whose probes are
    steady and return. *)
Lemma New_inv (goos : GOOS) (L : Lib) (o : OS) :
  exists r o1,
    New goos L o = (Ret r, o1)
    /\ clock o1 = clock o
    /\ sigint o1 = sigint o
    /\ (fst r = None -> snd r <> None)
    /\ (forall pv,
          r = (Some pv, None) ->
          releases o1 = releases o
          /\ (forall ip t, steady (pv_Ping pv ip t))
          /\ (forall ip, To4 ip <> None -> forall t, returns (pv_Ping pv ip t))
          /\ closes pv).
Proof.
  assert (U : exists r o1,
             (r <- Unix.newPinger ;; ret (as_Pinger (Unix.unixPinger_Pinger L) r)) o
             = (Ret r, o1)
             /\ clock o1 = clock o
             /\ sigint o1 = sigint o
             /\ (fst r = None -> snd r <> None)
             /\ (forall pv,
                   r = (Some pv, None) ->
                   releases o1 = releases o
                   /\ (forall ip t, steady (pv_Ping pv ip t))
                   /\ (forall ip, To4 ip <> None ->
                                  forall t, returns (pv_Ping pv ip t))
                   /\ closes pv)).
  { unfold Unix.newPinger, bind, icmp_ListenPacket, ret, as_Pinger.
    destruct (listen_err (net o)) as [e|]; simpl.
    - eexists. eexists. split; [reflexivity|].
      repeat split; try discriminate.
    - eexists. eexists. split; [reflexivity|].
      split; [reflexivity|]. split; [reflexivity|].
      split; [discriminate|].
      intros pv [= <-]. split; [|split; [|split]].
      + unfold releases. simpl. rewrite filter_app. simpl. apply app_nil_r.
      + intros ip t. apply steady_Ping_unix.
      + intros ip _ t. apply returns_Ping_unix.
      + apply closes_unix. }
  destruct goos; try exact U. clear U.
  unfold New, Windows.newPinger, bind, windows_LoadDLL, dll_FindProc,
    call_IcmpCreateFile, dll_Release, ret, as_Pinger.
  destruct (dll_load_err (helper o)) as [e|]; simpl.
  { eexists. eexists. split; [reflexivity|]. repeat split; discriminate. }
  destruct (string_mem "IcmpCreateFile" (dll_exports (helper o))); simpl.
  2:{ eexists. eexists. split; [reflexivity|]. repeat split; discriminate. }
  destruct (create_ret (helper o) =? INVALID_HANDLE_VALUE);
    destruct (create_ret (helper o) =? 0); simpl;
    eexists; eexists; (split; [reflexivity|]);
    (split; [reflexivity|]); (split; [reflexivity|]);
    (split; [discriminate|]); intros pv; try discriminate;
    intros [= <-]; (split; [|split; [|split]]);
    try (unfold releases; simpl; repeat rewrite filter_app; simpl;
         repeat rewrite app_nil_r; reflexivity);
    try (intros ip t; apply steady_Ping_windows);
    try (intros ip Hip t; apply returns_Ping_windows; assumption);
    try apply closes_windows.
Qed.

(** The deferred [Close] runs after the body returns or panics, and only
    then; it adds nothing to the trace or to the output. *)
Lemma defer_Close {A} (pv : PingerValue) (body : M Proc A) (p : Proc) :
  closes pv ->
  let b := body p in
  let r := with_defer (lift (pv_Close pv)) body p in
  trace (snd r) = trace (snd b)
  /\ stdout (snd r) = stdout (snd b)
  /\ sigint (os (snd r)) = sigint (os (snd b))
  /\ (fst r = Killed -> r = b)
  /\ (forall a, fst b = Ret a <-> fst r = Ret a)
  /\ (fst b = Diverge -> r = b).
Proof.
  intros Hc b r. subst b r. unfold with_defer.
  destruct (body p) as [[a| c | | |] p1]; simpl;
    try (repeat split; auto; intros; discriminate).
  - unfold lift. destruct (Hc (os p1)) as (e & o' & E & Hs & _). rewrite E.
    simpl. repeat split; auto; intros; discriminate.
  - unfold lift. destruct (Hc (os p1)) as (e & o' & E & Hs & _). rewrite E.
    simpl. repeat split; auto; intros; discriminate.
Qed.

Section MonitorHosts.

Variable L : Lib.
Variable goos : GOOS.
Variable flags : Flags.
Variable hosts : list HostInfo.








(** [monitorHosts] does not return on its own unless [countFlag] is
    positive or zero. *)
Lemma monitorHosts_never_returns (fuel : nat) (p : Proc) (u : unit) :
  countFlag flags < 0 ->
  fst (monitorHosts L goos flags fuel hosts p) <> Ret u.
Proof.
  intros Hneg. unfold monitorHosts.
  replace (countFlag flags =? 0) with false by (symmetry; apply Z.eqb_neq; lia).
  unfold bind at 1.
  destruct (lift (New goos L) p) as [[[pv err]| c | | |] p1]; try discriminate.
  destruct err as [e|]; [discriminate|].
  destruct pv as [pv|]; [|discriminate].
  unfold with_defer.
  match goal with
  | |- context [bind ?m ?k p1] => destruct (bind m k p1) as [out p2] eqn:Eb
  end.
  assert (Hout : out <> Ret u).
  { unfold bind in Eb.
    destruct (lift time_Now p1) as [[st| c | | |] p1'];
      try (injection Eb as <- _; discriminate).
    pose proof (rounds_forever L flags pv hosts st fuel
                  (Z.lt_le_incl _ _ Hneg) 0 p1' u) as H.
    rewrite Eb in H. exact H. }
  destruct out as [[]| c | | |]; simpl;
    try discriminate;
    [destruct u; elim Hout; reflexivity|].
  destruct (lift (pv_Close pv) p2) as [[e| c | | |] p3]; discriminate.
Qed.

(** The tail of [main] with a zero [countFlag] ends the process right
    after the resolution: nothing is asked of the system and no round is
    observed. *)
Lemma main_resolution_only (fmt_d : Z -> string) (fmt_s : Duration -> string)
      (fuel : nat) (names : list string) (p : Proc) :
  countFlag flags = 0 ->
  exists code p',
    main L goos flags fmt_d fmt_s fuel names p = (Exit code, p')
    /\ os p' = os p /\ trace p' = trace p
    /\ (names <> [] -> Forall (resolvable L) names -> code = 0).
Proof.
  intros Hz. unfold main.
  destruct names as [|n names]; simpl.
  { exists 1, p. repeat split; auto. congruence. }
  destruct (ResolveHosts L (n :: names)) as [recs [e|]] eqn:E.
  - exists 1, p. repeat split; auto. intros _ Hall.
    destruct (resolve_from_ok L (n :: names) [] Hall) as (recs' & E' & _).
    unfold ResolveHosts in E. congruence.
  - rewrite Hz. simpl. unfold bind, fmt_Println, modify, os_Exit. simpl.
    eexists. eexists. split; [reflexivity|]. simpl. auto.
Qed.

(** C3.  With [countFlag] zero, [monitorHosts] returns at once and changes
    nothing (no transport is constructed, no probe issued, no round
    emitted), and the tail of [main] ends the process right after the
    resolution.  With [countFlag] equal to N > 0, a run that no interrupt
    ends, whose transport can be constructed and whose hosts hold IPv4
    addresses, returns after emitting exactly the rounds 0, ..., N-1, one
    output line each.  With [countFlag] negative, [monitorHosts] never
    returns, whatever the fuel; under the same conditions it is still
    running after any number of rounds, numbered as [count++] numbers them
    from 0. *)
Theorem monitorHosts_count (o : OS) :
  (countFlag flags = 0 ->
   (forall fuel p, monitorHosts L goos flags fuel hosts p = (Ret tt, p))
   /\ (forall fmt_d fmt_s fuel names p,
          exists code p',
            main L goos flags fmt_d fmt_s fuel names p = (Exit code, p')
            /\ os p' = os p /\ trace p' = trace p
            /\ (names <> [] -> Forall (resolvable L) names -> code = 0)))
  /\
  (0 < countFlag flags <= max_int64 ->
   constructible goos L o -> sigint o = None -> ipv4_hosts hosts ->
   forall fuel,
     (Z.to_nat (countFlag flags) <= fuel)%nat ->
     exists p',
       monitorHosts L goos flags fuel hosts (mkProc o [] []) = (Ret tt, p')
       /\ emitted (trace p') = upto (Z.to_nat (countFlag flags))
       /\ begun (trace p') = upto (Z.to_nat (countFlag flags))
       /\ List.length (stdout p') = Z.to_nat (countFlag flags))
  /\
  (countFlag flags < 0 ->
   (forall fuel p u, fst (monitorHosts L goos flags fuel hosts p) <> Ret u)
   /\ (constructible goos L o -> sigint o = None -> ipv4_hosts hosts ->
       forall fuel,
       exists p',
         monitorHosts L goos flags fuel hosts (mkProc o [] []) = (Diverge, p')
         /\ counts_from 0 (emitted (trace p'))
         /\ List.length (emitted (trace p')) = fuel)).
Proof.
  assert (Hrun : countFlag flags <> 0 ->
                 constructible goos L o -> sigint o = None -> ipv4_hosts hosts ->
                 forall fuel,
                 exists pv o1,
                   (forall ip t, steady (pv_Ping pv ip t))
                   /\ Forall (fun h => forall t, returns (pv_Ping pv (IPAddr h) t))
                             hosts
                   /\ closes pv
                   /\ sigint o1 = None
                   /\ monitorHosts L goos flags fuel hosts (mkProc o [] [])
                      = with_defer (lift (pv_Close pv))
                          (rounds L flags fuel pv hosts (clock o1) 0)
                          (mkProc o1 [] [])).
  { intros Hnz (pv & o1 & E) Hs Hip fuel.
    destruct (New_inv goos L o) as (r & o1' & E' & Hc & Hs' & _ & Hpv).
    rewrite E in E'. injection E' as <- <-.
    destruct (Hpv pv eq_refl) as (_ & Hst & Hret & Hcl).
    exists pv, o1. split; [exact Hst|]. split; [|split; [exact Hcl|split]].
    - unfold ipv4_hosts in Hip. eapply Forall_impl; [|exact Hip].
      intros h Hh t. apply Hret. exact Hh.
    - congruence.
    - unfold monitorHosts.
      replace (countFlag flags =? 0) with false
        by (symmetry; apply Z.eqb_neq; assumption).
      assert (El : lift (New goos L) (mkProc o [] [])
                   = (Ret (Some pv, None), mkProc o1 [] []))
        by (unfold lift; simpl; rewrite E; reflexivity).
      rewrite (bind_Ret _ _ _ _ _ El). unfold with_defer.
      rewrite (bind_Ret _ _ _ _ _
                 (eq_refl : lift time_Now (mkProc o1 [] [])
                            = (Ret (clock o1), mkProc o1 [] []))).
      reflexivity. }
  split; [|split].
  - intros Hz. split.
    + intros fuel p. unfold monitorHosts. rewrite Hz. reflexivity.
    + intros fmt_d fmt_s fuel names p.
      apply main_resolution_only. exact Hz.
  - intros Hn Hcon Hs Hip fuel Hfuel.
    destruct (Hrun ltac:(lia) Hcon Hs Hip fuel)
      as (pv & o1 & Hst & Hans & Hcl & Hs1 & ->).
    destruct (rounds_exact L flags pv hosts (clock o1) Hst Hans fuel 0 o1 [] []
                (Z.le_refl _) Hs1 ltac:(lia) (proj2 Hn)
                ltac:(rewrite Z.sub_0_r; exact Hfuel))
      as (evs & o' & so' & E & _ & _ & He & Hb & Hl).
    rewrite Z.sub_0_r in He, Hl. simpl in E, Hl.
    unfold with_defer. rewrite E. unfold lift. simpl.
    destruct (Hcl o') as (e & o'' & Ec & _). rewrite Ec.
    eexists. split; [reflexivity|]. simpl.
    split; [exact He|]. split; [rewrite Hb; exact He | exact Hl].
  - intros Hneg. split.
    + intros fuel p u. apply monitorHosts_never_returns. exact Hneg.
    + intros Hcon Hs Hip fuel.
      destruct (Hrun ltac:(lia) Hcon Hs Hip fuel)
        as (pv & o1 & Hst & Hans & Hcl & Hs1 & ->).
      destruct (rounds_running L flags pv hosts (clock o1) Hst Hans fuel
                  ltac:(lia) 0 o1 [] [] (Z.le_refl _) Hs1)
        as (evs & o' & so' & E & Hcf & Hlen).
      unfold with_defer. rewrite E. simpl in *.
      eexists. split; [reflexivity|]. simpl. auto.
Qed.

(** C2, on the code.  A run of [monitorHosts] that an interrupt ends had
    constructed its transport and never gave it back: between the start of
    the run and the end of the process no [Close] of a connection, no
    [IcmpCloseHandle] and no [FreeLibrary] is called. *)
Theorem interrupt_skips_Close (fuel : nat) (o : OS) :
  let r := monitorHosts L goos flags fuel hosts (mkProc o [] []) in
  fst r = Killed ->
  constructible goos L o /\ releases (os (snd r)) = releases o.
Proof.
  unfold monitorHosts.
  destruct (countFlag flags =? 0); [discriminate|].
  destruct (New_inv goos L o) as ([pv err] & o1 & E & Hc & Hs & Hnn & Hpv).
  assert (El : lift (New goos L) (mkProc o [] [])
               = (Ret (pv, err), mkProc o1 [] []))
    by (unfold lift; simpl; rewrite E; reflexivity).
  rewrite (bind_Ret _ _ _ _ _ El).
  destruct err as [e|]; [discriminate|].
  destruct pv as [pv|]; [|discriminate].
  destruct (Hpv pv eq_refl) as (Hr & Hst & Hret & Hcl).
  match goal with
  | |- context [with_defer _ ?b ?p] =>
      destruct (defer_Close pv b p Hcl) as (_ & _ & _ & Hk & _)
  end.
  cbv zeta. intros Hkilled. rewrite (Hk Hkilled).
  split; [exists pv, o1; exact E|].
  rewrite (bind_Ret _ _ _ _ _
             (eq_refl : lift time_Now (mkProc o1 [] [])
                        = (Ret (clock o1), mkProc o1 [] []))).
  destruct (rounds_inv L flags pv hosts (clock o1) Hst fuel 0 o1 [] []
              (Z.le_refl _))
    as (evs & o' & so' & E' & _ & _ & Hrel & _).
  rewrite E'. simpl. congruence.
Qed.

End MonitorHosts.

(* ------------------------------------------------------------------ *)
(** ** The round loop on concrete systems *)

Lemma boot_constructible (goos : GOOS) : constructible goos lib (boot 100).
Proof.
  destruct goos; eexists; eexists; reflexivity.
Defined.

Lemma two_hosts_ipv4 : ipv4_hosts two_hosts.
Proof.
  repeat constructor; vm_compute; discriminate.
Defined.

(** Two rounds on the datagram transport; an unbounded run on the helper
    transport that is still going after three rounds; and a zero count. *)
Lemma monitorHosts_count_witness :
  (exists p',
      monitorHosts lib linux (every_second 2) 5 two_hosts (start_proc (boot 100))
      = (Ret tt, p')
      /\ emitted (trace p') = [0; 1]
      /\ begun (trace p') = [0; 1]
      /\ List.length (stdout p') = 2%nat)
  /\ (exists p',
         monitorHosts lib windows (every_second (-1)) 3 two_hosts
                      (start_proc (boot 100))
         = (Diverge, p')
         /\ counts_from 0 (emitted (trace p'))
         /\ List.length (emitted (trace p')) = 3%nat)
  /\ monitorHosts lib linux (every_second 0) 5 two_hosts (start_proc (boot 100))
     = (Ret tt, start_proc (boot 100)).
Proof.
  split; [|split].
  - apply (proj1 (proj2 (monitorHosts_count lib linux (every_second 2) two_hosts
                           (boot 100)))).
    + vm_compute. split; [reflexivity | discriminate].
    + exact (boot_constructible linux).
    + reflexivity.
    + exact two_hosts_ipv4.
    + vm_compute. lia.
  - apply (proj2 (proj2 (monitorHosts_count lib windows (every_second (-1))
                           two_hosts (boot 100)))).
    + reflexivity.
    + exact (boot_constructible windows).
    + reflexivity.
    + exact two_hosts_ipv4.
  - apply (proj1 (monitorHosts_count lib linux (every_second 0) two_hosts
                    (boot 100))).
    reflexivity.
Defined.


(** An interrupt during the read of the first probe: the process ends with
    the socket open and no call that gives it back. *)
Lemma interrupt_skips_Close_witness :
  fst (monitorHosts lib linux (every_second (-1)) 3 two_hosts
         (start_proc (interrupted (boot 100))))
  = Killed
  /\ calls (os (snd (monitorHosts lib linux (every_second (-1)) 3 two_hosts
                       (start_proc (interrupted (boot 100))))))
     = [CListenPacket 0; CSetDeadline 0 1000000100;
        CWriteTo 0 [8; 0; 8; 156; 16; 146; 0; 1; 112; 105; 110; 103] loopback]
  /\ releases (os (snd (monitorHosts lib linux (every_second (-1)) 3 two_hosts
                          (start_proc (interrupted (boot 100))))))
     = [].
Proof.
  split; [reflexivity|]. split; [reflexivity|].
  apply (proj2 (interrupt_skips_Close lib linux (every_second (-1)) two_hosts 3
                  (interrupted (boot 100)) eq_refl)).
Defined.

(* ================================================================== *)
(** * Further properties of the transports, the resolver and the loop *)

(* ------------------------------------------------------------------ *)
(** ** The datagram transport: timeouts, retries, use after close *)

Lemma SetDeadline_calls (c : option nat) (t : Time) (o o1 : OS) :
  conn_SetDeadline c t o = (Ret None, o1) ->
  calls o1 = calls o ++ [CSetDeadline (conn_id c) t].
Proof.
  unfold conn_SetDeadline. destruct (live_socket c o); [|discriminate].
  intros [= <-]. reflexivity.
Qed.

Lemma WriteTo_calls (c : option nat) (msg : list byte) (dst : IP) (o o1 : OS) :
  conn_WriteTo c msg dst o = (Ret None, o1) ->
  calls o1 = calls o ++ [CWriteTo (conn_id c) msg dst].
Proof.
  unfold conn_WriteTo. destruct (live_socket c o); [|discriminate].
  destruct (hd None (send_errs (net o))); [discriminate|].
  intros [= <-]. reflexivity.
Qed.

Lemma WriteTo_fails (c : option nat) (msg : list byte) (dst : IP) (o : OS)
      (sk : Socket) (e : error) :
  live_socket c o = inl sk ->
  hd None (send_errs (net o)) = Some e ->
  exists o1, conn_WriteTo c msg dst o = (Ret (Some e), o1)
             /\ calls o1 = calls o.
Proof.
  intros Hlive Hsend. unfold conn_WriteTo. rewrite Hlive, Hsend.
  eexists. split; reflexivity.
Qed.

Lemma ReadFrom_calls (c : option nat) (cap : nat) (o : OS) :
  calls (snd (conn_ReadFrom c cap o)) = calls o
  \/ calls (snd (conn_ReadFrom c cap o)) = calls o ++ [CReadFrom (conn_id c)].
Proof.
  unfold conn_ReadFrom, blocking.
  destruct (sigint o) as [[|n]|]; simpl; auto;
    match goal with
    | |- context [live_socket c ?s] =>
        change (live_socket c s) with (live_socket c o)
    end;
    (destruct (live_socket c o) as [sk|e]; simpl; auto);
    (destruct (inbox (net o)) as [|dg rest]; simpl;
     [|destruct (match sk_deadline sk with
                 | Some dl => dg_arrival dg <? dl
                 | None => true
                 end); simpl; auto]);
    destruct (sk_deadline sk); simpl; auto.
Qed.


Section UnixFurther.

Variable L : Lib.
Variable up : Unix.unixPinger.




Lemma bind_snd_pure {S A B} (m : M S A) (k : A -> M S B) (s : S) :
  (forall a s', snd (k a s') = s') -> snd (bind m k s) = snd (m s).
Proof.
  intros Hk. unfold bind. destruct (m s) as [[a| c | | |] s']; simpl; auto.
Qed.

(** X2.  One call of [Ping] on the datagram transport sets the deadline,
    sends and reads at most once each and in that order, and calls nothing
    else: what it adds to the log of calls is an initial part of "set the
    deadline to now + timeout; write the echo request with identifier
    pid & 0xffff and sequence number 1 to the probed address; read".
    There is no second send or read, whatever the outcome. *)
Theorem Ping_unix_one_exchange (ip : IP) (timeout : Duration) (o : OS) :
  exists made rest,
    calls (snd (Unix.Ping L up ip timeout o)) = calls o ++ made
    /\ made ++ rest = exchange L up ip timeout o.
Proof.
  unfold Unix.Ping.
  rewrite (bind_Ret _ _ _ _ _ (eq_refl : time_Now o = (Ret (clock o), o))).
  destruct (live_socket (Unix.conn up) o) as [sk|e] eqn:Hlive.
  2:{ unfold bind, conn_SetDeadline. rewrite Hlive. simpl.
      exists [], (exchange L up ip timeout o). rewrite app_nil_r. auto. }
  destruct (SetDeadline_live up o sk (Time_Add (clock o) timeout) Hlive)
    as (o1 & E1 & Hlive1 & Hc1 & Hs1 & Hp1 & Hse1 & Hi1).
  pose proof (SetDeadline_calls _ _ _ _ E1) as Hk1.
  rewrite (bind_Ret _ _ _ _ _ E1).
  rewrite (bind_Ret _ _ _ _ _ (eq_refl : os_Getpid o1 = (Ret (pid o1), o1))).
  rewrite Hp1.
  destruct (hd None (send_errs (net o1))) as [e|] eqn:Hsend.
  { destruct (WriteTo_fails (Unix.conn up)
                (Unix.createICMPMessage L (Z.land (pid o) 65535) 1) ip o1 _ e
                Hlive1 Hsend) as (o2 & E2 & Hk2).
    rewrite (bind_Ret _ _ _ _ _ E2). simpl.
    eexists [_], [_; _]. rewrite Hk2, Hk1. split; reflexivity. }
  destruct (WriteTo_live_any up ip o1 _
              (Unix.createICMPMessage L (Z.land (pid o) 65535) 1)
              Hlive1 Hsend) as (o2 & E2 & Hlive2 & Hc2 & Hs2 & Hi2).
  pose proof (WriteTo_calls _ _ _ _ _ E2) as Hk2.
  rewrite (bind_Ret _ _ _ _ _ E2).
  rewrite (bind_Ret _ _ _ _ _ (eq_refl : time_Now o2 = (Ret (clock o2), o2))).
  rewrite bind_snd_pure.
  2:{ intros [[reply peer] [e|]] s'; [reflexivity|].
      destruct (icmp_ParseMessage L ProtocolICMP reply) as [rm|e];
        [|reflexivity].
      destruct (Type_ rm =? ICMPTypeEchoReply); reflexivity. }
  destruct (ReadFrom_calls (Unix.conn up) 1500 o2) as [Hk3 | Hk3];
    rewrite Hk3, Hk2, Hk1, <- app_assoc.
  - eexists [_; _], [_]. split; reflexivity.
  - rewrite <- app_assoc. eexists [_; _; _], []. split; reflexivity.
Qed.

(** Closing a freshly constructed datagram transport closes its
    connection. *)
Lemma Close_unix_closes (o o1 : OS) :
  Unix.newPinger o = (Ret (Some up, None), o1) ->
  exists o2,
    Unix.Close up o1 = (Ret None, o2)
    /\ live_socket (Unix.conn up) o2 = inr ErrClosed
    /\ calls o2 = calls o1 ++ [CConnClose (conn_id (Unix.conn up))].
Proof.
  intros Hnew. destruct (newPinger_unix_inv o o1 up Hnew) as (Hup & Hlive).
  unfold Unix.Close. rewrite Hup in *. cbv beta iota delta [Unix.conn] in *.
  unfold conn_Close. rewrite Hlive.
  eexists. split; [reflexivity|]. split; [|reflexivity].
  change (live_socket (Some (List.length (socks (net o))))
            (put_socket (Some (List.length (socks (net o))))
               (mkSocket true None) o1) = inr ErrClosed).
  rewrite (live_socket_put _ _ _ _ Hlive). reflexivity.
Qed.

(** X3.  A probe on a datagram transport that has been closed fails with
    the closed-connection error before anything is sent: the state, and
    with it the log of calls, is left as it was. *)
Theorem Ping_unix_after_Close (ip : IP) (timeout : Duration) (o o1 o2 : OS)
        (e : option error) :
  Unix.newPinger o = (Ret (Some up, None), o1) ->
  Unix.Close up o1 = (Ret e, o2) ->
  Unix.Ping L up ip timeout o2 = (Ret (0, Some ErrClosed), o2).
Proof.
  intros Hnew Hclose.
  destruct (Close_unix_closes o o1 Hnew) as (o2' & E & Hdead & _).
  rewrite E in Hclose. injection Hclose as _ <-.
  unfold Unix.Ping, bind, time_Now, gets, conn_SetDeadline.
  rewrite Hdead. reflexivity.
Qed.


End UnixFurther.

(* ------------------------------------------------------------------ *)
(** ** The helper transport: construction, panics, use after close *)

(** X5.  [newPinger] of the helper transport succeeds exactly when the DLL
    loads, exports [IcmpCreateFile], and the call returns a value other
    than zero.  The pinger then holds that value as its handle, whatever it
    is: a return of [INVALID_HANDLE_VALUE] is taken as a handle too, and no
    error is reported for it. *)
Theorem newPinger_windows_success (o : OS) :
  ((exists wp o1, Windows.newPinger o = (Ret (Some wp, None), o1))
   <-> (dll_load_err (helper o) = None
        /\ string_mem "IcmpCreateFile" (dll_exports (helper o)) = true
        /\ create_ret (helper o) <> 0))
  /\ (forall wp o1,
        Windows.newPinger o = (Ret (Some wp, None), o1) ->
        Windows.handle wp = create_ret (helper o)
        /\ dll_refs (helper o1) = S (dll_refs (helper o))
        /\ calls o1 = calls o ++ [CLoadDLL; CIcmpCreateFile]).
Proof.
  unfold Windows.newPinger, bind, windows_LoadDLL, dll_FindProc,
    call_IcmpCreateFile, dll_Release, ret.
  destruct (dll_load_err (helper o)) as [e|]; simpl.
  { split; [split|]; [intros (wp & o1 & H); discriminate
                     | intros (H & _); discriminate
                     | intros wp o1 H; discriminate]. }
  destruct (string_mem "IcmpCreateFile" (dll_exports (helper o))); simpl.
  2:{ split; [split|]; [intros (wp & o1 & H); discriminate
                       | intros (_ & H & _); discriminate
                       | intros wp o1 H; discriminate]. }
  destruct (create_ret (helper o) =? 0) eqn:Hz;
    [apply Z.eqb_eq in Hz | apply Z.eqb_neq in Hz];
    destruct (create_ret (helper o) =? INVALID_HANDLE_VALUE); simpl.
  - split; [split|]; [intros (wp & o1 & H); discriminate
                     | intros (_ & _ & H); congruence
                     | intros wp o1 H; discriminate].
  - split; [split|]; [intros (wp & o1 & H); discriminate
                     | intros (_ & _ & H); congruence
                     | intros wp o1 H; discriminate].
  - split; [split; [auto | intros _; eexists; eexists; reflexivity]|].
    intros wp o1 [= <- <-]. simpl. rewrite <- app_assoc. auto.
  - split; [split; [auto | intros _; eexists; eexists; reflexivity]|].
    intros wp o1 [= <- <-]. simpl. rewrite <- app_assoc. auto.
Qed.

(** X6.  [newPinger] of the helper transport always returns, and when it
    returns an error it returns no pinger and has undone its load of the
    DLL: the load count is what it was.  The error tells the step that
    failed, and the calls made are those up to that step followed by the
    release. *)
Theorem newPinger_windows_failure (o : OS) :
  exists r o1,
    Windows.newPinger o = (Ret r, o1)
    /\ forall e,
         snd r = Some e ->
         fst r = None
         /\ dll_refs (helper o1) = dll_refs (helper o)
         /\ ((exists c, e = ErrLoadDLL c /\ o1 = o)
             \/ (exists c, e = ErrFindProc "IcmpCreateFile" c
                           /\ calls o1 = calls o ++ [CLoadDLL; CFreeLibrary])
             \/ (exists c, e = ErrCreateFile c
                           /\ calls o1
                              = calls o
                                ++ [CLoadDLL; CIcmpCreateFile; CFreeLibrary])).
Proof.
  unfold Windows.newPinger, bind, windows_LoadDLL, dll_FindProc,
    call_IcmpCreateFile, dll_Release, ret.
  destruct (dll_load_err (helper o)) as [e0|]; simpl.
  { eexists. eexists. split; [reflexivity|]. simpl.
    intros e [= <-]. repeat split. left. eauto. }
  destruct (string_mem "IcmpCreateFile" (dll_exports (helper o))); simpl.
  2:{ eexists. eexists. split; [reflexivity|]. simpl.
      intros e [= <-]. repeat split. right. left. eexists.
      split; [reflexivity|]. rewrite <- app_assoc. reflexivity. }
  destruct (create_ret (helper o) =? 0);
    destruct (create_ret (helper o) =? INVALID_HANDLE_VALUE); simpl;
    eexists; eexists; (split; [reflexivity|]); simpl; intros e He;
    try discriminate; injection He as <-; repeat split;
    right; right; eexists; (split; [reflexivity|]);
    repeat rewrite <- app_assoc; reflexivity.
Qed.

Section HelperFurther.

Variable wp : Windows.windowsPinger.

(** X7.  A probe of the helper transport for an address with no 4-byte
    form does not return an error: with [IcmpSendEcho] found, the
    conversion of the address panics, before the facility is called. *)
Theorem Ping_windows_non_ipv4 (ip : IP) (timeout : Duration) (o : OS) :
  To4 ip = None ->
  dll_refs (helper o) <> O ->
  string_mem "IcmpSendEcho" (dll_exports (helper o)) = true ->
  Windows.Ping wp ip timeout o = (Panicked, o).
Proof.
  intros Hip Hrefs Hexp. unfold Windows.Ping, bind, dll_FindProc.
  destruct (dll_refs (helper o)); [congruence|].
  rewrite Hexp, Hip. reflexivity.
Qed.

(** X8.  One call of [Ping] on the helper transport calls the facility at
    most once and calls nothing else: either the log of calls is left as it
    was, or it grows by exactly one [IcmpSendEcho] with the pinger's
    handle, the little-endian word of the address's 4-byte form, the four
    bytes "ping", a reply buffer of 44 bytes and the computed millisecond
    timeout. *)
Theorem Ping_windows_one_call (ip : IP) (timeout : Duration) (o : OS) :
  calls (snd (Windows.Ping wp ip timeout o)) = calls o
  \/ exists b ipAddr,
       To4 ip = Some b
       /\ LittleEndian_Uint32 b = Some ipAddr
       /\ calls (snd (Windows.Ping wp ip timeout o))
          = calls o ++ [CIcmpSendEcho (Windows.handle wp) ipAddr
                          (bytes_of_string "ping") 44 (timeoutMs_of timeout)].
Proof.
  unfold Windows.Ping, bind, dll_FindProc.
  destruct (dll_refs (helper o)) as [|refs']; [left; reflexivity|].
  destruct (string_mem "IcmpSendEcho" (dll_exports (helper o)));
    [|left; reflexivity].
  destruct (To4 ip) as [b|]; [|left; reflexivity].
  destruct (LittleEndian_Uint32 b) as [ipAddr|] eqn:Hw; [|left; reflexivity].
  fold (timeoutMs_of timeout).
  change (uint32 (uint32 Windows.sizeof_icmpEchoReply
                  + uint32 (Z.of_nat (List.length (bytes_of_string "ping")))))
    with 44.
  unfold call_IcmpSendEcho, blocking.
  destruct (sigint o) as [[|n]|]; [left; reflexivity| |];
    right; exists b, ipAddr; (split; [reflexivity|]); (split; [exact Hw|]);
    simpl; (destruct (echoes (helper o)) as [|ea rest]; simpl;
            [reflexivity|]);
    destruct (ea_ret ea =? 0); reflexivity.
Qed.

(** X9.  A probe on a helper transport that has been closed, when nothing
    else holds the DLL, fails with the error of not finding [IcmpSendEcho]
    and calls nothing: the stale handle is not handed to the facility. *)
Theorem Ping_windows_after_Close (ip : IP) (timeout : Duration) (o o1 o2 : OS)
        (e : option error) :
  dll_refs (helper o) = O ->
  Windows.newPinger o = (Ret (Some wp, None), o1) ->
  Windows.Close wp o1 = (Ret e, o2) ->
  Windows.Ping wp ip timeout o2
  = (Ret (0, Some (ErrFindProc "IcmpSendEcho" (ErrSys ERROR_MOD_NOT_FOUND))), o2).
Proof.
  intros H0 Hnew Hclose.
  destruct (newPinger_windows_inv o o1 wp Hnew) as (Hh & Hrefs & _).
  rewrite H0 in Hrefs.
  assert (Hr2 : dll_refs (helper o2) = O).
  { revert Hclose. unfold Windows.Close. rewrite Hh.
    unfold bind, dll_FindProc, call_IcmpCloseHandle, dll_Release, ret.
    rewrite Hrefs.
    destruct (string_mem "IcmpCloseHandle" (dll_exports (helper o1))); simpl;
      rewrite Hrefs; intros [= _ <-]; reflexivity. }
  unfold Windows.Ping, bind, dll_FindProc. rewrite Hr2. reflexivity.
Qed.

(** X10.  A successful probe of the helper transport reports a whole
    number of milliseconds between 0 and 2^32 - 1, and 0 is possible: a
    reply whose round-trip-time field is zero is a success of duration
    zero. *)
Theorem Ping_windows_rtt_range (ip : IP) (timeout : Duration) (o : OS)
        (ea : EchoAnswer) (rest : list EchoAnswer) :
  echo_ready ip o ->
  echoes (helper o) = ea :: rest ->
  ea_ret ea <> 0 ->
  byte_range (ea_reply ea) ->
  exists n,
    0 <= n < 2 ^ 32
    /\ n = Windows.RoundTripTime (Windows.reply_of (reply_buffer_of ea 44))
    /\ fst (Windows.Ping wp ip timeout o) = Ret (n * Millisecond, None)
    /\ (n = 0 -> fst (Windows.Ping wp ip timeout o) = Ret (0, None)).
Proof.
  intros H He Hret Hb.
  destruct (Ping_calls wp timeout ip o H) as (ipAddr & o' & _ & E).
  rewrite E, He. apply Z.eqb_neq in Hret. rewrite Hret.
  pose proof (le32_range (reply_buffer_of ea 44) 8
                (reply_buffer_range ea 44 Hb)) as Hr.
  exists (Windows.le32 (reply_buffer_of ea 44) 8).
  assert (Hm : Duration_mul (Windows.le32 (reply_buffer_of ea 44) 8) Millisecond
               = Windows.le32 (reply_buffer_of ea 44) 8 * Millisecond).
  { unfold Duration_mul. apply wrap64_small.
    unfold min_int64, max_int64, Millisecond.
    change (2 ^ 32) with 4294967296 in Hr. lia. }
  split; [exact Hr|]. split; [reflexivity|]. simpl.
  unfold Windows.reply_of. simpl. rewrite Hm.
  split; [reflexivity|]. intros ->. reflexivity.
Qed.

End HelperFurther.

(* ------------------------------------------------------------------ *)
(** ** The resolver: what a result tells, and which error comes back *)

Section ResolverFurther.

Variable L : Lib.

Lemma resolve_from_inv (hosts : list string) :
  forall resolved recs,
    resolve_from L hosts resolved = (recs, None) ->
    exists new,
      recs = resolved ++ new
      /\ map Hostname new = hosts
      /\ Forall (first_match L) new.
Proof.
  induction hosts as [|host rest IH]; intros resolved recs; simpl.
  - intros [= <-]. exists []. rewrite app_nil_r. auto.
  - destruct (net_LookupIP L host) as [ips [e|]] eqn:Hl; [discriminate|].
    destruct (first_ipv4 ips) as [ip|] eqn:Hf; [|discriminate].
    intros H. destruct (IH _ _ H) as (new & -> & Hn & Hm).
    exists (mkHostInfo host ip :: new). rewrite <- app_assoc. simpl.
    repeat split; [congruence|]. constructor; [|assumption].
    destruct (first_ipv4_Some _ _ Hf) as (before & after & ? & ? & ?).
    exists ips, before, after. simpl. auto.
Qed.

(** X11.  Whatever the name service answers, a result of [ResolveHosts]
    without error has one record per name, in input order, and every
    record's address has a 4-byte form: such a result can be handed to
    either transport, and no probe of it panics on the address. *)
Theorem ResolveHosts_result (hosts : list string) (recs : list HostInfo) :
  ResolveHosts L hosts = (recs, None) ->
  map Hostname recs = hosts
  /\ List.length recs = List.length hosts
  /\ ipv4_hosts recs.
Proof.
  unfold ResolveHosts. intros H.
  destruct (resolve_from_inv hosts [] recs H) as (new & -> & Hn & Hm).
  simpl. split; [exact Hn|]. split.
  - rewrite <- Hn. symmetry. apply length_map.
  - unfold ipv4_hosts. eapply Forall_impl; [|exact Hm].
    intros r (ips & before & after & _ & _ & _ & Hip). exact Hip.
Qed.

Lemma resolve_from_first_failure (done : list string) :
  forall resolved host rest,
    Forall (resolvable L) done ->
    resolve_from L (done ++ host :: rest) resolved
    = match net_LookupIP L host with
      | (_, Some e) => ([], Some (ErrResolve host e))
      | (ips, None) =>
          match first_ipv4 ips with
          | None => ([], Some (ErrNoIPv4 host))
          | Some ip =>
              resolve_from L rest
                (fst (resolve_from L done resolved) ++ [mkHostInfo host ip])
          end
      end.
Proof.
  induction done as [|d done IH]; intros resolved host rest Hall.
  - simpl. destruct (net_LookupIP L host) as [ips [e|]]; reflexivity.
  - inversion Hall as [|? ? Hd Hrest]; subst.
    destruct (resolvable_first_ipv4 L d Hd) as (ips & ip & Hl & Hf).
    simpl. rewrite Hl, Hf. apply IH. assumption.
Qed.

(** X12.  [ResolveHosts] stops at the first name that fails, in input
    order, and its error is about that name: the lookup's error wrapped
    with the name when the lookup fails, the no-IPv4 error for the name
    when the lookup succeeds but lists no address with a 4-byte form.  The
    names after it play no part. *)
Theorem ResolveHosts_first_failure (done : list string) (host : string)
        (rest : list string) :
  Forall (resolvable L) done ->
  (forall ips e,
      net_LookupIP L host = (ips, Some e) ->
      ResolveHosts L (done ++ host :: rest) = ([], Some (ErrResolve host e)))
  /\ (forall ips,
        net_LookupIP L host = (ips, None) ->
        Forall (fun ip => To4 ip = None) ips ->
        ResolveHosts L (done ++ host :: rest) = ([], Some (ErrNoIPv4 host))).
Proof.
  intros Hall. unfold ResolveHosts. split.
  - intros ips e Hl. rewrite (resolve_from_first_failure done [] host rest Hall).
    rewrite Hl. reflexivity.
  - intros ips Hl Hno.
    rewrite (resolve_from_first_failure done [] host rest Hall), Hl.
    destruct (first_ipv4 ips) as [ip|] eqn:Hf; [|reflexivity].
    destruct (first_ipv4_Some _ _ Hf) as (before & after & -> & _ & Hip).
    elim Hip. rewrite Forall_forall in Hno. apply Hno.
    apply in_or_app. right. left. reflexivity.
Qed.

End ResolverFurther.

(* ------------------------------------------------------------------ *)
(** ** The round loop: what a round prints, and the fatal start *)

Section LoopFurther.

Variable L : Lib.
Variable goos : GOOS.
Variable flags : Flags.

(** X13.  When the transport cannot be constructed and [countFlag] is not
    zero, [monitorHosts] ends the process with exit code 1 before any
    round: nothing is written to standard output and nothing is
    observed. *)
Theorem monitorHosts_construction_fails (fuel : nat) (hosts : list HostInfo)
        (p : Proc) (e : error) (o1 : OS) :
  countFlag flags <> 0 ->
  New goos L (os p) = (Ret (None, Some e), o1) ->
  monitorHosts L goos flags fuel hosts p
  = (Exit 1, mkProc o1 (stdout p) (trace p)).
Proof.
  intros Hnz Hnew. unfold monitorHosts.
  replace (countFlag flags =? 0) with false
    by (symmetry; apply Z.eqb_neq; assumption).
  unfold bind, lift. rewrite Hnew. reflexivity.
Qed.

Variable pinger : PingerValue.

(** The inner loop, when it returns: one observation and one painted name
    per host, in the order of the hosts. *)
Lemma probe_hosts_shape (count : Z) :
  forall (todo : list HostInfo) (parts parts' : list string) (o : OS)
         (so : list string) (tr : list Event) (p' : Proc),
    probe_hosts flags pinger count todo parts (mkProc o so tr) = (Ret parts', p') ->
    exists outs o',
      p' = mkProc o' so (tr ++ map (probed flags count) (combine todo outs))
      /\ List.length outs = List.length todo
      /\ parts' = parts ++ map (fun x => paint (fst x) (snd (snd x)))
                               (combine todo outs).
Proof.
  induction todo as [|host rest IH]; intros parts parts' o so tr p'.
  - simpl. intros [= <- <-]. exists [], o. simpl. rewrite !app_nil_r. auto.
  - simpl. unfold bind at 1. unfold lift at 1. simpl.
    destruct (pv_Ping pinger (IPAddr host) (timeout flags) o)
      as [[[rtt err]| c | | |] o1]; try discriminate.
    unfold bind at 1. unfold observe at 1, modify. simpl.
    destruct err as [e|]; intros H; apply IH in H;
      destruct H as (outs & o' & -> & Hlen & ->);
      [exists ((rtt, Some e) :: outs), o' | exists ((rtt, None) :: outs), o'];
      simpl; rewrite <- !app_assoc; simpl;
      (split; [reflexivity|]); split; congruence.
Qed.

(** X14.  A pass of the loop body that completes writes exactly one line:
    the clock reading at the beginning of the round unless [plainFlag] is
    set, then one painted name per host, in the order of the hosts, joined
    by single spaces; a name is green exactly when its probe returned no
    error.  Every host is probed exactly once, in that order, and the
    counter goes up by one. *)
Theorem round_line (hosts : list HostInfo) (start : Time) (count c' : Z)
        (o : OS) (so : list string) (tr : list Event) (p' : Proc) :
  round L flags pinger hosts start count (mkProc o so tr) = (Ret c', p') ->
  exists checked began outs o' line,
    p' = mkProc o' (so ++ [line])
           (tr ++ RoundBegin count
                    (Time_Add start (Duration_mul count (timeout flags)))
                    checked began
               :: map (probed flags count) (combine hosts outs)
               ++ [RoundEmitted count line])
    /\ List.length outs = List.length hosts
    /\ line = String.concat " "
                ((if plainFlag flags then [] else [time_Format L began])
                 ++ map (fun x => paint (fst x) (snd (snd x)))
                        (combine hosts outs))
    /\ c' = wrap64 (count + 1).
Proof.
  unfold round.
  set (target := Time_Add start (Duration_mul count (timeout flags))).
  rewrite (bind_Ret _ _ _ _ _
             (eq_refl : lift time_Now (mkProc o so tr)
                        = (Ret (clock o), mkProc o so tr))).
  rewrite (bind_Ret _ _ _ _ _
             (eq_refl : lift (time_Until target) (mkProc o so tr)
                        = (Ret (Time_Sub target (clock o)), mkProc o so tr))).
  destruct (wait_step (Time_Sub target (clock o)) o so tr)
    as [(Hk & E) | (o1 & E & _)].
  { match goal with
    | |- context [bind (if _ >? 0 then _ else _) ?k _] =>
        destruct (bind_stop _ k _ _ _ E) as (out' & E' & Hnr & _);
          [discriminate|]
    end.
    rewrite E'. intros [= H _]. elim (Hnr c'). exact H. }
  rewrite (bind_Ret _ _ _ _ _ E).
  rewrite (bind_Ret _ _ _ _ _
             (eq_refl : lift time_Now (mkProc o1 so tr)
                        = (Ret (clock o1), mkProc o1 so tr))).
  set (ev := RoundBegin count target (clock o) (clock o1)).
  rewrite (bind_Ret _ _ _ _ _
             (eq_refl : observe ev (mkProc o1 so tr)
                        = (Ret tt, mkProc o1 so (tr ++ [ev])))).
  assert (Eparts :
            (if negb (plainFlag flags)
             then now <- lift time_Now ;; ret [time_Format L now]
             else ret []) (mkProc o1 so (tr ++ [ev]))
            = (Ret (if plainFlag flags then [] else [time_Format L (clock o1)]),
               mkProc o1 so (tr ++ [ev]))).
  { destruct (plainFlag flags); reflexivity. }
  rewrite (bind_Ret _ _ _ _ _ Eparts).
  destruct (probe_hosts flags pinger count hosts
              (if plainFlag flags then [] else [time_Format L (clock o1)])
              (mkProc o1 so (tr ++ [ev]))) as [out p2] eqn:Ep.
  destruct out as [parts| c | | |];
    try (unfold bind at 1; rewrite Ep; discriminate).
  rewrite (bind_Ret _ _ _ _ _ Ep).
  destruct (probe_hosts_shape count hosts _ _ _ _ _ _ Ep)
    as (outs & o2 & -> & Hlen & ->).
  unfold bind, fmt_Println, observe, modify, ret. simpl.
  intros [= <- <-].
  exists (clock o), (clock o1), outs, o2. eexists.
  split; [|split; [exact Hlen | split; reflexivity]].
  rewrite <- !app_assoc. reflexivity.
Qed.

End LoopFurther.

(* ------------------------------------------------------------------ *)
(** ** The round loop: the order of the rounds in time *)

Lemma begin_pairs_app (l1 l2 : list Event) :
  begin_pairs (l1 ++ l2) = begin_pairs l1 ++ begin_pairs l2.
Proof.
  induction l1 as [|e l1 IH]; [reflexivity|].
  destruct e; simpl; rewrite IH; reflexivity.
Qed.

Lemma begun_nil_pairs (l : list Event) : begun l = [] -> begin_pairs l = [].
Proof.
  induction l as [|e l IH]; [reflexivity|].
  destruct e; simpl; try discriminate; auto.
Qed.

Lemma chained_lower (lo mid hi : Time) (l : list (Time * Time)) :
  lo <= mid -> chained mid l hi -> chained lo l hi.
Proof.
  destruct l as [|[ck bg] l]; simpl; intros; [lia|].
  repeat split; try tauto; lia.
Qed.

Lemma chained_app (l1 : list (Time * Time)) :
  forall lo mid hi l2,
    chained lo l1 mid -> chained mid l2 hi -> chained lo (l1 ++ l2) hi.
Proof.
  induction l1 as [|[ck bg] l1 IH]; simpl; intros lo mid hi l2 H1 H2.
  - eapply chained_lower; eauto.
  - destruct H1 as (? & ? & H1). repeat split; auto. eapply IH; eauto.
Qed.

Lemma defer_Close_clock {A} (pv : PingerValue) (body : M Proc A) (p : Proc) :
  closes pv ->
  clock (os (snd (with_defer (lift (pv_Close pv)) body p)))
  = clock (os (snd (body p))).
Proof.
  intros Hc. unfold with_defer.
  destruct (body p) as [[a| c | | |] p1]; simpl; auto;
    unfold lift; destruct (Hc (os p1)) as (e & o' & E & _ & Hk); rewrite E;
    simpl; exact Hk.
Qed.

Section LoopTimes.

Variable L : Lib.
Variable flags : Flags.
Variable pinger : PingerValue.
Variable hosts : list HostInfo.
Variable start : Time.

Hypothesis pinger_steady : forall ip t, steady (pv_Ping pinger ip t).

Lemma round_times (count : Z) (o : OS) (so : list string) (tr : list Event) :
  exists evs o' so',
    snd (round L flags pinger hosts start count (mkProc o so tr))
    = mkProc o' so' (tr ++ evs)
    /\ chained (clock o) (begin_pairs evs) (clock o').
Proof.
  unfold round.
  set (target := Time_Add start (Duration_mul count (timeout flags))).
  rewrite (bind_Ret _ _ _ _ _
             (eq_refl : lift time_Now (mkProc o so tr)
                        = (Ret (clock o), mkProc o so tr))).
  rewrite (bind_Ret _ _ _ _ _
             (eq_refl : lift (time_Until target) (mkProc o so tr)
                        = (Ret (Time_Sub target (clock o)), mkProc o so tr))).
  destruct (wait_step (Time_Sub target (clock o)) o so tr)
    as [(Hk & E) | (o1 & E & _ & _ & Hc1 & _)].
  { match goal with
    | |- context [bind (if _ >? 0 then _ else _) ?k _] =>
        destruct (bind_stop _ k _ _ _ E) as (out' & E' & _);
          [discriminate|]
    end.
    rewrite E'. exists [], o, so. rewrite app_nil_r. simpl.
    split; [reflexivity | lia]. }
  rewrite (bind_Ret _ _ _ _ _ E).
  rewrite (bind_Ret _ _ _ _ _
             (eq_refl : lift time_Now (mkProc o1 so tr)
                        = (Ret (clock o1), mkProc o1 so tr))).
  set (ev := RoundBegin count target (clock o) (clock o1)).
  rewrite (bind_Ret _ _ _ _ _
             (eq_refl : observe ev (mkProc o1 so tr)
                        = (Ret tt, mkProc o1 so (tr ++ [ev])))).
  assert (Eparts : exists parts0,
             (if negb (plainFlag flags)
              then now <- lift time_Now ;; ret [time_Format L now]
              else ret []) (mkProc o1 so (tr ++ [ev]))
             = (Ret parts0, mkProc o1 so (tr ++ [ev]))).
  { destruct (negb (plainFlag flags)); eexists; reflexivity. }
  destruct Eparts as (parts0 & Eparts).
  rewrite (bind_Ret _ _ _ _ _ Eparts).
  destruct (probe_hosts_inv flags pinger start pinger_steady count hosts parts0
              o1 so (tr ++ [ev]))
    as (evs & o2 & E2 & Hc2 & _ & _ & _ & Hb & _).
  apply begun_nil_pairs in Hb.
  destruct (probe_hosts flags pinger count hosts parts0
              (mkProc o1 so (tr ++ [ev]))) as [out p2] eqn:Ep.
  simpl in E2. subst p2.
  destruct out as [parts| c | | |].
  - rewrite (bind_Ret _ _ _ _ _ Ep).
    unfold bind, fmt_Println, observe, modify, ret. simpl.
    exists (ev :: evs ++ [RoundEmitted count (concat " " parts)]), o2,
      (so ++ [concat " " parts]).
    rewrite <- !app_assoc. simpl. rewrite begin_pairs_app, Hb. simpl.
    split; [reflexivity | lia].
  - unfold bind. rewrite Ep. simpl. exists (ev :: evs), o2, so.
    rewrite <- app_assoc. simpl. rewrite Hb. simpl. split; [reflexivity | lia].
  - unfold bind. rewrite Ep. simpl. exists (ev :: evs), o2, so.
    rewrite <- app_assoc. simpl. rewrite Hb. simpl. split; [reflexivity | lia].
  - unfold bind. rewrite Ep. simpl. exists (ev :: evs), o2, so.
    rewrite <- app_assoc. simpl. rewrite Hb. simpl. split; [reflexivity | lia].
  - unfold bind. rewrite Ep. simpl. exists (ev :: evs), o2, so.
    rewrite <- app_assoc. simpl. rewrite Hb. simpl. split; [reflexivity | lia].
Qed.

Lemma rounds_times (fuel : nat) :
  forall (count : Z) (o : OS) (so : list string) (tr : list Event),
  exists evs o' so',
    snd (rounds L flags fuel pinger hosts start count (mkProc o so tr))
    = mkProc o' so' (tr ++ evs)
    /\ chained (clock o) (begin_pairs evs) (clock o').
Proof.
  induction fuel as [|fuel IH]; intros count o so tr.
  - exists [], o, so. simpl. rewrite app_nil_r. split; [reflexivity | lia].
  - simpl. unfold bind at 1.
    destruct (round_times count o so tr) as (evs1 & o1 & so1 & E1 & Hch1).
    destruct (round L flags pinger hosts start count (mkProc o so tr))
      as [out p1].
    simpl in E1. subst p1.
    destruct out as [c'| c | | |]; try (exists evs1, o1, so1; auto; fail).
    destruct ((countFlag flags >? 0) && (c' >=? countFlag flags)).
    + exists evs1, o1, so1. auto.
    + destruct (IH c' o1 so1 (tr ++ evs1)) as (evs2 & o2 & so2 & E2 & Hch2).
      exists (evs1 ++ evs2), o2, so2. rewrite E2, app_assoc, begin_pairs_app.
      split; [reflexivity|]. eapply chained_app; eauto.
Qed.

End LoopTimes.

(** X15.  In every run of [monitorHosts], however it ends, the rounds
    follow one another in time: each round is checked no earlier than the
    start of the run and than the beginning of the round before it, begins
    no earlier than it is checked, and no later than the clock reads at
    the end of the run.  The beginnings of the rounds never go back. *)
Theorem rounds_in_time_order (L : Lib) (goos : GOOS) (flags : Flags)
        (fuel : nat) (hosts : list HostInfo) (o : OS) :
  let p' := snd (monitorHosts L goos flags fuel hosts (mkProc o [] [])) in
  chained (clock o) (begin_pairs (trace p')) (clock (os p')).
Proof.
  unfold monitorHosts.
  destruct (countFlag flags =? 0); [simpl; lia|].
  destruct (New_inv goos L o) as ([pv err] & o1 & E & Hc & Hs & Hnn & Hpv).
  assert (El : lift (New goos L) (mkProc o [] [])
               = (Ret (pv, err), mkProc o1 [] []))
    by (unfold lift; simpl; rewrite E; reflexivity).
  rewrite (bind_Ret _ _ _ _ _ El).
  destruct err as [e|]; [simpl; lia|].
  destruct pv as [pv|]; [|simpl; lia].
  destruct (Hpv pv eq_refl) as (Hr & Hst & Hret & Hcl).
  match goal with
  | |- context [with_defer _ ?b ?p] =>
      destruct (defer_Close pv b p Hcl) as (Et & _);
        pose proof (defer_Close_clock pv b p Hcl) as Ek
  end.
  cbv zeta. rewrite Et, Ek.
  rewrite (bind_Ret _ _ _ _ _
             (eq_refl : lift time_Now (mkProc o1 [] [])
                        = (Ret (clock o1), mkProc o1 [] []))).
  destruct (rounds_times L flags pv hosts (clock o1) Hst fuel 0 o1 [] [])
    as (evs & o' & so' & E' & Hch).
  rewrite E'. simpl. rewrite <- Hc. exact Hch.
Qed.

(* ------------------------------------------------------------------ *)
(** ** The round loop: what it keeps, and the release at the end *)

Lemma preserves_ret {S A} (I : S -> Prop) (a : A) : preserves I (ret a).
Proof. intros s H. exact H. Qed.

Lemma preserves_bind {S A B} (I : S -> Prop) (m : M S A) (k : A -> M S B) :
  preserves I m -> (forall a, preserves I (k a)) -> preserves I (bind m k).
Proof.
  intros Hm Hk s H. unfold bind. specialize (Hm s H).
  destruct (m s) as [[a| c | | |] s']; simpl in *; auto.
  apply Hk. exact Hm.
Qed.

Lemma preserves_lift {A} (I : OS -> Prop) (m : M OS A) :
  preserves I m -> preserves (fun p => I (os p)) (lift m).
Proof.
  intros Hm p H. unfold lift. specialize (Hm (os p) H).
  destruct (m (os p)) as [out o']. exact Hm.
Qed.

Lemma preserves_blocking {A} (I : OS -> Prop) (m : M OS A) :
  (forall s o, I o -> I (set_sigint s o)) ->
  preserves I m -> preserves I (blocking m).
Proof.
  intros Hsig Hm o H. unfold blocking.
  destruct (sigint o) as [[|n]|]; simpl; auto.
Qed.

Section LoopKeeps.

Variable L : Lib.
Variable flags : Flags.
Variable pinger : PingerValue.
Variable hosts : list HostInfo.
Variable start : Time.
Variable I : OS -> Prop.

Hypothesis Ping_keeps : forall ip t, preserves I (pv_Ping pinger ip t).
Hypothesis Sleep_keeps : forall d, preserves I (time_Sleep d).

Lemma probe_hosts_keeps (count : Z) (todo : list HostInfo) :
  forall parts,
    preserves (fun p => I (os p)) (probe_hosts flags pinger count todo parts).
Proof.
  induction todo as [|host rest IH]; intros parts; simpl.
  - apply preserves_ret.
  - apply preserves_bind; [apply preserves_lift, Ping_keeps|].
    intros [rtt err]. apply preserves_bind; [intros p H; exact H|].
    intros _. apply IH.
Qed.

Lemma round_keeps (count : Z) :
  preserves (fun p => I (os p)) (round L flags pinger hosts start count).
Proof.
  unfold round.
  apply preserves_bind; [intros p H; exact H | intros checked].
  apply preserves_bind; [intros p H; exact H | intros wait].
  apply preserves_bind.
  { destruct (wait >? 0); [apply preserves_lift, Sleep_keeps
                          | apply preserves_ret]. }
  intros _.
  apply preserves_bind; [intros p H; exact H | intros began].
  apply preserves_bind; [intros p H; exact H | intros _].
  apply preserves_bind.
  { destruct (negb (plainFlag flags)); intros p H; exact H. }
  intros parts0.
  apply preserves_bind; [apply probe_hosts_keeps | intros parts].
  intros p H. exact H.
Qed.

(** Whatever a probe and a sleep keep, the loop keeps. *)
Lemma rounds_keeps (fuel : nat) :
  forall count,
    preserves (fun p => I (os p))
              (rounds L flags fuel pinger hosts start count).
Proof.
  induction fuel as [|fuel IH]; intros count; simpl.
  - intros p H. exact H.
  - apply preserves_bind; [apply round_keeps | intros c'].
    destruct ((countFlag flags >? 0) && (c' >=? countFlag flags));
      [apply preserves_ret | apply IH].
Qed.

End LoopKeeps.

Lemma live_socket_socks (c : option nat) (o o' : OS) :
  socks (net o') = socks (net o) -> live_socket c o' = live_socket c o.
Proof.
  intros H. unfold live_socket. rewrite H. reflexivity.
Qed.

Lemma is_open_socks (c : option nat) (o o' : OS) :
  socks (net o') = socks (net o) -> is_open c o -> is_open c o'.
Proof.
  intros H (sk & Hl). exists sk. rewrite (live_socket_socks c o o' H). exact Hl.
Qed.

Lemma Sleep_keeps_socks (d : Duration) (o : OS) :
  socks (net (snd (time_Sleep d o))) = socks (net o)
  /\ dll_refs (helper (snd (time_Sleep d o))) = dll_refs (helper o)
  /\ dll_exports (helper (snd (time_Sleep d o))) = dll_exports (helper o).
Proof.
  unfold time_Sleep. destruct (d <=? 0); [auto|].
  unfold blocking. destruct (sigint o) as [[|n]|]; simpl; auto.
Qed.

(** A probe of the datagram transport leaves its connection open. *)
Lemma Ping_unix_keeps_open (L : Lib) (up : Unix.unixPinger) (ip : IP)
      (timeout : Duration) :
  preserves (is_open (Unix.conn up)) (Unix.Ping L up ip timeout).
Proof.
  unfold Unix.Ping.
  apply preserves_bind; [intros o H; exact H | intros now].
  apply preserves_bind.
  { intros o (sk & Hl).
    destruct (SetDeadline_live up o sk (Time_Add now timeout) Hl)
      as (o1 & E1 & Hlive1 & _).
    rewrite E1. simpl. eexists. exact Hlive1. }
  intros [e|]; [apply preserves_ret|].
  apply preserves_bind; [intros o H; exact H | intros p].
  apply preserves_bind.
  { intros o H. eapply is_open_socks; [|exact H].
    unfold conn_WriteTo. destruct (live_socket (Unix.conn up) o); [|reflexivity].
    destruct (hd None (send_errs (net o))); reflexivity. }
  intros [e|]; [apply preserves_ret|].
  apply preserves_bind; [intros o H; exact H | intros st].
  apply preserves_bind.
  { unfold conn_ReadFrom. apply preserves_blocking.
    - intros s o H. eapply is_open_socks; [|exact H]. reflexivity.
    - intros o H. eapply is_open_socks; [|exact H].
      destruct (live_socket (Unix.conn up) o) as [sk|e]; [|reflexivity].
      destruct (inbox (net o)) as [|dg rest]; simpl.
      + destruct (sk_deadline sk); reflexivity.
      + destruct (match sk_deadline sk with
                  | Some dl => dg_arrival dg <? dl
                  | None => true
                  end); [reflexivity|].
        destruct (sk_deadline sk); reflexivity. }
  intros [[reply peer] [e|]]; [apply preserves_ret|].
  destruct (icmp_ParseMessage L ProtocolICMP reply) as [rm|e];
    [|apply preserves_ret].
  destruct (Type_ rm =? ICMPTypeEchoReply); [|apply preserves_ret].
  intros o H. exact H.
Qed.

(** A probe of the helper transport leaves the DLL as loaded as it was. *)
Lemma Ping_windows_keeps_dll (refs : nat) (wp : Windows.windowsPinger)
      (ip : IP) (timeout : Duration) :
  preserves (dll_held refs) (Windows.Ping wp ip timeout).
Proof.
  intros o H. unfold Windows.Ping, bind, dll_FindProc.
  destruct (dll_refs (helper o)) as [|r]; [exact H|].
  destruct (string_mem "IcmpSendEcho" (dll_exports (helper o))); [|exact H].
  destruct (match To4 ip with
            | Some b => LittleEndian_Uint32 b
            | None => None
            end); [|exact H].
  unfold call_IcmpSendEcho, blocking.
  destruct (sigint o) as [[|n]|]; [exact H| |];
    simpl; (destruct (echoes (helper o)) as [|ea rest]; simpl;
            [exact H|]); destruct (ea_ret ea =? 0); exact H.
Qed.

Section Release.

Variable L : Lib.
Variable flags : Flags.
Variable hosts : list HostInfo.

(** [monitorHosts] past the construction of the transport: the loop under
    the deferred [Close]. *)
Lemma monitorHosts_unfold (goos : GOOS) (fuel : nat) (o o1 : OS)
      (so : list string) (tr : list Event) (pv : PingerValue) :
  countFlag flags <> 0 ->
  New goos L o = (Ret (Some pv, None), o1) ->
  monitorHosts L goos flags fuel hosts (mkProc o so tr)
  = with_defer (lift (pv_Close pv))
      (rounds L flags fuel pv hosts (clock o1) 0) (mkProc o1 so tr).
Proof.
  intros Hnz E. unfold monitorHosts.
  replace (countFlag flags =? 0) with false
    by (symmetry; apply Z.eqb_neq; assumption).
  assert (El : lift (New goos L) (mkProc o so tr)
               = (Ret (Some pv, None), mkProc o1 so tr))
    by (unfold lift; simpl; rewrite E; reflexivity).
  rewrite (bind_Ret _ _ _ _ _ El). unfold with_defer.
  rewrite (bind_Ret _ _ _ _ _
             (eq_refl : lift time_Now (mkProc o1 so tr)
                        = (Ret (clock o1), mkProc o1 so tr))).
  reflexivity.
Qed.

(** A bounded run that nothing interrupts: the loop returns, and the
    state it returns in has had nothing given back and keeps what a probe
    and a sleep keep. *)
Lemma rounds_return_keeping (fuel : nat) (pv : PingerValue) (o1 : OS)
      (so : list string) (tr : list Event) (I : OS -> Prop) :
  0 < countFlag flags <= max_int64 ->
  (Z.to_nat (countFlag flags) <= fuel)%nat ->
  sigint o1 = None ->
  (forall ip t, steady (pv_Ping pv ip t)) ->
  Forall (fun h => forall t, returns (pv_Ping pv (IPAddr h) t)) hosts ->
  (forall ip t, preserves I (pv_Ping pv ip t)) ->
  (forall d, preserves I (time_Sleep d)) ->
  I o1 ->
  exists o' so' evs,
    rounds L flags fuel pv hosts (clock o1) 0 (mkProc o1 so tr)
    = (Ret tt, mkProc o' so' (tr ++ evs))
    /\ releases o' = releases o1
    /\ I o'
    /\ emitted evs = upto (Z.to_nat (countFlag flags))
    /\ List.length so' = (List.length so + Z.to_nat (countFlag flags))%nat.
Proof.
  intros Hn Hfuel Hs Hst Hans Hping Hsleep HI.
  destruct (rounds_exact L flags pv hosts (clock o1) Hst Hans fuel 0 o1 so tr
              (Z.le_refl _) Hs ltac:(lia) (proj2 Hn)
              ltac:(rewrite Z.sub_0_r; exact Hfuel))
    as (evs & o' & so' & E & _ & _ & He & _ & Hl).
  rewrite Z.sub_0_r in He, Hl.
  destruct (rounds_inv L flags pv hosts (clock o1) Hst fuel 0 o1 so tr
              (Z.le_refl _))
    as (evs2 & o2 & so2 & E2 & _ & _ & Hrel & _).
  rewrite E in E2. simpl in E2. injection E2 as -> _ _.
  pose proof (rounds_keeps L flags pv hosts (clock o1) I Hping Hsleep fuel 0
                (mkProc o1 so tr) HI) as Hkeep.
  rewrite E in Hkeep. simpl in Hkeep.
  exists o2, so', evs. auto.
Qed.

(** X16.  On the builds with the datagram transport, a bounded run that
    nothing interrupts ends with exactly one release: the deferred [Close]
    closes the connection after the last round, as the last call of the
    run; no connection is closed before it, and the connection is then
    closed. *)
Theorem monitorHosts_closes_unix (goos : GOOS) (fuel : nat) (o : OS) :
  goos <> windows ->
  0 < countFlag flags <= max_int64 ->
  (Z.to_nat (countFlag flags) <= fuel)%nat ->
  listen_err (net o) = None ->
  sigint o = None ->
  exists p' before,
    monitorHosts L goos flags fuel hosts (mkProc o [] []) = (Ret tt, p')
    /\ calls (os p') = before ++ [CConnClose (List.length (socks (net o)))]
    /\ filter is_release before = releases o
    /\ live_socket (Some (List.length (socks (net o)))) (os p') = inr ErrClosed
    /\ emitted (trace p') = upto (Z.to_nat (countFlag flags)).
Proof.
  intros Hgoos Hn Hfuel Hlisten Hs.
  set (id := List.length (socks (net o))).
  set (up := Unix.mkUnixPinger (Some id)).
  set (pv := mkPingerValue (Unix.unixPinger_Pinger L) up).
  assert (Hnew : exists o1,
             New goos L o = (Ret (Some pv, None), o1)
             /\ Unix.newPinger o = (Ret (Some up, None), o1)).
  { assert (E : exists o1, Unix.newPinger o = (Ret (Some up, None), o1)).
    { unfold Unix.newPinger, bind, icmp_ListenPacket. rewrite Hlisten.
      eexists. reflexivity. }
    destruct E as (o1 & E). exists o1. split; [|exact E].
    destruct goos; try congruence; unfold New, bind; rewrite E; reflexivity. }
  destruct Hnew as (o1 & Hnew & Hunix).
  destruct (newPinger_unix_inv o o1 up Hunix) as (_ & Hlive).
  assert (Ho1 : sigint o1 = None /\ releases o1 = releases o).
  { unfold Unix.newPinger, bind, icmp_ListenPacket in Hunix.
    rewrite Hlisten in Hunix. injection Hunix as <-. split; [exact Hs|].
    unfold releases. simpl. rewrite filter_app. simpl. apply app_nil_r. }
  destruct Ho1 as (Hs1 & Hr1).
  rewrite (monitorHosts_unfold goos fuel o o1 [] [] pv ltac:(lia) Hnew).
  destruct (rounds_return_keeping fuel pv o1 [] [] (is_open (Some id)) Hn Hfuel
              Hs1
              (fun ip t => steady_Ping_unix L up ip t)
              ltac:(apply Forall_forall; intros h _ t;
                    apply returns_Ping_unix)
              (fun ip t => Ping_unix_keeps_open L up ip t)
              ltac:(intros d s Hopen; eapply is_open_socks; [|exact Hopen];
                    apply Sleep_keeps_socks)
              ltac:(eexists; exact Hlive))
    as (o' & so' & evs & E & Hrel & (sk & Hopen) & He & _).
  unfold with_defer. rewrite E. unfold lift. simpl.
  unfold pv_Close. simpl. unfold Unix.Close. simpl.
  unfold conn_Close. fold id. rewrite Hopen.
  eexists. exists (calls o'). split; [reflexivity|]. simpl.
  split; [reflexivity|]. split; [unfold releases in *; congruence|].
  split; [|exact He].
  change (live_socket (Some id)
            (put_socket (Some id) (mkSocket true (sk_deadline sk)) o')
          = inr ErrClosed).
  rewrite (live_socket_put _ _ _ _ Hopen). reflexivity.
Qed.

(** X17.  On the build with the helper transport, a bounded run that
    nothing interrupts ends with exactly one release: after the last round
    the deferred [Close] closes the pinger's handle and then releases the
    DLL, as the last two calls of the run, and the DLL's load count is back
    to what it was before the run. *)
Theorem monitorHosts_closes_windows (fuel : nat) (o : OS) :
  0 < countFlag flags <= max_int64 ->
  (Z.to_nat (countFlag flags) <= fuel)%nat ->
  constructible windows L o ->
  string_mem "IcmpCloseHandle" (dll_exports (helper o)) = true ->
  sigint o = None ->
  ipv4_hosts hosts ->
  exists p' before,
    monitorHosts L windows flags fuel hosts (mkProc o [] []) = (Ret tt, p')
    /\ calls (os p')
       = before ++ [CIcmpCloseHandle (create_ret (helper o)); CFreeLibrary]
    /\ filter is_release before = releases o
    /\ dll_refs (helper (os p')) = dll_refs (helper o)
    /\ emitted (trace p') = upto (Z.to_nat (countFlag flags)).
Proof.
  intros Hn Hfuel (pv & o1 & Hnew) Hexp Hs Hip.
  assert (Hw : exists wp,
             pv = mkPingerValue Windows.windowsPinger_Pinger wp
             /\ Windows.newPinger o = (Ret (Some wp, None), o1)).
  { unfold New, bind in Hnew.
    destruct (Windows.newPinger o) as [[[[wp|] err]| c | | |] o1'];
      try discriminate; simpl in Hnew; unfold ret, as_Pinger in Hnew;
      simpl in Hnew; injection Hnew as <- <- <-.
    exists wp. auto. }
  destruct Hw as (wp & -> & Hwin).
  destruct (newPinger_windows_inv o o1 wp Hwin) as (Hh & Hrefs & Hexps).
  assert (Hhandle : Windows.handle wp = create_ret (helper o)
                    /\ sigint o1 = None /\ releases o1 = releases o).
  { revert Hwin.
    unfold Windows.newPinger, bind, windows_LoadDLL, dll_FindProc,
      call_IcmpCreateFile, dll_Release, ret.
    destruct (dll_load_err (helper o)); simpl; [discriminate|].
    destruct (string_mem "IcmpCreateFile" (dll_exports (helper o))); simpl;
      [|discriminate].
    destruct (create_ret (helper o) =? 0);
      destruct (create_ret (helper o) =? INVALID_HANDLE_VALUE); simpl;
      try discriminate; intros [= <- <-]; simpl;
      (split; [reflexivity|]); (split; [exact Hs|]);
      unfold releases; simpl; rewrite !filter_app; simpl;
      rewrite !app_nil_r; reflexivity. }
  destruct Hhandle as (Hhv & Hs1 & Hr1).
  rewrite (monitorHosts_unfold windows fuel o o1 [] [] _ ltac:(lia) Hnew).
  destruct (rounds_return_keeping fuel
              (mkPingerValue Windows.windowsPinger_Pinger wp) o1 [] []
              (dll_held (S (dll_refs (helper o)))) Hn Hfuel Hs1
              (fun ip t => steady_Ping_windows wp ip t)
              ltac:(unfold ipv4_hosts in Hip; eapply Forall_impl; [|exact Hip];
                    intros h Hh4 t; apply returns_Ping_windows; exact Hh4)
              (fun ip t => Ping_windows_keeps_dll _ wp ip t)
              ltac:(intros d s (Hd1 & Hd2); split;
                    [rewrite (proj1 (proj2 (Sleep_keeps_socks d s))); exact Hd1
                    |rewrite (proj2 (proj2 (Sleep_keeps_socks d s))); exact Hd2])
              ltac:(split; [exact Hrefs | rewrite Hexps; exact Hexp]))
    as (o' & so' & evs & E & Hrel & (Hd1 & Hd2) & He & _).
  unfold with_defer. rewrite E. unfold lift. simpl.
  unfold pv_Close. simpl. unfold Windows.Close. rewrite Hh.
  unfold bind, dll_FindProc, call_IcmpCloseHandle, dll_Release, ret.
  rewrite Hd1, Hd2. simpl. rewrite Hd1. simpl.
  eexists. exists (calls o'). split; [reflexivity|]. simpl.
  rewrite <- app_assoc, Hhv. simpl.
  split; [reflexivity|]. split; [unfold releases in *; congruence|].
  split; [reflexivity | exact He].
Qed.

End Release.

(* ------------------------------------------------------------------ *)
(** ** The tail of main *)

Section MainFurther.

Variable L : Lib.
Variable goos : GOOS.
Variable flags : Flags.
Variable fmt_d : Z -> string.
Variable fmt_s : Duration -> string.

(** X18.  The tail of [main] fails fast: with no host named, or with a
    name that does not resolve to an IPv4 address, the process ends with
    exit code 1 before anything else happens, whatever [countFlag] is: no
    line is written to standard output, no transport is constructed and no
    probe is sent. *)
Theorem main_fails_fast (fuel : nat) (names : list string) (p : Proc) :
  names = [] \/ Exists (fun h => ~ resolvable L h) names ->
  main L goos flags fmt_d fmt_s fuel names p = (Exit 1, p).
Proof.
  intros [-> | Hex]; [reflexivity|].
  unfold main. destruct names as [|n names]; [reflexivity|]. simpl.
  destruct (resolve_from_fail L (n :: names) [] Hex) as (e & E).
  unfold ResolveHosts. rewrite E. reflexivity.
Qed.


End MainFurther.

(* ------------------------------------------------------------------ *)
(** ** The configuration file *)

Import config.

Ltac run_cfg :=
  unfold LoadConfig, SaveConfig, getConfigPath, bind, ret, gets,
    os_Getenv_XDG, os_UserHomeDir, os_MkdirAll, os_ReadFile, os_WriteFile;
  simpl.

Ltac split_cases :=
  repeat (cbn;
          match goal with
          | |- context [match ?x with _ => _ end] =>
              lazymatch x with
              | context [match _ with _ => _ end] => fail
              | _ => destruct x eqn:?
              end
          end);
  cbn.

(** Where [getConfigPath] leads depends on the environment alone, not on
    the files and directories there are. *)
Lemma getConfigPath_stable (C : Codec) (cp path : string) (fs fs0 fs' : FS) :
  getConfigPath C cp fs = (Ret (path, None), fs0) ->
  xdg_config_home fs' = xdg_config_home fs ->
  user_home fs' = user_home fs ->
  mkdir_err fs' = mkdir_err fs ->
  exists fs0',
    getConfigPath C cp fs' = (Ret (path, None), fs0')
    /\ files fs0' = files fs' /\ files fs0 = files fs
    /\ read_err fs0' = read_err fs' /\ read_err fs0 = read_err fs
    /\ write_err fs0 = write_err fs
    /\ xdg_config_home fs0 = xdg_config_home fs
    /\ user_home fs0 = user_home fs
    /\ mkdir_err fs0 = mkdir_err fs.
Proof.
  intros H Hx Hh Hm. revert H.
  unfold getConfigPath, bind, ret, gets, os_Getenv_XDG, os_UserHomeDir,
    os_MkdirAll.
  destruct (negb (cp =? "")%string).
  { intros [= <- <-]. eexists. repeat split; reflexivity. }
  cbn. rewrite Hx.
  destruct (xdg_config_home fs =? "")%string; cbn; rewrite ?Hh, ?Hm.
  - destruct (user_home fs) as [home|e] eqn:Eh; cbn; rewrite ?Hm;
      [|discriminate].
    destruct (mkdir_err fs (filepath_Join C (filepath_Join C home ".config")
                              DefaultConfigDirName)); [discriminate|].
    intros [= <- <-]. eexists. repeat split; cbn; congruence.
  - destruct (mkdir_err fs (filepath_Join C (xdg_config_home fs)
                              DefaultConfigDirName)); [discriminate|].
    intros [= <- <-]. eexists. repeat split; cbn; congruence.
Qed.

(** X20.  A configuration file that does not exist is not an error:
    wherever the path leads, when no file is there [LoadConfig] returns
    the default configuration (a timeout of 5 s, timestamps shown, a count
    of -1) and no error. *)
Theorem LoadConfig_missing_file (C : Codec) (cp path : string) (fs fs0 : FS) :
  getConfigPath C cp fs = (Ret (path, None), fs0) ->
  read_err fs path = None ->
  lookup path (files fs) = None ->
  LoadConfig C cp fs = (Ret (Some (mkConfig 5000000000 true (-1)), None), fs0).
Proof.
  intros Hp Hr Hl.
  destruct (getConfigPath_stable C cp path fs fs0 fs Hp eq_refl eq_refl eq_refl)
    as (_ & _ & _ & Hf & _ & Hre & _).
  unfold LoadConfig. rewrite (bind_Ret _ _ _ _ _ Hp).
  assert (Hr0 : read_err fs0 path = None) by (rewrite Hre; exact Hr).
  assert (Hl0 : lookup path (files fs0) = None) by (rewrite Hf; exact Hl).
  unfold bind, os_ReadFile. rewrite Hr0, Hl0. reflexivity.
Qed.

(** X21.  [LoadConfig] always returns, with a configuration or with an
    error and never with both or neither; it never writes or changes a
    file; and with a custom path it creates no directory. *)
Theorem LoadConfig_result (C : Codec) (cp : string) (fs : FS) :
  exists r fs',
    LoadConfig C cp fs = (Ret r, fs')
    /\ (fst r = None <-> snd r <> None)
    /\ files fs' = files fs
    /\ (cp <> EmptyString -> dirs fs' = dirs fs).
Proof.
  run_cfg.
  destruct (cp =? "")%string eqn:Hcp; simpl.
  2:{ split_cases; eexists; eexists; (split; [reflexivity|]); simpl;
      repeat split; intros; congruence. }
  apply String.eqb_eq in Hcp. subst cp.
  split_cases; eexists; eexists; (split; [reflexivity|]); simpl;
    repeat split; intros; congruence.
Qed.

(** X22.  What [SaveConfig] saves, [LoadConfig] loads: when the path can be
    determined, the file can be written and read, and the YAML codec gives
    back the configuration it encoded, loading from the same path after
    saving returns the saved configuration. *)
Theorem Save_then_Load (C : Codec) (cfg : Config) (cp path : string)
        (data : list byte) (fs fs0 : FS) :
  getConfigPath C cp fs = (Ret (path, None), fs0) ->
  write_err fs path = None ->
  read_err fs path = None ->
  yaml_Marshal C cfg = inl data ->
  yaml_Unmarshal C data DefaultConfig = inl cfg ->
  exists fs1 fs2,
    SaveConfig C cfg cp fs = (Ret None, fs1)
    /\ LoadConfig C cp fs1 = (Ret (Some cfg, None), fs2).
Proof.
  intros Hp Hw Hr Hm Hu.
  destruct (getConfigPath_stable C cp path fs fs0 fs Hp eq_refl eq_refl eq_refl)
    as (_ & _ & _ & Hf0 & _ & Hre0 & Hwe0 & Hx0 & Hh0 & Hmk0).
  set (fs1 := mkFS (xdg_config_home fs0) (user_home fs0) (dirs fs0)
                   ((path, data) :: files fs0)
                   (mkdir_err fs0) (read_err fs0) (write_err fs0)).
  assert (Es : SaveConfig C cfg cp fs = (Ret None, fs1)).
  { unfold SaveConfig. rewrite (bind_Ret _ _ _ _ _ Hp). rewrite Hm.
    assert (Hw0 : write_err fs0 path = None) by (rewrite Hwe0; exact Hw).
    unfold bind, os_WriteFile. rewrite Hw0. reflexivity. }
  destruct (getConfigPath_stable C cp path fs fs0 fs1 Hp Hx0 Hh0 Hmk0)
    as (fs2 & Hp2 & Hf2 & _ & Hre2 & _).
  exists fs1, fs2. split; [exact Es|].
  unfold LoadConfig. rewrite (bind_Ret _ _ _ _ _ Hp2).
  assert (Hr2 : read_err fs2 path = None)
    by (rewrite Hre2; cbn; rewrite Hre0; exact Hr).
  assert (Hl2 : lookup path (files fs2) = Some data)
    by (rewrite Hf2; cbn; rewrite String.eqb_refl; reflexivity).
  unfold bind, os_ReadFile. rewrite Hr2, Hl2. cbn. rewrite Hu. reflexivity.
Qed.

(** X23.  [SaveConfig] always returns, and it writes exactly when it
    returns no error: then the one file written is the encoding of the
    configuration, and otherwise the files are as they were. *)
Theorem SaveConfig_writes_iff (C : Codec) (cfg : Config) (cp : string) (fs : FS) :
  exists e fs',
    SaveConfig C cfg cp fs = (Ret e, fs')
    /\ (e = None ->
        exists path data,
          yaml_Marshal C cfg = inl data
          /\ files fs' = (path, data) :: files fs)
    /\ (e <> None -> files fs' = files fs).
Proof.
  run_cfg.
  destruct (cp =? "")%string eqn:Hcp; simpl;
    split_cases; eexists; eexists; (split; [reflexivity|]); simpl;
    split; intros; try congruence; try discriminate;
    eexists; eexists; split; reflexivity.
Qed.

(** X24.  With no custom path and XDG_CONFIG_HOME set, the home directory
    plays no part, even when it cannot be determined; and loading is not
    free of effects: when the directory can be made, [LoadConfig] has
    run [MkdirAll] on <XDG_CONFIG_HOME>/muod by the time it returns, whether
    or not a file is there. *)
Theorem LoadConfig_default_path (C : Codec) (fs : FS) :
  xdg_config_home fs <> EmptyString ->
  mkdir_err fs (filepath_Join C (xdg_config_home fs) "muod") = None ->
  exists r fs',
    LoadConfig C "" fs = (Ret r, fs')
    /\ dirs fs' = filepath_Join C (xdg_config_home fs) "muod" :: dirs fs
    /\ (read_err fs (filepath_Join C (filepath_Join C (xdg_config_home fs) "muod")
                                    "muod.yaml") = None ->
        lookup (filepath_Join C (filepath_Join C (xdg_config_home fs) "muod")
                                "muod.yaml") (files fs) = None ->
        r = (Some DefaultConfig, None)).
Proof.
  intros Hx Hm. run_cfg.
  replace (xdg_config_home fs =? "")%string with false
    by (symmetry; apply String.eqb_neq; exact Hx).
  simpl. unfold DefaultConfigDirName, DefaultConfigFileName. rewrite Hm. simpl.
  split_cases; eexists; eexists; (split; [reflexivity|]); simpl;
    (split; [reflexivity|]); intros; congruence.
Qed.


(* ------------------------------------------------------------------ *)
(** ** The further properties on concrete systems *)

Import Scenario.



Lemma Ping_unix_after_Close_witness :
  fst (Unix.Ping lib up0 testnet (ms 200)
         (snd (Unix.Close up0 (listening (boot 100)))))
  = Ret (0, Some ErrClosed).
Proof.
  rewrite (Ping_unix_after_Close lib up0 testnet (ms 200) (boot 100)
             (listening (boot 100))
             (snd (Unix.Close up0 (listening (boot 100)))) None
             eq_refl eq_refl).
  reflexivity.
Defined.


(** [INVALID_HANDLE_VALUE] is taken as a handle. *)
Lemma newPinger_windows_success_witness :
  exists wp o1,
    Windows.newPinger invalid_handle = (Ret (Some wp, None), o1)
    /\ Windows.handle wp = INVALID_HANDLE_VALUE.
Proof.
  destruct (proj2 (proj1 (newPinger_windows_success invalid_handle)))
    as (wp & o1 & E).
  - repeat split; try reflexivity. vm_compute. discriminate.
  - exists wp, o1. split; [exact E|].
    exact (proj1 (proj2 (newPinger_windows_success invalid_handle) wp o1 E)).
Defined.

(** A zero from [IcmpCreateFile]: an error, no pinger, and the DLL
    released. *)
Lemma newPinger_windows_failure_witness :
  exists e o1,
    Windows.newPinger no_handle = (Ret (None, Some e), o1)
    /\ dll_refs (helper o1) = O.
Proof.
  destruct (newPinger_windows_failure no_handle) as (r & o1 & E & H).
  assert (Hs : snd r = Some (ErrCreateFile (ErrSys 0)))
    by (vm_compute in E; injection E as <- _; reflexivity).
  destruct (H _ Hs) as (Hf & Hr & _).
  exists (ErrCreateFile (ErrSys 0)), o1. split; [|exact Hr].
  rewrite E. destruct r as [w e]. simpl in Hf, Hs. subst. reflexivity.
Defined.

Lemma Ping_windows_non_ipv4_witness :
  fst (Windows.Ping wp0 loopback6 (ms 200) (attached (boot 100))) = Panicked.
Proof.
  rewrite (Ping_windows_non_ipv4 wp0 loopback6 (ms 200) (attached (boot 100))).
  - reflexivity.
  - reflexivity.
  - vm_compute. discriminate.
  - reflexivity.
Defined.

Lemma Ping_windows_after_Close_witness :
  fst (Windows.Ping wp0 testnet (ms 200)
         (snd (Windows.Close wp0 (attached (boot 100)))))
  = Ret (0, Some (ErrFindProc "IcmpSendEcho" (ErrSys ERROR_MOD_NOT_FOUND))).
Proof.
  assert (E1 : Windows.newPinger (boot 100)
               = (Ret (Some wp0, None), attached (boot 100)))
    by (vm_compute; reflexivity).
  assert (E2 : Windows.Close wp0 (attached (boot 100))
               = (Ret None, snd (Windows.Close wp0 (attached (boot 100)))))
    by (vm_compute; reflexivity).
  rewrite (Ping_windows_after_Close wp0 testnet (ms 200) (boot 100)
             (attached (boot 100)) _ None eq_refl E1 E2).
  reflexivity.
Defined.

(** An answer with a round-trip time of zero is a success of duration
    zero. *)
Lemma Ping_windows_rtt_range_witness :
  fst (Windows.Ping wp0 testnet (ms 200)
         (attached (with_echoes [instant] (boot 100))))
  = Ret (0, None).
Proof.
  destruct (Ping_windows_rtt_range wp0 testnet (ms 200)
              (attached (with_echoes [instant] (boot 100))) instant []
              (attached_ready [instant]) eq_refl)
    as (n & _ & Hn & _ & H0).
  - vm_compute. discriminate.
  - unfold byte_range. vm_compute. repeat constructor; discriminate.
  - apply H0. rewrite Hn. reflexivity.
Defined.

Lemma ResolveHosts_result_witness :
  map Hostname (fst (ResolveHosts lib ["localhost"; "mapped.test"]%string))
  = ["localhost"; "mapped.test"]%string
  /\ ipv4_hosts (fst (ResolveHosts lib ["localhost"; "mapped.test"]%string)).
Proof.
  destruct (ResolveHosts_result lib ["localhost"; "mapped.test"]%string
              (fst (ResolveHosts lib ["localhost"; "mapped.test"]%string))
              eq_refl) as (H1 & _ & H3).
  split; assumption.
Defined.

Lemma localhost_resolvable : resolvable lib "localhost".
Proof.
  exists [loopback6; loopback]. split; [reflexivity|].
  apply Exists_cons_tl, Exists_cons_hd. vm_compute. discriminate.
Defined.

(** The error is about the first name that fails, whatever follows it. *)
Lemma ResolveHosts_first_failure_witness :
  ResolveHosts lib ["localhost"; "v6only.test"; "nowhere.test"]%string
  = ([], Some (ErrNoIPv4 "v6only.test"))
  /\ ResolveHosts lib ["localhost"; "nowhere.test"; "v6only.test"]%string
     = ([], Some (ErrResolve "nowhere.test" (ErrLookup 1))).
Proof.
  split.
  - apply (proj2 (ResolveHosts_first_failure lib ["localhost"]%string
                    "v6only.test" ["nowhere.test"]%string
                    (Forall_cons _ localhost_resolvable (Forall_nil _)))
             [loopback6] eq_refl).
    repeat constructor.
  - apply (proj1 (ResolveHosts_first_failure lib ["localhost"]%string
                    "nowhere.test" ["v6only.test"]%string
                    (Forall_cons _ localhost_resolvable (Forall_nil _)))
             [] (ErrLookup 1) eq_refl).
Defined.

Lemma monitorHosts_construction_fails_witness :
  fst (monitorHosts lib linux (every_second 2) 5 two_hosts (start_proc deaf))
  = Exit 1.
Proof.
  rewrite (monitorHosts_construction_fails lib linux (every_second 2) 5
             two_hosts (start_proc deaf) (ErrSys 1) deaf).
  - reflexivity.
  - vm_compute. discriminate.
  - reflexivity.
Defined.

(** One pass over two hosts with nothing queued: a timestamp and two red
    names. *)
Lemma round_line_witness :
  exists p' line,
    round lib (every_second 2) up0_value two_hosts 100 0
          (mkProc (listening (boot 100)) [] [])
    = (Ret 1, p')
    /\ stdout p' = [line]
    /\ line = String.concat " "
                ["00:00:00"; paint (mkHostInfo "127.0.0.1" loopback)
                               (Some ErrDeadline);
                 paint (mkHostInfo "192.0.2.1" testnet) (Some ErrDeadline)]%string.
Proof.
  pose (p' := snd (round lib (every_second 2) up0_value two_hosts 100 0
                     (mkProc (listening (boot 100)) [] []))).
  assert (E : round lib (every_second 2) up0_value two_hosts 100 0
                    (mkProc (listening (boot 100)) [] [])
              = (Ret 1, p'))
    by (vm_compute; reflexivity).
  destruct (round_line lib (every_second 2) up0_value two_hosts 100 0 1
              (listening (boot 100)) [] [] p' E)
    as (checked & began & outs & o' & line & Hp & _ & _ & _).
  exists p', line. split; [exact E|].
  split; [rewrite Hp; reflexivity|].
  vm_compute in Hp. injection Hp as _ Hline _.
  rewrite <- Hline. vm_compute. reflexivity.
Defined.

(** Two rounds on the datagram transport end with the one [Close]. *)
Lemma monitorHosts_closes_unix_witness :
  exists p' before,
    monitorHosts lib linux (every_second 2) 5 two_hosts (mkProc (boot 100) [] [])
    = (Ret tt, p')
    /\ calls (os p') = before ++ [CConnClose 0]
    /\ filter is_release before = [].
Proof.
  destruct (monitorHosts_closes_unix lib (every_second 2) two_hosts linux 5
              (boot 100))
    as (p' & before & E & Hc & Hr & _).
  - discriminate.
  - vm_compute. split; [reflexivity | discriminate].
  - vm_compute. lia.
  - reflexivity.
  - reflexivity.
  - exists p', before. auto.
Defined.

Lemma monitorHosts_closes_windows_witness :
  exists p' before,
    monitorHosts lib windows (every_second 2) 5 two_hosts (mkProc (boot 100) [] [])
    = (Ret tt, p')
    /\ calls (os p') = before ++ [CIcmpCloseHandle 4096; CFreeLibrary]
    /\ dll_refs (helper (os p')) = O.
Proof.
  destruct (monitorHosts_closes_windows lib (every_second 2) two_hosts 5
              (boot 100))
    as (p' & before & E & Hc & _ & Hd & _).
  - vm_compute. split; [reflexivity | discriminate].
  - vm_compute. lia.
  - exact (boot_constructible windows).
  - reflexivity.
  - reflexivity.
  - exact two_hosts_ipv4.
  - exists p', before. auto.
Defined.

(** No host, and a host with IPv6 addresses only. *)
Lemma main_fails_fast_witness :
  main lib linux (every_second 2) fmt_d fmt_seconds 5 [] (start_proc (boot 100))
  = (Exit 1, start_proc (boot 100))
  /\ main lib linux (every_second 2) fmt_d fmt_seconds 5
          ["localhost"; "v6only.test"]%string (start_proc (boot 100))
     = (Exit 1, start_proc (boot 100)).
Proof.
  split.
  - apply (main_fails_fast lib linux (every_second 2) fmt_d fmt_seconds 5 []
             (start_proc (boot 100))).
    left. reflexivity.
  - apply (main_fails_fast lib linux (every_second 2) fmt_d fmt_seconds 5
             ["localhost"; "v6only.test"]%string (start_proc (boot 100))).
    right. apply Exists_cons_tl, Exists_cons_hd.
    intros (ips & Hl & Hex). vm_compute in Hl. injection Hl as <-.
    inversion Hex as [? ? H|? ? H]; subst;
      [apply H; reflexivity | inversion H].
Defined.


(** A fresh account: no file, the defaults. *)
Lemma LoadConfig_missing_file_witness :
  fst (LoadConfig codec "" home_fs)
  = Ret (Some (mkConfig 5000000000 true (-1)), None).
Proof.
  rewrite (LoadConfig_missing_file codec "" "/home/u/.config/muod/muod.yaml"
             home_fs (snd (getConfigPath codec "" home_fs))
             eq_refl eq_refl eq_refl).
  reflexivity.
Defined.

Lemma LoadConfig_result_witness :
  exists r fs',
    LoadConfig codec "/etc/muod.yaml" home_fs = (Ret r, fs')
    /\ dirs fs' = [] /\ files fs' = [].
Proof.
  destruct (LoadConfig_result codec "/etc/muod.yaml" home_fs)
    as (r & fs' & E & _ & Hf & Hd).
  exists r, fs'. split; [exact E|]. split; [|exact Hf].
  apply Hd. discriminate.
Defined.

Lemma Save_then_Load_witness :
  exists fs1 fs2,
    SaveConfig codec quick "" home_fs = (Ret None, fs1)
    /\ LoadConfig codec "" fs1 = (Ret (Some quick, None), fs2).
Proof.
  apply (Save_then_Load codec quick "" "/home/u/.config/muod/muod.yaml"
           [1000000000; 0; 3] home_fs (snd (getConfigPath codec "" home_fs))
           eq_refl eq_refl eq_refl eq_refl eq_refl).
Defined.

Lemma SaveConfig_writes_iff_witness :
  exists fs', 
    SaveConfig codec quick "/etc/muod.yaml" home_fs = (Ret None, fs')
    /\ files fs' = [("/etc/muod.yaml"%string, [1000000000; 0; 3])].
Proof.
  destruct (SaveConfig_writes_iff codec quick "/etc/muod.yaml" home_fs)
    as (e & fs' & E & Hw & _).
  assert (He : e = None) by (vm_compute in E; injection E as <- _; reflexivity).
  destruct (Hw He) as (path & data & Hm & Hf).
  subst e. exists fs'. split; [exact E|].
  vm_compute in E. injection E as <-. reflexivity.
Defined.

(** XDG_CONFIG_HOME set and no home directory to be found: the defaults,
    and the directory made. *)
Lemma LoadConfig_default_path_witness :
  exists fs',
    LoadConfig codec "" xdg_fs = (Ret (Some DefaultConfig, None), fs')
    /\ dirs fs' = ["/xdg/muod"%string].
Proof.
  destruct (LoadConfig_default_path codec xdg_fs) as (r & fs' & E & Hd & Hr).
  - discriminate.
  - reflexivity.
  - exists fs'. rewrite E, (Hr eq_refl eq_refl). split; [reflexivity | exact Hd].
Defined.
